(** * peruanita_bank_import: bank statement import and payment matching

    A shallow embedding of [models/bank_import.py] and
    [wizards/bank_import_wizard.py] and the properties of the parsing
    pipeline and of the match engine.

    Conventions of the embedding
    - A Python [str] is a [string]; one [ascii] is one character.  The
      character classes used by [strip], [isdigit], [lower] and [upper]
      are the ASCII ones.  An empty Odoo [Char] field ([False]) and the
      empty string are both [EmptyString]: the code tests such fields
      for truthiness, and formats them in one message ([str_char]).
    - A Python [float] is a binary64 [spec_float].
    - Library calls whose result the repository does not decide
      ([float()], [str()] of a float, [strptime], base64 and UTF-8
      decoding, the spreadsheet readers, the clock, the payment registry)
      are the fields of [builtins]: the general theorems hold for all of
      them, and [Ref] gives them a reading that computes, for the
      examples.
    - The ORM is a record store without rollback: a method that raises
      leaves the writes it made before raising.  Logging is dropped. *)

From Stdlib Require Import String Ascii List ZArith Bool Lia Arith PeanoNat.
From Stdlib Require Import Floats.SpecFloat.
Import ListNotations.

Local Open Scope string_scope.
Local Open Scope list_scope.

(** ** Python string operations *)

Module Py.

Definition quote : ascii := "034"%char.
Definition newline : ascii := "010"%char.

(** [bool(s)] for a string. *)
Definition truthy (s : string) : bool :=
  match s with EmptyString => false | String _ _ => true end.

Definition str_eqb (a b : string) : bool := String.eqb a b.

(** [s.startswith(p)] *)
Fixpoint startswith (p s : string) : bool :=
  match p, s with
  | EmptyString, _ => true
  | String a p', String b s' => Ascii.eqb a b && startswith p' s'
  | String _ _, EmptyString => false
  end.

(** [needle in s] *)
Fixpoint contains (needle s : string) : bool :=
  startswith needle s ||
  match s with
  | EmptyString => false
  | String _ s' => contains needle s'
  end.

Fixpoint rev_onto (s acc : string) : string :=
  match s with
  | EmptyString => acc
  | String c s' => rev_onto s' (String c acc)
  end.

Definition rev (s : string) : string := rev_onto s EmptyString.

(** [s.endswith(p)] *)
Definition endswith (p s : string) : bool := startswith (rev p) (rev s).

Fixpoint lstrip_by (p : ascii -> bool) (s : string) : string :=
  match s with
  | EmptyString => EmptyString
  | String c s' => if p c then lstrip_by p s' else s
  end.

Definition rstrip_by (p : ascii -> bool) (s : string) : string :=
  rev (lstrip_by p (rev s)).

Definition strip_by (p : ascii -> bool) (s : string) : string :=
  rstrip_by p (lstrip_by p s).

(** The whitespace of [str.strip()] among the ASCII characters. *)
Definition is_space (c : ascii) : bool :=
  let n := nat_of_ascii c in
  (((9 <=? n) && (n <=? 13)) || ((28 <=? n) && (n <=? 32)))%nat.

(** [s.strip()] *)
Definition strip (s : string) : string := strip_by is_space s.

(** [s.strip(c)] and [s.lstrip(c)] for a one-character set. *)
Definition strip_char (c : ascii) (s : string) : string := strip_by (Ascii.eqb c) s.
Definition lstrip_char (c : ascii) (s : string) : string := lstrip_by (Ascii.eqb c) s.

(** [s.replace(c, '')] for a one-character [c]. *)
Fixpoint remove_char (c : ascii) (s : string) : string :=
  match s with
  | EmptyString => EmptyString
  | String a s' => if Ascii.eqb a c then remove_char c s' else String a (remove_char c s')
  end.

(** [s.split(sep)] for a one-character separator. *)
Fixpoint split (sep : ascii) (s : string) : list string :=
  match s with
  | EmptyString => [EmptyString]
  | String c s' =>
      if Ascii.eqb c sep then EmptyString :: split sep s'
      else match split sep s' with
           | [] => [String c EmptyString]
           | h :: t => String c h :: t
           end
  end.

Definition map_chars (f : ascii -> ascii) : string -> string :=
  fix go (s : string) : string :=
    match s with
    | EmptyString => EmptyString
    | String c s' => String (f c) (go s')
    end.

Definition lower_char (c : ascii) : ascii :=
  let n := nat_of_ascii c in
  if ((65 <=? n) && (n <=? 90))%nat then ascii_of_nat (n + 32) else c.

Definition upper_char (c : ascii) : ascii :=
  let n := nat_of_ascii c in
  if ((97 <=? n) && (n <=? 122))%nat then ascii_of_nat (n - 32) else c.

(** [s.lower()], [s.upper()] *)
Definition lower : string -> string := map_chars lower_char.
Definition upper : string -> string := map_chars upper_char.

Definition is_digit (c : ascii) : bool :=
  let n := nat_of_ascii c in ((48 <=? n) && (n <=? 57))%nat.

Fixpoint all_chars (p : ascii -> bool) (s : string) : bool :=
  match s with
  | EmptyString => true
  | String c s' => p c && all_chars p s'
  end.

(** [s.isdigit()] *)
Definition isdigit (s : string) : bool := truthy s && all_chars is_digit s.

Fixpoint int_acc (s : string) (acc : Z) : Z :=
  match s with
  | EmptyString => acc
  | String c s' => int_acc s' (10 * acc + Z.of_nat (nat_of_ascii c - 48))%Z
  end.

(** [int(s)] on a string that passed [isdigit]. *)
Definition int (s : string) : Z := int_acc s 0%Z.

(** [s[-n:]] *)
Definition suffix (n : nat) (s : string) : string :=
  substring (String.length s - n) n s.

(** [sep.join(l)] *)
Fixpoint join (sep : string) (l : list string) : string :=
  match l with
  | [] => EmptyString
  | [s] => s
  | s :: l' => s ++ sep ++ join sep l'
  end.

(** [str(n)] for a non-negative integer. *)
Fixpoint digits_fuel (fuel : nat) (n : Z) (acc : string) : string :=
  match fuel with
  | O => acc
  | S fuel' =>
      let acc' := String (ascii_of_nat (48 + Z.to_nat (n mod 10)%Z)) acc in
      if (n <? 10)%Z then acc' else digits_fuel fuel' (n / 10)%Z acc'
  end.

Definition str_nat (n : Z) : string :=
  digits_fuel (S (Z.to_nat (Z.log2 n))) n EmptyString.

(** [str(n)] for an integer. *)
Definition str_int (n : Z) : string :=
  if (n <? 0)%Z then String "-"%char (str_nat (- n)%Z) else str_nat n.

(** [str(n).zfill(w)], as the [%02d] and [%04d] of a format. *)
Fixpoint zeros (n : nat) : string :=
  match n with
  | O => EmptyString
  | S n' => String "0"%char (zeros n')
  end.

Definition pad_zero (w : nat) (s : string) : string :=
  zeros (w - String.length s) ++ s.

End Py.


(** ** Python floats: binary64 *)

Module Float.

Definition float := spec_float.
Definition prec : Z := 53.
Definition emax : Z := 1024.

Definition zero : float := S754_zero false.
Definition eqb (x y : float) : bool := SFeqb x y.
Definition ltb (x y : float) : bool := SFltb x y.
Definition leb (x y : float) : bool := SFleb x y.
Definition abs (x : float) : float := SFabs x.
Definition neg (x : float) : float := SFopp x.
Definition sub (x y : float) : float := SFsub prec emax x y.
Definition add (x y : float) : float := SFadd prec emax x y.
Definition mul (x y : float) : float := SFmul prec emax x y.
Definition div (x y : float) : float := SFdiv prec emax x y.

(** [float(n)] for an integer [n]. *)
Definition of_Z (n : Z) : float := binary_normalize prec emax n 0 false.

(** [bool(x)], that is [x != 0.0]: a NaN is truthy. *)
Definition truthy (x : float) : bool := negb (eqb x zero).

Definition is_nan (x : float) : bool :=
  match x with S754_nan => true | _ => false end.

(** The literals [0.01] and [100.0]. *)
Definition cent : float := Eval vm_compute in div (of_Z 1) (of_Z 100).
Definition hundred : float := Eval vm_compute in of_Z 100.

End Float.


(** ** Dates *)

Record date := mk_date { year : Z; month : Z; day : Z }.

Record datetime := mk_datetime {
  dt_date : date; hour : Z; minute : Z; second : Z; microsecond : Z }.

Definition is_leap (y : Z) : bool :=
  ((y mod 4 =? 0) && negb (y mod 100 =? 0) || (y mod 400 =? 0))%Z.

Definition days_in_month (y m : Z) : Z :=
  if (m =? 2)%Z then (if is_leap y then 29 else 28)%Z
  else if ((m =? 4) || (m =? 6) || (m =? 9) || (m =? 11))%Z then 30%Z
  else 31%Z.

(** [datetime(y, m, d).date()]; [None] is the [ValueError] of a day that
    does not exist. *)
Definition make_date (y m d : Z) : option date :=
  if ((1 <=? y) && (y <=? 9999) && (1 <=? m) && (m <=? 12)
      && (1 <=? d) && (d <=? days_in_month y m))%Z
  then Some (mk_date y m d) else None.

Definition pad (w : nat) (n : Z) : string := Py.pad_zero w (Py.str_int n).

(** [str(d)] for a [datetime]. *)
Definition str_datetime (d : datetime) : string :=
  pad 4 (year (dt_date d)) ++ "-" ++ pad 2 (month (dt_date d)) ++ "-"
  ++ pad 2 (day (dt_date d)) ++ " " ++ pad 2 (hour d) ++ ":"
  ++ pad 2 (minute d) ++ ":" ++ pad 2 (second d)
  ++ (if (microsecond d =? 0)%Z then EmptyString
      else "." ++ pad 6 (microsecond d)).

(** [d.strftime('%d/%m/%Y %H:%M')] *)
Definition strftime_dmY_HM (d : datetime) : string :=
  pad 2 (day (dt_date d)) ++ "/" ++ pad 2 (month (dt_date d)) ++ "/"
  ++ pad 4 (year (dt_date d)) ++ " " ++ pad 2 (hour d) ++ ":" ++ pad 2 (minute d).

(** ** Exceptions *)

(** [UserError] is Odoo's; every other exception class is [PyError].  Both
    carry the text that [str(e)] returns. *)
Inductive exn :=
| UserError (msg : string)
| PyError (msg : string).

Definition str_exn (e : exn) : string :=
  match e with UserError m | PyError m => m end.

(** ** Spreadsheet cells *)

(** What a cell holds: [cell.value] of openpyxl, an element of
    [sheet.row_values(i)] of xlrd (which knows strings and floats, and
    integers for booleans and error codes). *)
Inductive value :=
| VNone
| VStr (s : string)
| VInt (n : Z)
| VFloat (x : Float.float)
| VBool (b : bool)
| VDatetime (d : datetime).

(** [bool(v)] *)
Definition value_truthy (v : value) : bool :=
  match v with
  | VNone => false
  | VStr s => Py.truthy s
  | VInt n => negb (n =? 0)%Z
  | VFloat x => Float.truthy x
  | VBool b => b
  | VDatetime _ => true
  end.

Record xlsx_sheet := mk_xlsx { xlsx_title : string; xlsx_rows : list (list value) }.
Record xls_sheet := mk_xls { xls_name : string; xls_rows : list (list value) }.

(** [sheet.max_row], [sheet[row_num]] (rows are numbered from 1) *)
Definition max_row (sh : xlsx_sheet) : nat := length (xlsx_rows sh).
Definition xlsx_row (sh : xlsx_sheet) (row_num : nat) : list value :=
  nth (row_num - 1) (xlsx_rows sh) [].

(** [sheet.nrows], [sheet.row_values(row_num)] (rows are numbered from 0) *)
Definition nrows (sh : xls_sheet) : nat := length (xls_rows sh).
Definition row_values (sh : xls_sheet) (row_num : nat) : list value :=
  nth row_num (xls_rows sh) [].

(** ** Records of the data model *)

Inductive bank := bcp | nacion | continental | other.
Inductive file_kind := txt | excel.
Inductive import_state := draft | processed | matched.
Inductive match_kind := exact | partial.

Definition bank_eqb (a b : bank) : bool :=
  match a, b with
  | bcp, bcp | nacion, nacion | continental, continental | other, other => true
  | _, _ => false
  end.

(** The selection key of a bank, as [self.bank_type] reads. *)
Definition bank_key (b : bank) : string :=
  match b with
  | bcp => "bcp" | nacion => "nacion" | continental => "continental" | other => "other"
  end.

(** [account.payment], the external registry.  [p_communication],
    [p_payment_reference] and [p_narration] are [None] where the host's
    model has no such attribute ([hasattr] is false). *)
Record payment := mk_payment {
  p_id : nat;
  p_state : string;
  p_amount : Float.float;
  p_date : date;
  p_name : string;
  p_memo : string;
  p_communication : option string;
  p_payment_reference : option string;
  p_narration : option string }.

(** The values of a [bank.import.line]. *)
Record line_vals := mk_line_vals {
  import_id : nat;
  transaction_date : date;
  description : string;
  amount : Float.float;
  operation_number : string;
  original_line : string }.

Record import_line := mk_line { line_id : nat; vals : line_vals }.

(** A [bank.import.match]. *)
Record import_match := mk_match {
  match_id : nat;
  m_import_id : nat;
  import_line_id : nat;
  payment_id : nat;
  match_type : match_kind }.

(** A [bank.import]; [file_data] is [None] when no file was loaded. *)
Record bank_import := mk_import {
  rec_id : nat;
  name : string;
  file_data : option string;
  file_name : string;
  bank_type : bank;
  state : import_state }.

(** The tables the module writes. *)
Record db := mk_db {
  db_lines : list import_line;
  db_matches : list import_match;
  next_line_id : nat;
  next_match_id : nat }.

(** ** The library calls *)

Record builtins := mk_builtins {
  (** [float(s)]; [None] is its [ValueError] *)
  float_of_str : string -> option Float.float;
  (** [str(x)] for a float *)
  str_of_float : Float.float -> string;
  (** [datetime.strptime(s, fmt).date()]; [None] is its [ValueError] *)
  strptime : string -> string -> option date;
  (** [base64.b64decode] and [bytes.decode('utf-8')] *)
  b64decode : string -> exn + list Byte.byte;
  decode_utf8 : list Byte.byte -> exn + string;
  (** [openpyxl.load_workbook(...).active] and [xlrd.open_workbook(...)],
      [None] where the library cannot be imported *)
  openpyxl : option (list Byte.byte -> exn + xlsx_sheet);
  xlrd : option (list Byte.byte -> exn + list xls_sheet);
  (** the first three components of [xlrd.xldate_as_tuple(x, 0)] *)
  xldate_as_tuple : Float.float -> option (Z * Z * Z);
  (** [str(row)] for a spreadsheet row *)
  str_row : list value -> string;
  (** [fields.Date.today()], [datetime.now()], [fields.Datetime.now()] *)
  today : date;
  now : datetime;
  utc_now : datetime;
  (** the records of [account.payment] *)
  payments : list payment }.

(** [str(v)] for a cell value. *)
Definition str_value (bi : builtins) (v : value) : string :=
  match v with
  | VNone => "None"
  | VStr s => s
  | VInt n => Py.str_int n
  | VFloat x => str_of_float bi x
  | VBool b => if b then "True" else "False"
  | VDatetime d => str_datetime d
  end.

(** ** The store monad

    A method runs on the store and either returns or raises; in both cases
    the store holds the writes made so far. *)

Definition M (A : Type) : Type := db -> (exn + A) * db.

Definition ret {A : Type} (a : A) : M A := fun s => (inr a, s).

Definition raise {A : Type} (e : exn) : M A := fun s => (inl e, s).

Definition bind {A B : Type} (m : M A) (f : A -> M B) : M B :=
  fun s => match m s with
           | (inl e, s') => (inl e, s')
           | (inr a, s') => f a s'
           end.

(** [try: m  except Exception as e: h e] *)
Definition try_except {A : Type} (m : M A) (h : exn -> M A) : M A :=
  fun s => match m s with
           | (inl e, s') => h e s'
           | (inr a, s') => (inr a, s')
           end.

(** The result of a library call, inside a method. *)
Definition call {A : Type} (r : exn + A) : M A := fun s => (r, s).

Declare Scope monad_scope.
Delimit Scope monad_scope with monad.
Notation "x <- m ;; k" := (bind m (fun x => k))
  (at level 61, m at next level, right associativity) : monad_scope.
Notation "m ;; k" := (bind m (fun _ => k))
  (at level 61, right associativity) : monad_scope.
Local Open Scope monad_scope.

(** [for x in l: body x] *)
Fixpoint for_each {A : Type} (l : list A) (body : A -> M unit) : M unit :=
  match l with
  | [] => ret tt
  | x :: l' => body x ;; for_each l' body
  end.

(** [for x in l: acc = body acc x] *)
Fixpoint fold_each {A B : Type} (l : list A) (acc : B) (body : B -> A -> M B) : M B :=
  match l with
  | [] => ret acc
  | x :: l' => acc' <- body acc x ;; fold_each l' acc' body
  end.

(** ** The ORM calls *)

Definition q : string := String Py.quote EmptyString.
Definition nl : string := String Py.newline EmptyString.

(** [self.env['bank.import.line'].create(vals)]; the record returned is
    only ever logged. *)
Definition create_line (v : line_vals) : M unit :=
  fun s => (inr tt,
            mk_db (db_lines s ++ [mk_line (next_line_id s) v]) (db_matches s)
                  (S (next_line_id s)) (next_match_id s)).

(** [BankImportMatch.create]: the three links are checked for truthiness
    before the record is written. *)
Definition create_match (imp line pay : nat) (k : match_kind) : M unit :=
  if (line =? 0)%nat then
    raise (UserError ("El campo " ++ q ++ "Línea de Importación" ++ q ++ " es obligatorio."))
  else if (pay =? 0)%nat then
    raise (UserError ("El campo " ++ q ++ "Pago" ++ q ++ " es obligatorio."))
  else if (imp =? 0)%nat then
    raise (UserError ("El campo " ++ q ++ "Importación" ++ q ++ " es obligatorio."))
  else
    fun s => (inr tt,
              mk_db (db_lines s)
                    (db_matches s ++ [mk_match (next_match_id s) imp line pay k])
                    (next_line_id s) (S (next_match_id s))).

(** [self.line_ids] and [self.matched_payment_ids] *)
Definition lines_of (imp : nat) (s : db) : list import_line :=
  filter (fun l => (import_id (vals l) =? imp)%nat) (db_lines s).

Definition matches_of (imp : nat) (s : db) : list import_match :=
  filter (fun m => (m_import_id m =? imp)%nat) (db_matches s).

Definition line_ids (self : bank_import) : M (list import_line) :=
  fun s => (inr (lines_of (rec_id self) s), s).

Definition matched_payment_ids (self : bank_import) : M (list import_match) :=
  fun s => (inr (matches_of (rec_id self) s), s).

(** [self.line_ids.unlink()]: the lines of the import go, and with them
    (ondelete cascade on [import_line_id]) the matches of those lines. *)
Definition unlink_lines (imp : nat) : M unit :=
  fun s =>
    let gone := map line_id (lines_of imp s) in
    (inr tt,
     mk_db (filter (fun l => negb (import_id (vals l) =? imp)%nat) (db_lines s))
           (filter (fun m => negb (existsb (Nat.eqb (import_line_id m)) gone)) (db_matches s))
           (next_line_id s) (next_match_id s)).

(** [self.matched_payment_ids.unlink()] *)
Definition unlink_matches (imp : nat) : M unit :=
  fun s =>
    (inr tt,
     mk_db (db_lines s)
           (filter (fun m => negb (m_import_id m =? imp)%nat) (db_matches s))
           (next_line_id s) (next_match_id s)).

(** [self.env['bank.import.match'].search([('import_id', '=', imp),
    ('payment_id', '=', pay), ('import_line_id', '=', line)])] *)
Definition search_match (imp pay line : nat) : M (list import_match) :=
  fun s =>
    (inr (filter (fun m => (m_import_id m =? imp)%nat && (payment_id m =? pay)%nat
                           && (import_line_id m =? line)%nat) (db_matches s)), s).

(** ** [BankImport]: file type *)

(** [_compute_file_type] *)
Definition _compute_file_type (file_name : string) : file_kind :=
  if Py.truthy file_name then
    if Py.endswith ".txt" (Py.lower file_name) then txt
    else if Py.endswith ".xls" (Py.lower file_name)
            || Py.endswith ".xlsx" (Py.lower file_name) then excel
    else txt
  else txt.

Definition file_type (self : bank_import) : file_kind :=
  _compute_file_type (file_name self).

(** [bool(self.file_data)] *)
Definition has_file (self : bank_import) : bool :=
  match file_data self with
  | Some data => Py.truthy data
  | None => false
  end.

(** ** [BankImport]: the text parser *)

Section Parsers.

Variable bi : builtins.
Variable self : bank_import.

(** [_is_transaction_line] *)
Definition _is_transaction_line (line : string) : bool :=
  let fields := map (Py.strip_char Py.quote) (Py.split ";"%char line) in
  if (6 <=? length fields)%nat then
    match strptime bi (nth 0 fields EmptyString) "%d/%m/%Y" with
    | Some _ => true
    | None => false
    end
  else false.

(** [_parse_txt_transaction]: the fields of the line, as the method
    splits them. *)
Definition txt_fields (line : string) : list string :=
  map (fun field => Py.strip (Py.strip_char Py.quote field)) (Py.split ";"%char line).

(** The BCP rule on operation numbers. *)
Definition bcp_operation_number (operation_number : string) : string :=
  if bank_eqb (bank_type self) bcp && Py.truthy operation_number
     && (6 <=? String.length operation_number)%nat
  then Py.suffix 6 operation_number
  else operation_number.

Definition _parse_txt_transaction (line : string) : M unit :=
  try_except
    (let fields := txt_fields line in
     if (6 <=? length fields)%nat then
       let date_str := nth 0 fields EmptyString in
       let description := nth 2 fields EmptyString in
       let amount_str := Py.remove_char ","%char (nth 3 fields EmptyString) in
       let operation_number := nth 5 fields EmptyString in
       match strptime bi date_str "%d/%m/%Y" with
       | None => raise (PyError "time data does not match format")
       | Some transaction_date =>
           let amount :=
             match float_of_str bi amount_str with
             | Some x => x
             | None => Float.zero
             end in
           let operation_number := bcp_operation_number operation_number in
           create_line (mk_line_vals (rec_id self) transaction_date description
                                     amount operation_number line)
       end
     else ret tt)
    (fun _ => ret tt).

(** [_process_txt_file] *)
Definition _process_txt_file : M unit :=
  try_except
    (content <- call (match file_data self with
                      | Some data => b64decode bi data
                      | None => inl (PyError "argument should be a bytes-like object")
                      end) ;;
     file_content <- call (decode_utf8 bi content) ;;
     let lines := Py.split Py.newline file_content in
     let transaction_lines :=
       filter (fun line => Py.truthy (Py.strip line)
                           && Py.startswith q line
                           && _is_transaction_line line) lines in
     for_each transaction_lines _parse_txt_transaction)
    (fun e => raise (UserError ("Error al procesar el archivo TXT: " ++ str_exn e))).

End Parsers.

(** ** [BankImport]: the generic spreadsheet parser *)

(** The [col_mapping] dictionary: a key is absent ([None]) or maps to a
    column index. *)
Record col_mapping := mk_mapping {
  cm_date : option nat;
  cm_description : option nat;
  cm_cargo : option nat;
  cm_abono : option nat;
  cm_operation : option nat }.

Definition empty_mapping : col_mapping := mk_mapping None None None None None.

(** [bool(col_mapping)] *)
Definition mapping_truthy (m : col_mapping) : bool :=
  match m with
  | mk_mapping None None None None None => false
  | _ => true
  end.

(** [any(word in s for word in words)] *)
Definition any_word_in (words : list string) (s : string) : bool :=
  existsb (fun word => Py.contains word s) words.

(** [enumerate(l)] *)
Fixpoint enumerate_from {A : Type} (i : nat) (l : list A) : list (nat * A) :=
  match l with
  | [] => []
  | x :: l' => (i, x) :: enumerate_from (S i) l'
  end.

Definition enumerate {A : Type} (l : list A) : list (nat * A) := enumerate_from 0 l.

(** [range(a, b)] *)
Definition range (a b : nat) : list nat := seq a (b - a).

Inductive parser := parser_openpyxl | parser_xlrd.

(** One turn of the loop of [_get_excel_column_mapping]. *)
Definition map_header (mapping : col_mapping) (ih : nat * string) : col_mapping :=
  let (i, header) := ih in
  let header_lower := Py.strip (Py.lower header) in
  if any_word_in ["fecha"; "date"; "dia"] header_lower then
    mk_mapping (Some i) (cm_description mapping) (cm_cargo mapping)
               (cm_abono mapping) (cm_operation mapping)
  else if any_word_in ["descripcion"; "concepto"; "detalle"; "description";
                       "memo"; "glosa"; "trans"] header_lower then
    mk_mapping (cm_date mapping) (Some i) (cm_cargo mapping)
               (cm_abono mapping) (cm_operation mapping)
  else if any_word_in ["cargo"; "debe"; "debito"] header_lower then
    mk_mapping (cm_date mapping) (cm_description mapping) (Some i)
               (cm_abono mapping) (cm_operation mapping)
  else if any_word_in ["abono"; "haber"; "credito"] header_lower then
    mk_mapping (cm_date mapping) (cm_description mapping) (cm_cargo mapping)
               (Some i) (cm_operation mapping)
  else if any_word_in ["documento"; "nro"; "numero"; "referencia"; "reference";
                       "operation"] header_lower then
    mk_mapping (cm_date mapping) (cm_description mapping) (cm_cargo mapping)
               (cm_abono mapping) (Some i)
  else mapping.

(** [_get_excel_column_mapping] *)
Definition _get_excel_column_mapping (headers : list string) : col_mapping :=
  fold_left map_header (enumerate headers) empty_mapping.

Section Excel.

Variable bi : builtins.
Variable self : bank_import.

(** The [get_value] closure of [_create_excel_import_line]. *)
Definition get_value (parser_type : parser) (row : list value) (i : nat) : value :=
  match parser_type with
  | parser_openpyxl =>
      match nth_error row i with
      | Some VNone | None => VStr EmptyString
      | Some v => v
      end
  | parser_xlrd =>
      match nth_error row i with
      | Some v => v
      | None => VStr EmptyString
      end
  end.

(** [for fmt in fmts: try: return strptime(s, fmt).date() except: continue] *)
Fixpoint try_formats (s : string) (fmts : list string) : option date :=
  match fmts with
  | [] => None
  | fmt :: fmts' =>
      match strptime bi s fmt with
      | Some d => Some d
      | None => try_formats s fmts'
      end
  end.

(** The date of a row, in [_create_excel_import_line]. *)
Definition excel_date (parser_type : parser) (date_value : value) : option date :=
  if value_truthy date_value then
    match date_value with
    | VDatetime d => Some (dt_date d)
    | VStr s =>
        try_formats (Py.strip s)
                    ["%Y.%m.%d"; "%d/%m/%Y"; "%Y-%m-%d"; "%d-%m-%Y"; "%m/%d/%Y"]
    | VInt _ | VFloat _ | VBool _ =>
        match parser_type with
        | parser_xlrd =>
            let x := match date_value with
                     | VFloat x => x
                     | VInt n => Float.of_Z n
                     | _ => Float.of_Z 1
                     end in
            match xldate_as_tuple bi x with
            | Some (y, m, d) => make_date y m d
            | None => None
            end
        | parser_openpyxl => None
        end
    | VNone => None
    end
  else None.

(** [str(v).replace(',', '').replace('$', '').strip()] *)
Definition clean_amount (v : value) : string :=
  Py.strip (Py.remove_char "$"%char (Py.remove_char ","%char (str_value bi v))).

(** The debit ([cargo]) step: the amount after it. *)
Definition cargo_amount_of (cargo_value : value) : Float.float :=
  if value_truthy cargo_value && Py.truthy (Py.strip (str_value bi cargo_value)) then
    let cargo_str := clean_amount cargo_value in
    if Py.truthy cargo_str && negb (Py.str_eqb cargo_str EmptyString) then
      match float_of_str bi cargo_str with
      | Some cargo_amount => Float.neg (Float.abs cargo_amount)
      | None => Float.zero
      end
    else Float.zero
  else Float.zero.

(** The credit ([abono]) step: the amount after it, from the amount
    [amount] before it. *)
Definition abono_amount_of (amount : Float.float) (abono_value : value) : Float.float :=
  if value_truthy abono_value && Py.truthy (Py.strip (str_value bi abono_value)) then
    let abono_str := clean_amount abono_value in
    if Py.truthy abono_str && negb (Py.str_eqb abono_str EmptyString) then
      match float_of_str bi abono_str with
      | Some abono_amount => abono_amount
      | None => amount
      end
    else amount
  else amount.

(** The amount of a row, in [_create_excel_import_line]. *)
Definition excel_amount (parser_type : parser) (row : list value)
    (mapping : col_mapping) : Float.float :=
  let amount :=
    match cm_cargo mapping with
    | Some i => cargo_amount_of (get_value parser_type row i)
    | None => Float.zero
    end in
  match cm_abono mapping with
  | Some i =>
      if Float.eqb amount Float.zero
      then abono_amount_of amount (get_value parser_type row i)
      else amount
  | None => amount
  end.

(** [str(v) if v else ''] *)
Definition text_of (v : value) : string :=
  if value_truthy v then str_value bi v else EmptyString.

(** The values [_create_excel_import_line] builds for a row, [None] when
    the row is discarded for want of data. *)
Definition excel_line_vals (parser_type : parser) (row : list value)
    (mapping : col_mapping) : option line_vals :=
  let transaction_date :=
    match cm_date mapping with
    | Some i => excel_date parser_type (get_value parser_type row i)
    | None => None
    end in
  let description :=
    match cm_description mapping with
    | Some i => text_of (get_value parser_type row i)
    | None => EmptyString
    end in
  let amount := excel_amount parser_type row mapping in
  let operation_number :=
    match cm_operation mapping with
    | Some i => text_of (get_value parser_type row i)
    | None => EmptyString
    end in
  if match transaction_date with Some _ => true | None => false end
     || negb (Float.eqb amount Float.zero)
     || Py.truthy operation_number
  then
    Some (mk_line_vals (rec_id self)
            (match transaction_date with Some d => d | None => today bi end)
            description amount operation_number
            ("Excel row: " ++ str_row bi row))
  else None.

(** [_create_excel_import_line] *)
Definition _create_excel_import_line (row : list value) (mapping : col_mapping)
    (parser_type : parser) : M unit :=
  try_except
    (match excel_line_vals parser_type row mapping with
     | Some line_vals => create_line line_vals
     | None => ret tt
     end)
    (fun e => raise e).

(** The rows loop shared by the two generic parsers: a row with no truthy
    cell is passed over, the others are handed to
    [_create_excel_import_line] and counted. *)
Definition excel_rows_loop (parser_type : parser) (rows : list (list value))
    (mapping : col_mapping) : M nat :=
  fold_each rows 0
    (fun lines_created row =>
       if negb (existsb value_truthy row) then ret lines_created
       else
         try_except
           (_create_excel_import_line row mapping parser_type ;;
            ret (S lines_created))
           (fun _ => ret lines_created)).

Definition no_header_msg : string :=
  "No se encontró la fila de encabezados en el archivo Excel. Verifique que haya una columna con "
  ++ q ++ "fecha" ++ q ++ ".".

Definition no_mapping_msg : string :=
  "No se pudieron mapear las columnas del Excel. Verifique que contenga las columnas necesarias (fecha, descripción, monto, operación).".

Definition no_data_msg : string :=
  "No se pudieron extraer datos del archivo Excel. Verifique el formato de los datos.".

(** The cells of a row as the header search of the openpyxl parser reads
    them. *)
Definition openpyxl_row_values (row : list value) : list string :=
  map (fun v => if value_truthy v then Py.lower (str_value bi v) else EmptyString) row.

(** The header search of [_parse_excel_openpyxl]. *)
Definition openpyxl_header_row (sheet : xlsx_sheet) : option nat :=
  find (fun row_num =>
          existsb (Py.contains "fecha") (openpyxl_row_values (xlsx_row sheet row_num)))
       (range 1 (Nat.min 10 (max_row sheet + 1))).

(** The cells of a row as the header search of the xlrd parser reads them. *)
Definition xlrd_row_values (row : list value) : list string :=
  map (fun v => Py.lower (str_value bi v)) row.

(** The header search of [_parse_excel_xlrd]. *)
Definition xlrd_header_row (sheet : xls_sheet) : option nat :=
  find (fun row_num =>
          existsb (Py.contains "fecha") (xlrd_row_values (row_values sheet row_num)))
       (range 0 (Nat.min 10 (nrows sheet))).

End Excel.

(** ** [BankImport]: the Continental spreadsheet parser *)

(** The [col_mapping] dictionary of the Continental parser. *)
Record continental_mapping := mk_cmapping {
  cc_fecha : option nat;
  cc_descripcion : option nat;
  cc_operacion : option nat;
  cc_monto : option nat }.

(** [col_mapping.get(key)] in a condition: a column index of 0 is as
    false as a missing key. *)
Definition get_truthy (o : option nat) : option nat :=
  match o with
  | Some (S i) => Some (S i)
  | _ => None
  end.

(** The second spelling of the description header. *)
Definition descripci_variant : string :=
  "DESCRIPCI" ++ String "211"%char (String "142"%char EmptyString).

(** One turn of the header loop of [_parse_continental_excel_openpyxl]. *)
Definition map_continental_header (mapping : continental_mapping)
    (ih : nat * string) : continental_mapping :=
  let (i, header) := ih in
  let header_str := Py.strip (Py.upper header) in
  if Py.contains "FECHA OPER" header_str then
    mk_cmapping (Some i) (cc_descripcion mapping) (cc_operacion mapping) (cc_monto mapping)
  else if Py.contains "DESCRIPCI" header_str
          || Py.contains descripci_variant header_str then
    mk_cmapping (cc_fecha mapping) (Some i) (cc_operacion mapping) (cc_monto mapping)
  else if Py.contains "N OPER" header_str then
    mk_cmapping (cc_fecha mapping) (cc_descripcion mapping) (Some i) (cc_monto mapping)
  else if Py.contains "CARGO/ABONO" header_str then
    mk_cmapping (cc_fecha mapping) (cc_descripcion mapping) (cc_operacion mapping) (Some i)
  else mapping.

Section Spreadsheet.

Variable bi : builtins.
Variable self : bank_import.

(** The year a Continental [DD-MM] date is given: the current one, or the
    one before when the clock is in January or February and the date is
    in November or December. *)
Definition continental_year (month_int : Z) : Z :=
  let current_year := year (dt_date (now bi)) in
  if ((month (dt_date (now bi)) <=? 2) && (11 <=? month_int))%Z
  then (current_year - 1)%Z
  else current_year.

(** [_parse_continental_date]; [None] is the method's [None]. *)
Definition _parse_continental_date (date_str : string) : option date :=
  if negb (Py.truthy date_str) || Py.str_eqb (Py.strip date_str) EmptyString then None
  else
    let date_str := Py.strip date_str in
    let other_formats := try_formats bi date_str ["%d/%m/%Y"; "%d-%m-%Y"; "%Y-%m-%d"] in
    if Py.contains "-" date_str then
      match Py.split "-"%char date_str with
      | [day_str; month_str] =>
          let day := Py.strip day_str in
          let month := Py.strip month_str in
          if Py.isdigit day && Py.isdigit month then
            let day_int := Py.int day in
            let month_int := Py.int month in
            if ((1 <=? day_int) && (day_int <=? 31)
                && (1 <=? month_int) && (month_int <=? 12))%Z then
              make_date (continental_year month_int) month_int day_int
            else other_formats
          else other_formats
      | _ => other_formats
      end
    else other_formats.

(** [_parse_continental_amount] *)
Definition _parse_continental_amount (amount_str : string) : Float.float :=
  if negb (Py.truthy amount_str) then Float.zero
  else
    let clean_amount :=
      Py.strip (Py.remove_char " "%char (Py.remove_char ","%char amount_str)) in
    if negb (Py.truthy clean_amount) || Py.str_eqb clean_amount EmptyString then Float.zero
    else match float_of_str bi clean_amount with
         | Some result => result
         | None => Float.zero
         end.

(** [row[col_mapping[key]] if col_mapping.get(key) else None]: the cell,
    no cell, or the [IndexError] of a short row. *)
Definition continental_cell (row : list value) (o : option nat) : exn + option value :=
  match get_truthy o with
  | Some i =>
      match nth_error row i with
      | Some v => inr (Some v)
      | None => inl (PyError "tuple index out of range")
      end
  | None => inr None
  end.

(** [str(cell.value).strip() if cell and cell.value else default] *)
Definition continental_text (cell : option value) (default : string) : string :=
  match cell with
  | Some v => if value_truthy v then Py.strip (str_value bi v) else default
  | None => default
  end.

(** The test that passes over the opening balance row. *)
Definition is_saldo_anterior (v : value) : bool :=
  let desc := if value_truthy v then Py.upper (Py.strip (str_value bi v)) else EmptyString in
  Py.contains "SALDO ANTERIOR" desc.

(** The body of the rows loop of [_parse_continental_excel_openpyxl], for
    a row with a truthy cell: the number of lines created. *)
Definition continental_row (mapping : continental_mapping) (row : list value) : M nat :=
  try_except
    (skip <- call (match get_truthy (cc_descripcion mapping) with
                   | Some i =>
                       match nth_error row i with
                       | Some v => inr (is_saldo_anterior v)
                       | None => inl (PyError "tuple index out of range")
                       end
                   | None => inr false
                   end) ;;
     if (skip : bool) then ret 0
     else
       fecha_cell <- call (continental_cell row (cc_fecha mapping)) ;;
       let fecha_str := continental_text fecha_cell EmptyString in
       let transaction_date := _parse_continental_date fecha_str in
       desc_cell <- call (continental_cell row (cc_descripcion mapping)) ;;
       let description := continental_text desc_cell EmptyString in
       monto_cell <- call (continental_cell row (cc_monto mapping)) ;;
       let monto_str := continental_text monto_cell "0" in
       let amount := _parse_continental_amount monto_str in
       op_cell <- call (continental_cell row (cc_operacion mapping)) ;;
       let operation_number := continental_text op_cell EmptyString in
       if (match transaction_date with Some _ => true | None => false end
           || negb (Float.eqb amount Float.zero)
           || Py.truthy operation_number)
          && Py.truthy description
       then
         create_line (mk_line_vals (rec_id self)
                        (match transaction_date with Some d => d | None => today bi end)
                        description amount operation_number
                        ("Continental: " ++ fecha_str ++ " | " ++ description ++ " | "
                         ++ monto_str ++ " | " ++ operation_number)) ;;
         ret 1
       else ret 0)
    (fun _ => ret 0).

(** The header search of [_parse_continental_excel_openpyxl]. *)
Definition continental_header_row (sheet : xlsx_sheet) : option nat :=
  find (fun row_num =>
          let row_str :=
            Py.upper (Py.join " " (map (str_value bi)
                                       (filter value_truthy (xlsx_row sheet row_num)))) in
          Py.contains "FECHA OPER" row_str && Py.contains "CARGO" row_str)
       (range 1 (Nat.min 5 (max_row sheet + 1))).

(** [_parse_continental_excel_openpyxl] *)
Definition _parse_continental_excel_openpyxl (sheet : xlsx_sheet) : M unit :=
  match continental_header_row sheet with
  | None =>
      raise (UserError "No se encontró el formato de Banco Continental. Verifique las columnas FECHA OPER., N OPER., CARGO/ABONO.")
  | Some header_row =>
      let headers := map (text_of bi) (xlsx_row sheet header_row) in
      let mapping :=
        fold_left map_continental_header (enumerate headers)
                  (mk_cmapping None None None None) in
      match cc_fecha mapping, cc_monto mapping with
      | Some _, Some _ =>
          lines_created <-
            fold_each (map (xlsx_row sheet) (range (header_row + 1) (max_row sheet + 1))) 0
              (fun lines_created row =>
                 if negb (existsb value_truthy row) then ret lines_created
                 else n <- continental_row mapping row ;; ret (lines_created + n)) ;;
          if (lines_created =? 0)%nat then
            raise (UserError "No se pudieron extraer transacciones válidas del archivo Continental.")
          else ret tt
      | _, _ =>
          raise (UserError "No se encontraron las columnas necesarias en el archivo Continental.")
      end
  end.

(** ** [BankImport]: the generic parsers and the file dispatch *)

(** [_parse_excel_openpyxl] *)
Definition _parse_excel_openpyxl (sheet : xlsx_sheet) : M unit :=
  if bank_eqb (bank_type self) continental then _parse_continental_excel_openpyxl sheet
  else
    match openpyxl_header_row bi sheet with
    | None => raise (UserError no_header_msg)
    | Some header_row =>
        let headers :=
          map (fun v => if value_truthy v then Py.strip (Py.lower (str_value bi v))
                        else EmptyString) (xlsx_row sheet header_row) in
        let mapping := _get_excel_column_mapping headers in
        if negb (mapping_truthy mapping) then raise (UserError no_mapping_msg)
        else
          lines_created <-
            excel_rows_loop bi self parser_openpyxl
              (map (xlsx_row sheet) (range (header_row + 1) (max_row sheet + 1))) mapping ;;
          if (lines_created =? 0)%nat then raise (UserError no_data_msg)
          else ret tt
    end.

(** [_parse_excel_xlrd]; the class has no method
    [_parse_continental_excel_xlrd], the call raises [AttributeError]. *)
Definition _parse_excel_xlrd (sheet : xls_sheet) : M unit :=
  if bank_eqb (bank_type self) continental then
    raise (PyError "'bank.import' object has no attribute '_parse_continental_excel_xlrd'")
  else
    match xlrd_header_row bi sheet with
    | None => raise (UserError no_header_msg)
    | Some header_row =>
        let headers :=
          map (fun v => Py.strip (Py.lower (str_value bi v))) (row_values sheet header_row) in
        let mapping := _get_excel_column_mapping headers in
        if negb (mapping_truthy mapping) then raise (UserError no_mapping_msg)
        else
          lines_created <-
            excel_rows_loop bi self parser_xlrd
              (map (row_values sheet) (range (header_row + 1) (nrows sheet))) mapping ;;
          if (lines_created =? 0)%nat then raise (UserError no_data_msg)
          else ret tt
    end.

End Spreadsheet.

(** What an action returns to the client. *)
Inductive action_result :=
| Notification (title message kind : string) (sticky : bool)
| ReturnTrue.

Section Process.

Variable bi : builtins.
Variable self : bank_import.

Definition empty_excel_msg : string :=
  "El archivo Excel está vacío o no contiene datos suficientes.".

Definition no_library_msg : string :=
  "No se encontraron librerías para procesar archivos Excel.".

(** The openpyxl attempt of [_process_excel_file]: [success] and
    [last_error] after it. *)
Definition attempt_openpyxl (file_content : list Byte.byte) : M (bool * option string) :=
  match openpyxl bi with
  | None => ret (false, None)
  | Some load_workbook =>
      try_except
        (sheet <- call (load_workbook file_content) ;;
         if (max_row sheet <? 2)%nat then raise (UserError empty_excel_msg)
         else _parse_excel_openpyxl bi self sheet ;; ret (true, None))
        (fun e =>
           let last_error := str_exn e in
           if Py.contains "not a zip file" (Py.lower last_error)
              || Py.contains "invalid" (Py.lower last_error)
           then ret (false, Some last_error)
           else match xlrd bi with
                | None =>
                    raise (UserError ("Error procesando archivo Excel: " ++ last_error
                                      ++ nl ++ nl
                                      ++ "Verifique que el archivo no esté corrupto."))
                | Some _ => ret (false, Some last_error)
                end)
  end.

(** The sheet the xlrd attempt reads. *)
Definition xlrd_sheet (workbook : list xls_sheet) : exn + xls_sheet :=
  let sheet_by_index_0 :=
    match workbook with
    | sheet :: _ => inr sheet
    | [] => inl (PyError "list index out of range")
    end in
  if bank_eqb (bank_type self) continental then
    match find (fun sheet => Py.contains "Sheet6" (xls_name sheet)) workbook with
    | Some sheet => inr sheet
    | None => sheet_by_index_0
    end
  else sheet_by_index_0.

(** The xlrd attempt of [_process_excel_file], from the [success] and
    [last_error] the openpyxl attempt left. *)
Definition attempt_xlrd (file_content : list Byte.byte)
    (before : bool * option string) : M (bool * option string) :=
  match xlrd bi with
  | Some open_workbook =>
      if negb (fst before) then
        try_except
          (workbook <- call (open_workbook file_content) ;;
           sheet <- call (xlrd_sheet workbook) ;;
           if (nrows sheet <? 2)%nat then raise (UserError empty_excel_msg)
           else _parse_excel_xlrd bi self sheet ;; ret (true, snd before))
          (fun e => ret (fst before, Some (str_exn e)))
      else ret before
  | None => ret before
  end.

Definition excel_failure_msg (last_error : option string) : string :=
  "No se pudo procesar el archivo Excel."
  ++ match last_error with
     | Some e => if Py.truthy e then nl ++ nl ++ "Último error: " ++ e else EmptyString
     | None => EmptyString
     end
  ++ nl ++ nl ++ "Verifique que:" ++ nl ++ "- El archivo no esté corrupto" ++ nl
  ++ "- El archivo tenga extensión .xlsx o .xls" ++ nl
  ++ "- El archivo contenga datos válidos".

(** [_process_excel_file] *)
Definition _process_excel_file : M unit :=
  try_except
    (file_content <- call (match file_data self with
                           | Some data => b64decode bi data
                           | None => inl (PyError "argument should be a bytes-like object")
                           end) ;;
     match openpyxl bi, xlrd bi with
     | None, None => raise (UserError no_library_msg)
     | _, _ =>
         r1 <- attempt_openpyxl file_content ;;
         r2 <- attempt_xlrd file_content r1 ;;
         if negb (fst r2) then raise (UserError (excel_failure_msg (snd r2)))
         else ret tt
     end)
    (fun e =>
       match e with
       | UserError _ => raise e
       | PyError msg =>
           raise (UserError ("Error inesperado al procesar el archivo Excel: " ++ msg))
       end).

Definition no_file_msg : string := "Debe cargar un archivo antes de procesarlo.".

Definition nothing_extracted_msg : string :=
  "No se pudieron extraer datos del archivo. Verifique que el archivo tenga el formato correcto y contenga datos.".

(** [action_process_file]: the import as the method leaves it, and what
    it returns. *)
Definition action_process_file : M (bank_import * action_result) :=
  if negb (has_file self) then raise (UserError no_file_msg)
  else
    unlink_lines (rec_id self) ;;
    try_except
      (match file_type self with
       | txt => _process_txt_file bi self
       | excel => _process_excel_file
       end ;;
       lines <- line_ids self ;;
       let lines_count := length lines in
       if (lines_count =? 0)%nat then raise (UserError nothing_extracted_msg)
       else
         ret (mk_import (rec_id self)
                ("Importación " ++ Py.upper (bank_key (bank_type self)) ++ " - "
                 ++ strftime_dmY_HM (utc_now bi))
                (file_data self) (file_name self) (bank_type self) processed,
              Notification "Éxito"
                ("Se procesaron " ++ Py.str_int (Z.of_nat lines_count)
                 ++ " operaciones del archivo.")
                "success" false))
      (fun e => raise e).

End Process.

(** ** [BankImport]: the match engine *)

(** [str(x)] for a [Char] field: an empty one reads [False]. *)
Definition str_char (s : string) : string :=
  if Py.truthy s then s else "False".

(** [s.lstrip('0') or '0'] *)
Definition lstrip_zeros (s : string) : string :=
  let r := Py.lstrip_char "0"%char s in
  if Py.truthy r then r else "0".

(** The four tests [_check_operation_match] makes on one field of a
    payment. *)
Definition field_matches (operation_number clean_operation field_value : string) : bool :=
  if Py.truthy field_value then
    let field_str := Py.strip field_value in
    if Py.contains operation_number field_str then true
    else if negb (Py.str_eqb clean_operation "0") && Py.contains clean_operation field_str
    then true
    else
      let clean_field := lstrip_zeros field_str in
      if Py.str_eqb clean_operation clean_field then true
      else if (6 <=? String.length field_str)%nat then
        let last_6_digits := Py.suffix 6 field_str in
        Py.str_eqb operation_number last_6_digits
        || Py.str_eqb clean_operation (Py.lstrip_char "0"%char last_6_digits)
      else false
  else false.

(** [[x] if hasattr(payment, attr) and payment.attr else []] *)
Definition optional_field (o : option string) : list string :=
  match o with
  | Some s => if Py.truthy s then [s] else []
  | None => []
  end.

(** [_check_operation_match] *)
Definition _check_operation_match (payment : payment) (operation_number : string) : bool :=
  if negb (Py.truthy operation_number) then true
  else
    let clean_operation := lstrip_zeros (Py.strip operation_number) in
    let fields_to_check :=
      [p_name payment; p_memo payment]
      ++ optional_field (p_communication payment)
      ++ optional_field (p_payment_reference payment) in
    existsb (field_matches operation_number clean_operation) fields_to_check.

Section Match.

Variable bi : builtins.
Variable self : bank_import.

(** The domain [('state', 'in', ['posted', 'sent', 'in_process'])]. *)
Definition active_state (p : payment) : bool :=
  Py.str_eqb (p_state p) "posted" || Py.str_eqb (p_state p) "sent"
  || Py.str_eqb (p_state p) "in_process".

(** The two searches of [_find_matching_payments] by amount. *)
Definition amount_matches (line_amount : Float.float) : list payment :=
  let target := Float.abs line_amount in
  let exact_amount :=
    filter (fun p => active_state p && Float.eqb (p_amount p) target) (payments bi) in
  match exact_amount with
  | _ :: _ => exact_amount
  | [] =>
      let tolerance := Float.cent in
      filter (fun p => active_state p
                       && Float.leb (Float.sub target tolerance) (p_amount p)
                       && Float.leb (p_amount p) (Float.add target tolerance))
             (payments bi)
  end.

(** [_find_matching_payments]: the number of matches created. *)
Definition _find_matching_payments (import_line : import_line) : M nat :=
  let operation_number := operation_number (vals import_line) in
  matches_created <-
    fold_each (amount_matches (amount (vals import_line))) 0
      (fun matches_created payment =>
         let operation_match := _check_operation_match payment operation_number in
         if operation_match || negb (Py.truthy operation_number) then
           existing_match <- search_match (rec_id self) (p_id payment) (line_id import_line) ;;
           match existing_match with
           | [] =>
               try_except
                 (create_match (rec_id self) (line_id import_line) (p_id payment)
                               (if operation_match then exact else partial) ;;
                  ret (S matches_created))
                 (fun e => raise (UserError ("Error creando coincidencia: " ++ str_exn e)))
           | _ :: _ => ret matches_created
           end
         else ret matches_created) ;;
  if (matches_created =? 0)%nat && Py.truthy operation_number then
    fold_each (filter active_state (payments bi)) matches_created
      (fun matches_created payment =>
         if _check_operation_match payment operation_number then
           existing_match <- search_match (rec_id self) (p_id payment) (line_id import_line) ;;
           match existing_match with
           | [] =>
               try_except
                 (create_match (rec_id self) (line_id import_line) (p_id payment) partial ;;
                  ret (S matches_created))
                 (fun _ => ret matches_created)
           | _ :: _ => ret matches_created
           end
         else ret matches_created)
  else ret matches_created.

Definition must_process_msg : string := "Debe procesar el archivo primero.".

(** [action_match_payments]: the import as the method leaves it, and what
    it returns. *)
Definition action_match_payments : M (bank_import * action_result) :=
  lines <- line_ids self ;;
  match lines with
  | [] => raise (UserError must_process_msg)
  | _ :: _ =>
      unlink_matches (rec_id self) ;;
      lines <- line_ids self ;;
      fold_each lines 0
        (fun total_matches line =>
           try_except
             (matches_count <- _find_matching_payments line ;;
              ret (total_matches + matches_count))
             (fun e =>
                raise (UserError ("Error procesando línea de operación "
                                  ++ str_char (operation_number (vals line))
                                  ++ ": " ++ str_exn e)))) ;;
      ret (mk_import (rec_id self) (name self) (file_data self) (file_name self)
                     (bank_type self) matched,
           ReturnTrue)
  end.

End Match.

(** ** [BankImportWizard]: the advanced match *)

(** A [bank.import.wizard]; the dates are [None] when not set. *)
Record wizard := mk_wizard {
  w_import_id : bank_import;
  date_from : option date;
  date_to : option date;
  amount_tolerance : Float.float;
  search_in_communication : bool;
  search_in_reference : bool;
  search_in_narration : bool }.

(** The order of dates. *)
Definition date_leb (a b : date) : bool :=
  ((year a <? year b)
   || ((year a =? year b) && ((month a <? month b)
                              || ((month a =? month b) && (day a <=? day b)))))%Z.

Section Wizard.

Variable bi : builtins.
Variable w : wizard.

(** [_amounts_match] *)
Definition _amounts_match (import_amount payment_amount : Float.float) : bool :=
  if Float.eqb (amount_tolerance w) Float.zero then
    Float.eqb (Float.abs import_amount) payment_amount
  else
    let tolerance :=
      Float.mul (Float.abs import_amount)
                (Float.div (amount_tolerance w) Float.hundred) in
    Float.leb (Float.abs (Float.sub (Float.abs import_amount) payment_amount)) tolerance.

(** [_operation_number_matches]; reading [payment.communication] on a host
    whose payments have no such attribute raises [AttributeError]. *)
Definition _operation_number_matches (operation_number : string)
    (payment : payment) : exn + bool :=
  let reference :=
    if search_in_reference w && Py.truthy (p_name payment) then [p_name payment] else [] in
  let narration :=
    if search_in_narration w
    then (if Py.truthy (p_memo payment) then [p_memo payment] else [])
         ++ optional_field (p_narration payment)
    else [] in
  if search_in_communication w then
    match p_communication payment with
    | None => inl (PyError "'account.payment' object has no attribute 'communication'")
    | Some c =>
        inr (existsb (Py.contains operation_number)
                     (reference ++ (if Py.truthy c then [c] else []) ++ narration))
    end
  else inr (existsb (Py.contains operation_number) (reference ++ narration)).

(** [_calculate_match_score] *)
Definition _calculate_match_score (import_line : import_line)
    (payment : payment) : exn + nat :=
  let score :=
    if _amounts_match (amount (vals import_line)) (p_amount payment) then 50 else 0 in
  if Py.truthy (operation_number (vals import_line)) then
    match _operation_number_matches (operation_number (vals import_line)) payment with
    | inl e => inl e
    | inr true => inr (score + 50)
    | inr false => inr score
    end
  else inr score.

(** [_find_advanced_matches]: the payments matched. *)
Definition _find_advanced_matches (import_line : import_line)
    (payments : list payment) : M (list payment) :=
  fold_each payments []
    (fun matched_payments payment =>
       match_score <- call (_calculate_match_score import_line payment) ;;
       if (0 <? match_score)%nat then
         create_match (rec_id (w_import_id w)) (line_id import_line) (p_id payment)
                      (if (100 <=? match_score)%nat then exact else partial) ;;
         ret (matched_payments ++ [payment])
       else ret matched_payments).

(** The payments [action_advanced_match] searches. *)
Definition wizard_payments : list payment :=
  filter (fun p =>
            (Py.str_eqb (p_state p) "posted" || Py.str_eqb (p_state p) "sent")
            && match date_from w with Some d => date_leb d (p_date p) | None => true end
            && match date_to w with Some d => date_leb (p_date p) d | None => true end)
         (payments bi).

(** [action_advanced_match]: the import as the method leaves it, and what
    it returns. *)
Definition action_advanced_match : M (bank_import * action_result) :=
  let import := w_import_id w in
  unlink_matches (rec_id import) ;;
  let payments := wizard_payments in
  lines <- line_ids import ;;
  matches_found <-
    fold_each lines 0
      (fun matches_found line =>
         matched_payments <- _find_advanced_matches line payments ;;
         ret (matches_found + length matched_payments)) ;;
  if (0 <? matches_found)%nat then
    ret (mk_import (rec_id import) (name import) (file_data import) (file_name import)
                   (bank_type import) matched,
         Notification "Éxito"
           ("Se encontraron " ++ Py.str_int (Z.of_nat matches_found) ++ " coincidencias.")
           "success" false)
  else
    ret (import,
         Notification "Sin resultados"
           "No se encontraron coincidencias con los criterios especificados."
           "warning" false).

End Wizard.

(** ** A concrete interpretation of the library calls

    [Ref] gives each library call a definition that computes, to run the
    model on concrete files and payments.  It follows CPython and xlrd on
    the inputs it accepts: [float()] on signed decimal literals of at most
    15 digits, [strptime] on formats made of [%d], [%m], [%Y] and
    separators, base64 with [=] padding, strict UTF-8 (the text keeps its
    UTF-8 bytes, one per character), 1900-based spreadsheet dates. *)

Module Ref.

(** *** [float()] and [str()] *)

Definition unsigned_decimal (body : string) : option (Z * nat) :=
  match Py.split "."%char body with
  | [ip] => if Py.isdigit ip then Some (Py.int ip, 0) else None
  | [ip; fp] =>
      if Py.all_chars Py.is_digit ip && Py.all_chars Py.is_digit fp
         && (Py.truthy ip || Py.truthy fp)
      then Some (Py.int (ip ++ fp), String.length fp) else None
  | _ => None
  end.

Definition float_of_str (s : string) : option Float.float :=
  let s := Py.strip s in
  let '(negative, body) :=
    match s with
    | String c r =>
        if Ascii.eqb c "-"%char then (true, r)
        else if Ascii.eqb c "+"%char then (false, r)
        else (false, s)
    | EmptyString => (false, s)
    end in
  match unsigned_decimal body with
  | Some (n, k) =>
      if ((n <? 10 ^ 15)%Z && (k <=? 22)%nat)%bool then
        let x := Float.div (Float.of_Z n) (Float.of_Z (10 ^ Z.of_nat k)) in
        Some (if negative then Float.neg x else x)
      else None
  | None => None
  end.

Fixpoint rstrip_zeros_rev (s : string) : string :=
  match s with
  | String c s' => if Ascii.eqb c "0"%char then rstrip_zeros_rev s' else s
  | EmptyString => EmptyString
  end.

Definition str_of_float (x : Float.float) : string :=
  match x with
  | S754_nan => "nan"
  | S754_infinity s => if s then "-inf" else "inf"
  | S754_zero s => if s then "-0.0" else "0.0"
  | S754_finite s m e =>
      let sign := if s then "-" else EmptyString in
      if (0 <=? e)%Z then sign ++ Py.str_int (Z.pos m * 2 ^ e) ++ ".0"
      else
        let k := Z.to_nat (- e) in
        let n := (Z.pos m * 5 ^ Z.of_nat k)%Z in
        let ip := (n / 10 ^ Z.of_nat k)%Z in
        let fp := (n mod 10 ^ Z.of_nat k)%Z in
        let frac := Py.rev (rstrip_zeros_rev (Py.rev (Py.pad_zero k (Py.str_int fp)))) in
        sign ++ Py.str_int ip ++ "." ++ (if Py.truthy frac then frac else "0")
  end.

(** *** [strptime] *)

Inductive directive := Day | Month | Year | Literal (c : ascii).

Fixpoint directives (fmt : string) : list directive :=
  match fmt with
  | EmptyString => []
  | String c r =>
      if Ascii.eqb c "%"%char then
        match r with
        | String k r' =>
            (if Ascii.eqb k "d"%char then Day
             else if Ascii.eqb k "m"%char then Month
             else if Ascii.eqb k "Y"%char then Year
             else Literal k) :: directives r'
        | EmptyString => [Literal c]
        end
      else Literal c :: directives r
  end.

(** The longest prefix of one or two digits whose value lies between 1
    and [hi], with the rest of the text. *)
Definition take_number (hi : Z) (s : string) : option (Z * string) :=
  let two := substring 0 2 s in
  let one := substring 0 1 s in
  if ((String.length two =? 2)%nat && Py.isdigit two
      && (1 <=? Py.int two)%Z && (Py.int two <=? hi)%Z)%bool
  then Some (Py.int two, substring 2 (String.length s - 2) s)
  else if (Py.isdigit one && (1 <=? Py.int one)%Z)%bool
  then Some (Py.int one, substring 1 (String.length s - 1) s)
  else None.

Definition take_year (s : string) : option (Z * string) :=
  let four := substring 0 4 s in
  if ((String.length four =? 4)%nat && Py.isdigit four)%bool
  then Some (Py.int four, substring 4 (String.length s - 4) s)
  else None.

Fixpoint scan (ds : list directive) (s : string) (y m d : Z) : option date :=
  match ds with
  | [] => if Py.truthy s then None else make_date y m d
  | Day :: ds' =>
      match take_number 31 s with
      | Some (v, r) => scan ds' r y m v
      | None => None
      end
  | Month :: ds' =>
      match take_number 12 s with
      | Some (v, r) => scan ds' r y v d
      | None => None
      end
  | Year :: ds' =>
      match take_year s with
      | Some (v, r) => scan ds' r v m d
      | None => None
      end
  | Literal c :: ds' =>
      match s with
      | String a r => if Ascii.eqb a c then scan ds' r y m d else None
      | EmptyString => None
      end
  end.

Definition strptime (s fmt : string) : option date :=
  scan (directives fmt) s 1900 1 1.

(** *** base64 and UTF-8 *)

Definition b64_value (c : ascii) : option N :=
  let n := N_of_ascii c in
  if ((65 <=? n) && (n <=? 90))%N then Some (n - 65)%N
  else if ((97 <=? n) && (n <=? 122))%N then Some (n - 71)%N
  else if ((48 <=? n) && (n <=? 57))%N then Some (n + 4)%N
  else if (n =? 43)%N then Some 62%N
  else if (n =? 47)%N then Some 63%N
  else None.

(** The 6-bit values before the first [=], and the number of [=] after
    them; characters outside the alphabet are passed over. *)
Fixpoint b64_sextets (s : string) : list N * nat :=
  match s with
  | EmptyString => ([], 0)
  | String c r =>
      if Ascii.eqb c "="%char then
        ([], S (String.length r - String.length (Py.remove_char "="%char r)))
      else
        let (vs, p) := b64_sextets r in
        match b64_value c with
        | Some v => (v :: vs, p)
        | None => (vs, p)
        end
  end.

Definition byte_of_N (n : N) : Byte.byte :=
  match Byte.of_N (n mod 256) with
  | Some b => b
  | None => Byte.x00
  end.

Fixpoint b64_bytes (vs : list N) : list Byte.byte :=
  match vs with
  | a :: b :: c :: d :: r =>
      let n := (a * 262144 + b * 4096 + c * 64 + d)%N in
      byte_of_N (n / 65536) :: byte_of_N (n / 256) :: byte_of_N n :: b64_bytes r
  | [a; b; c] =>
      let n := (a * 4096 + b * 64 + c)%N in
      [byte_of_N (n / 1024); byte_of_N (n / 4)]
  | [a; b] => [byte_of_N ((a * 64 + b) / 16)]
  | _ => []
  end.

Definition b64decode (s : string) : exn + list Byte.byte :=
  let (vs, p) := b64_sextets s in
  match (length vs mod 4)%nat with
  | 0 => inr (b64_bytes vs)
  | 2 => if (2 <=? p)%nat then inr (b64_bytes vs) else inl (PyError "Incorrect padding")
  | 3 => if (1 <=? p)%nat then inr (b64_bytes vs) else inl (PyError "Incorrect padding")
  | _ => inl (PyError "Invalid base64-encoded string")
  end.

Definition cont (b : nat) : bool := ((128 <=? b) && (b <=? 191))%nat.

Fixpoint utf8_valid (bs : list nat) : bool :=
  match bs with
  | [] => true
  | b :: r =>
      if (b <? 128)%nat then utf8_valid r
      else if ((194 <=? b) && (b <=? 223))%nat then
        match r with
        | c1 :: r' => cont c1 && utf8_valid r'
        | _ => false
        end
      else if ((224 <=? b) && (b <=? 239))%nat then
        match r with
        | c1 :: c2 :: r' =>
            cont c1 && cont c2
            && (if (b =? 224)%nat then (160 <=? c1)%nat
                else if (b =? 237)%nat then (c1 <=? 159)%nat else true)
            && utf8_valid r'
        | _ => false
        end
      else if ((240 <=? b) && (b <=? 244))%nat then
        match r with
        | c1 :: c2 :: c3 :: r' =>
            cont c1 && cont c2 && cont c3
            && (if (b =? 240)%nat then (144 <=? c1)%nat
                else if (b =? 244)%nat then (c1 <=? 143)%nat else true)
            && utf8_valid r'
        | _ => false
        end
      else false
  end.

Definition decode_utf8 (bs : list Byte.byte) : exn + string :=
  if utf8_valid (map Byte.to_nat bs)
  then inr (string_of_list_ascii (map ascii_of_byte bs))
  else inl (PyError "'utf-8' codec can't decode bytes").

(** *** Spreadsheet dates *)

(** [int(x)] *)
Definition trunc (x : Float.float) : Z :=
  match x with
  | S754_finite s m e =>
      let a := if (0 <=? e)%Z then (Z.pos m * 2 ^ e)%Z else (Z.pos m / 2 ^ (- e))%Z in
      if s then (- a)%Z else a
  | _ => 0%Z
  end.

Definition xldate_as_tuple (x : Float.float) : option (Z * Z * Z) :=
  if Float.eqb x Float.zero then Some (0, 0, 0)%Z
  else if Float.ltb x Float.zero || Float.is_nan x then None
  else
    let xldays := trunc x in
    if (2958466 <=? xldays)%Z then None
    else if (xldays =? 0)%Z then Some (0, 0, 0)%Z
    else if (xldays <? 61)%Z then None
    else
      let jdn := (xldays + 2415080 - 61)%Z in
      let yreg := (((((jdn * 4 + 274277) / 146097) * 3 / 4) + jdn + 1363) * 4 + 3)%Z in
      let mp := (((yreg mod 1461) / 4) * 535 + 333)%Z in
      let d := (((mp mod 16384) / 535) + 1)%Z in
      let mp := (mp / 16384)%Z in
      if (10 <=? mp)%Z then Some ((yreg / 1461) - 4715, mp - 9, d)%Z
      else Some ((yreg / 1461) - 4716, mp + 3, d)%Z.

(** *** The record *)

Definition str_cell (v : value) : string :=
  match v with
  | VNone => "None"
  | VStr s => "'" ++ s ++ "'"
  | VInt n => Py.str_int n
  | VFloat x => str_of_float x
  | VBool b => if b then "True" else "False"
  | VDatetime d => str_datetime d
  end.

Definition str_row (row : list value) : string :=
  "[" ++ Py.join ", " (map str_cell row) ++ "]".

(** The library calls on a host with the given spreadsheet readers, clock
    and payments. *)
Definition make (openpyxl : option (list Byte.byte -> exn + xlsx_sheet))
    (xlrd : option (list Byte.byte -> exn + list xls_sheet))
    (clock : datetime) (payments : list payment) : builtins :=
  mk_builtins float_of_str str_of_float strptime b64decode decode_utf8
              openpyxl xlrd xldate_as_tuple str_row
              (dt_date clock) clock clock payments.

End Ref.

(** ** [BankImport]: the computed totals, and the other helpers *)

(** [_compute_totals]: the three counters of an import. The third is a
    Python integer, it may be negative. *)
Record totals := mk_totals {
  total_operations : Z;
  matched_operations : Z;
  unmatched_operations : Z }.

Definition _compute_totals (self : bank_import) (s : db) : totals :=
  let total := Z.of_nat (length (lines_of (rec_id self) s)) in
  let matched := Z.of_nat (length (matches_of (rec_id self) s)) in
  mk_totals total matched (total - matched)%Z.

(** [BankImportLine._compute_is_matched]: the matches of the import of
    the line, filtered on the line. *)
Definition _compute_is_matched (record : import_line) (s : db) : bool :=
  match filter (fun m => (import_line_id m =? line_id record)%nat)
               (matches_of (import_id (vals record)) s) with
  | [] => false
  | _ :: _ => true
  end.

(** [_split_continental_column] *)
Definition _split_continental_column (bi : builtins) (column_data : value) : list string :=
  if negb (value_truthy column_data) then []
  else
    map Py.strip
        (filter (fun item => Py.truthy (Py.strip item))
                (Py.split Py.newline (str_value bi column_data))).

(** ** Predicates on the store *)

(** The pair a match links. *)
Definition match_key (m : import_match) : nat * nat :=
  (import_line_id m, payment_id m).

(** No two matches of an import link the same line and payment. *)
Definition pairs_unique (s : db) : Prop :=
  forall imp : nat, NoDup (map match_key (matches_of imp s)).

(** The lines [vs] created in order on the store [s]. *)
Fixpoint number_from (i : nat) (vs : list line_vals) : list import_line :=
  match vs with
  | [] => []
  | v :: vs' => mk_line i v :: number_from (S i) vs'
  end.

Definition add_lines (vs : list line_vals) (s : db) : db :=
  mk_db (db_lines s ++ number_from (next_line_id s) vs) (db_matches s)
        (next_line_id s + length vs) (next_match_id s).

(** A method that only creates lines of the import [imp], the same lines
    with the same outcome on every store. *)
Definition creates {A : Type} (imp : nat) (m : M A) : Prop :=
  exists (r : exn + A) (vs : list line_vals),
    Forall (fun v => import_id v = imp) vs /\ forall s, m s = (r, add_lines vs s).

(** The ways [process()] fails on what the user supplied: no file, a
    content that cannot be decoded, a spreadsheet on a host without a
    spreadsheet reader. *)
Definition is_error {A : Type} (r : exn + A) : bool :=
  match r with inl _ => true | inr _ => false end.

Definition undecodable (bi : builtins) (self : bank_import) : bool :=
  match file_data self with
  | Some data =>
      match b64decode bi data with
      | inl _ => true
      | inr content =>
          match file_type self with
          | txt => is_error (decode_utf8 bi content)
          | excel => false
          end
      end
  | None => false
  end.

Definition no_backend (bi : builtins) (self : bank_import) : bool :=
  match file_type self, openpyxl bi, xlrd bi with
  | excel, None, None => true
  | _, _, _ => false
  end.

Definition user_input_failure (bi : builtins) (self : bank_import) : bool :=
  negb (has_file self) || undecodable bi self || no_backend bi self.

(** Every match of the import [imp] links a pair in [P]. *)
Definition keys_within (imp : nat) (P : nat * nat -> Prop) (s : db) : Prop :=
  forall m : import_match, In m (matches_of imp s) -> P (match_key m).

(** A method that keeps a property of the store, whether it returns or
    raises. *)
Definition preserves {A : Type} (I : db -> Prop) (m : M A) : Prop :=
  forall s : db, I s -> I (snd (m s)).

(** The store after a match was written. *)
Definition with_match (s : db) (m : import_match) : db :=
  mk_db (db_lines s) (db_matches s ++ [m]) (next_line_id s) (S (next_match_id s)).

(** The matches are without duplicates and those of [imp] link pairs in
    [P] only. *)
Definition apart (imp : nat) (P : nat * nat -> Prop) (s : db) : Prop :=
  pairs_unique s /\ keys_within imp P s.

(** The parser [process()] runs on the file. *)
Definition parse_file (bi : builtins) (self : bank_import) : M unit :=
  match file_type self with
  | txt => _process_txt_file bi self
  | excel => _process_excel_file bi self
  end.

(** What [action_process_file] returns when the parser returned or
    raised [r] after creating [n] lines. *)
Definition process_outcome (bi : builtins) (self : bank_import)
    (r : exn + unit) (n : nat) : exn + bank_import * action_result :=
  match r with
  | inl e => inl e
  | inr _ =>
      if (n =? 0)%nat then inl (UserError nothing_extracted_msg)
      else inr (mk_import (rec_id self)
                  ("Importación " ++ Py.upper (bank_key (bank_type self)) ++ " - "
                   ++ strftime_dmY_HM (utc_now bi))
                  (file_data self) (file_name self) (bank_type self) processed,
                Notification "Éxito"
                  ("Se procesaron " ++ Py.str_int (Z.of_nat n)
                   ++ " operaciones del archivo.")
                  "success" false)
  end.

(** The ids of the lines are distinct and below the next id to give. *)
Definition lines_fresh (s : db) : Prop :=
  forall l : import_line, In l (db_lines s) -> line_id l < next_line_id s.

Definition store_ok (s : db) : Prop :=
  pairs_unique s /\ NoDup (map line_id (db_lines s)) /\ lines_fresh s.

(** A method that leaves the lines of the store as they are. *)
Definition same_lines (lines : list import_line) (next : nat) (s : db) : Prop :=
  db_lines s = lines /\ next_line_id s = next.

(** The stores the module produces: from the empty store, by runs of
    [process()], of [match()] and of the advanced match, on any host
    (the payments of a host have distinct record ids). *)
Inductive reachable : db -> Prop :=
| reachable_empty : reachable (mk_db [] [] 1 1)
| reachable_process (bi : builtins) (self : bank_import) (s : db) :
    reachable s -> reachable (snd (action_process_file bi self s))
| reachable_match (bi : builtins) (self : bank_import) (s : db) :
    reachable s -> reachable (snd (action_match_payments bi self s))
| reachable_advanced (bi : builtins) (w : wizard) (s : db) :
    NoDup (map p_id (payments bi)) ->
    reachable s -> reachable (snd (action_advanced_match bi w s)).

(** ** More predicates *)

(** The text [_process_txt_file] works on: the file, decoded. *)
Definition decoded_text (bi : builtins) (self : bank_import) : exn + string :=
  match file_data self with
  | Some data =>
      match b64decode bi data with
      | inl e => inl e
      | inr content => decode_utf8 bi content
      end
  | None => inl (PyError "argument should be a bytes-like object")
  end.

(** The lines of a text that [_process_txt_file] hands to
    [_parse_txt_transaction]. *)
Definition transaction_lines (bi : builtins) (text : string) : list string :=
  filter (fun line => Py.truthy (Py.strip line) && Py.startswith q line
                      && _is_transaction_line bi line)
         (Py.split Py.newline text).

(** A method that leaves the lines as they are and only adds matches,
    all in [P]; when it returns [a], [count a] is [base] plus the number
    of matches it added. *)
Definition adds {A : Type} (P : import_match -> Prop) (count : A -> nat)
    (m : M A) (base : nat) : Prop :=
  forall s : db, exists new : list import_match,
    db_lines (snd (m s)) = db_lines s
    /\ db_matches (snd (m s)) = db_matches s ++ new
    /\ Forall P new
    /\ forall a : A, fst (m s) = inr a -> count a = base + length new.

(** A method that returns on every store. *)
Definition returns {A : Type} (m : M A) : Prop :=
  forall s : db, exists a : A, fst (m s) = inr a.

(** A match of the import [imp] that links one of the lines [lines] to a
    payment of the registry in one of the states [states]. *)
Definition links (bi : builtins) (states : list string) (imp : nat)
    (lines : list import_line) (m : import_match) : Prop :=
  m_import_id m = imp
  /\ (exists l, In l lines /\ import_line_id m = line_id l)
  /\ (exists p, In p (payments bi) /\ In (p_state p) states /\ payment_id m = p_id p).

(** Every match links a line of the store, of the import of the match. *)
Definition match_refs_ok (s : db) : Prop :=
  forall m : import_match, In m (db_matches s) ->
    exists l : import_line,
      In l (db_lines s) /\ line_id l = import_line_id m
      /\ import_id (vals l) = m_import_id m.

(** What a match created by the advanced match of wizard [w] is: a line
    of the import linked to a payment of the wizard's search whose score
    for this line is positive; the score gives the type. *)
Definition advanced_link (bi : builtins) (w : wizard) (lines : list import_line)
    (m : import_match) : Prop :=
  m_import_id m = rec_id (w_import_id w)
  /\ exists (l : import_line) (p : payment) (score : nat),
       In l lines /\ In p (wizard_payments bi w)
       /\ import_line_id m = line_id l /\ payment_id m = p_id p
       /\ _calculate_match_score w l p = inr score /\ (0 < score)%nat
       /\ match_type m = if (100 <=? score)%nat then exact else partial.

(** A method that raises [e] on every store, and one that raises [e] or
    returns. *)
Definition fails_with {A : Type} (e : exn) (m : M A) : Prop :=
  forall s, fst (m s) = inl e.

Definition returns_or {A : Type} (e : exn) (m : M A) : Prop :=
  forall s, fst (m s) = inl e \/ exists a, fst (m s) = inr a.

Definition no_communication : exn :=
  PyError "'account.payment' object has no attribute 'communication'".

(** A method whose errors all satisfy [P]. *)
Definition raises_only {A : Type} (P : exn -> Prop) (m : M A) : Prop :=
  forall s e, fst (m s) = inl e -> P e.

Definition is_user_error (e : exn) : Prop := exists msg, e = UserError msg.

(** The rows the generic parsers hand to [_create_excel_import_line],
    and the values of the lines those rows give. *)
Definition filled_rows (rows : list (list value)) : list (list value) :=
  filter (existsb value_truthy) rows.

Definition excel_rows_vals (bi : builtins) (self : bank_import) (parser_type : parser)
    (rows : list (list value)) (mapping : col_mapping) : list line_vals :=
  flat_map (fun row => match excel_line_vals bi self parser_type row mapping with
                       | Some v => [v]
                       | None => []
                       end)
           (filled_rows rows).

(** A header that [_get_excel_column_mapping] takes for the date. *)
Definition is_date_header (header : string) : bool :=
  any_word_in ["fecha"; "date"; "dia"] (Py.strip (Py.lower header)).

(** ** Concrete hosts, files and payments, to run the model on *)

Module Sample.

(** A host with neither spreadsheet reader, on 20 January 2026. *)
Definition clock : datetime := mk_datetime (mk_date 2026 1 20) 10 30 0 0.
Definition host : builtins := Ref.make None None clock [].

Definition empty_db : db := mk_db [] [] 1 1.

(** A line of a BCP text export. *)
Definition bcp_line : string :=
  q ++ "15/03/2024" ++ q ++ ";" ++ q ++ "0001" ++ q ++ ";" ++ q ++ "PAGO PROVEEDOR" ++ q
  ++ ";" ++ q ++ "1,234.56" ++ q ++ ";" ++ q ++ "S" ++ q ++ ";" ++ q ++ "000123456789" ++ q.

Definition bcp_import : bank_import :=
  mk_import 1 "Nueva Importación" (Some "Zg==") "movimientos.txt" bcp draft.

(** A Continental statement: a title row, the header row, the opening
    balance, a row whose description mentions the opening balance, and a
    payment. *)
Definition continental_sheet : xlsx_sheet :=
  mk_xlsx "Sheet6"
    [ [VStr "BBVA Continental"; VNone; VNone; VNone; VNone];
      [VStr "N"; VStr "FECHA OPER."; VStr "N OPER."; VStr "DESCRIPCION"; VStr "CARGO/ABONO"];
      [VInt 1; VStr "31-12"; VNone; VStr "SALDO ANTERIOR"; VStr "1,000.00"];
      [VInt 2; VStr "15-12"; VStr "000123"; VStr "Saldo anterior ajustado"; VStr "-50.00"];
      [VInt 3; VStr "16-12"; VStr "000124"; VStr "PAGO SERVICIOS"; VStr "-80.00"] ].

Definition continental_columns : continental_mapping :=
  mk_cmapping (Some 1) (Some 3) (Some 2) (Some 4).

Definition continental_import : bank_import :=
  mk_import 2 "Nueva Importación" (Some "Zg==") "continental.xlsx" continental draft.

(** A statement of Banco de la Nación whose column titles are on the
    tenth row of the sheet; a cell without content is [None] for
    openpyxl and the empty string for xlrd. *)
Definition nacion_rows (blank : value) : list (list value) :=
  map (fun title => [VStr title; blank; blank; blank; blank])
      ["BANCO DE LA NACION"; "Estado de cuenta"; "Cuenta: 00-000-123456";
       "Moneda: Soles"; "Titular: ACME SAC"; "Periodo: 03/2024"; "Oficina: Lima";
       "Pagina 1"; "Movimientos"]
  ++ [ [VStr "Fecha"; VStr "Trans."; VStr "Cargo"; VStr "Abono"; VStr "Nro Documento"];
       [VStr "15/03/2024"; VStr "DEPOSITO"; blank; VFloat (Float.of_Z 100);
        VStr "000123"] ].

Definition nacion_xlsx : xlsx_sheet := mk_xlsx "Hoja1" (nacion_rows VNone).
Definition nacion_xls : xls_sheet := mk_xls "Hoja1" (nacion_rows (VStr EmptyString)).

Definition nacion_import : bank_import :=
  mk_import 3 "Nueva Importación" (Some "Zg==") "nacion.xls" nacion draft.

(** The columns of that statement, and a row whose credit cell holds a
    negative number. *)
Definition nacion_columns : col_mapping :=
  mk_mapping (Some 0) (Some 1) (Some 2) (Some 3) (Some 4).

Definition negative_credit_row : list value :=
  [VStr "15/03/2024"; VStr "EXTORNO"; VStr EmptyString;
   VFloat (Float.neg (Float.of_Z 5)); VStr "000777"].

(** Payments of the host, and an import with two transactions: one
    without operation number, one with. *)
Definition pay (id : nat) (st : string) (a : Float.float) (nm memo : string) : payment :=
  mk_payment id st a (mk_date 2024 3 15) nm memo None (Some EmptyString) None.

Definition payments : list payment :=
  [ pay 8 "posted" (Float.of_Z 100) "PBNK1/2024/00008" EmptyString;
    pay 9 "posted" (Float.of_Z 250) "PBNK1/2024/00009" "OP 004521";
    pay 10 "draft" (Float.of_Z 100) "PBNK1/2024/00010" EmptyString ].

Definition bank_host : builtins := Ref.make None None clock payments.

Definition matching_import : bank_import :=
  mk_import 5 "Importación BCP - 15/03/2024 10:30" (Some "Zg==") "movimientos.txt"
            bcp processed.

Definition line_without_number : import_line :=
  mk_line 1 (mk_line_vals 5 (mk_date 2024 3 15) "DEPOSITO EN EFECTIVO"
                          (Float.of_Z 100) EmptyString "l1").

Definition line_with_number : import_line :=
  mk_line 2 (mk_line_vals 5 (mk_date 2024 3 16) "TRANSFERENCIA"
                          (Float.of_Z 250) "4521" "l2").

Definition matching_db : db :=
  mk_db [line_without_number; line_with_number] [mk_match 1 5 2 9 partial] 3 2.

Definition matching_wizard : wizard :=
  mk_wizard matching_import None None Float.zero false true true.

(** An import without lines, on a store that holds a match of it. *)
Definition unprocessed_import : bank_import :=
  mk_import 6 "Nueva Importación" (Some "Zg==") "movimientos.txt" bcp draft.

Definition unprocessed_db : db :=
  mk_db [line_without_number] [mk_match 1 6 1 8 exact] 2 2.

(** A BCP text export of two movements, and a file that is not UTF-8. *)
Definition bcp_file : string :=
  "Q3VlbnRhO01vbmVkYTtUaXBvCiIxNS8wMy8yMDI0IjsiMDAwMSI7IlBBR08gUFJPVkVFRE9SIjsiMSwyMzQuNTYiOyJTIjsiMDAwMTIzNDU2Nzg5IgoiMTYvMDMvMjAyNCI7IjAwMDIiOyJDT01JU0lPTiI7Ii0zLjUwIjsiUyI7IjQ1MjEiClRvdGFsOzI=".

Definition bad_file : string := "//4=".

Definition good_import : bank_import :=
  mk_import 1 "Nueva Importación" (Some bcp_file) "movimientos.txt" bcp draft.

(** The store and the import after the export was processed; then the
    user loads the other file. *)
Definition processed_db : db := snd (action_process_file host good_import empty_db).

Definition processed_import : bank_import :=
  match fst (action_process_file host good_import empty_db) with
  | inr (self, _) => self
  | inl _ => good_import
  end.

Definition reloaded_import : bank_import :=
  mk_import (rec_id processed_import) (name processed_import) (Some bad_file)
            (file_name processed_import) (bank_type processed_import)
            (state processed_import).

Definition reloaded_excel_import : bank_import :=
  mk_import (rec_id processed_import) (name processed_import) (file_data processed_import)
            "movimientos.xlsx" (bank_type processed_import) (state processed_import).

Definition no_file_import : bank_import :=
  mk_import 1 "Nueva Importación" None "movimientos.txt" bcp draft.

(** The export processed and matched, by the engine and then by the
    wizard, on the host with payments. *)
Definition matched_db : db :=
  snd (action_advanced_match bank_host
         (mk_wizard good_import None None Float.zero false true true)
         (snd (action_match_payments bank_host good_import
                 (snd (action_process_file bank_host good_import empty_db))))).

(** A text export without movements. *)
Definition header_only_file : string :=
  "Q3VlbnRhO01vbmVkYTtUaXBvClNpbiBtb3ZpbWllbnRvcwpUb3RhbDsw".

Definition header_only_import : bank_import :=
  mk_import 1 "Nueva Importación" (Some header_only_file) "movimientos.txt" bcp draft.

(** A host where two payments carry the operation number of the second
    movement of the export, and the store after the export was processed
    and matched there. *)
Definition twin_host : builtins :=
  Ref.make None None clock
    [ pay 8 "posted" (Float.of_Z 40) "PBNK1/2024/00008" "OP 4521";
      pay 9 "posted" (Float.of_Z 250) "PBNK1/2024/00009" "OP 004521" ].

Definition twin_db : db :=
  snd (action_match_payments twin_host good_import processed_db).

End Sample.

(** * Properties *)

(** ** Facts about the string operations *)

Local Open Scope string_scope.

Section StringFacts.

Lemma append_assoc (a b c : string) : (a ++ b) ++ c = a ++ (b ++ c).
Proof. induction a; simpl; congruence. Qed.

Lemma rev_onto_app (s acc : string) : Py.rev_onto s acc = Py.rev s ++ acc.
Proof.
  unfold Py.rev. revert acc.
  induction s as [|c s IH]; intros acc; simpl; [reflexivity|].
  rewrite IH, (IH (String c EmptyString)).
  rewrite append_assoc. reflexivity.
Qed.

Lemma append_empty_r (s : string) : s ++ EmptyString = s.
Proof. induction s; simpl; congruence. Qed.

Lemma rev_app (a b : string) : Py.rev (a ++ b) = Py.rev b ++ Py.rev a.
Proof.
  induction a as [|c a IH]; simpl.
  - now rewrite append_empty_r.
  - unfold Py.rev at 1 3. simpl. rewrite !rev_onto_app, IH.
    now rewrite append_assoc.
Qed.

Lemma rev_cons (c : ascii) (s : string) :
  Py.rev (String c s) = Py.rev s ++ String c EmptyString.
Proof. unfold Py.rev at 1. simpl. apply rev_onto_app. Qed.

Lemma rev_involutive (s : string) : Py.rev (Py.rev s) = s.
Proof.
  induction s as [|c s IH]; [reflexivity|].
  rewrite rev_cons, rev_app, IH. reflexivity.
Qed.

Lemma all_chars_app (p : ascii -> bool) (a b : string) :
  Py.all_chars p (a ++ b) = Py.all_chars p a && Py.all_chars p b.
Proof. induction a as [|c a IH]; simpl; [reflexivity|]. now rewrite IH, andb_assoc. Qed.

Lemma all_chars_rev (p : ascii -> bool) (s : string) :
  Py.all_chars p (Py.rev s) = Py.all_chars p s.
Proof.
  induction s as [|c s IH]; [reflexivity|].
  rewrite rev_cons, all_chars_app, IH. simpl. rewrite andb_true_r. apply andb_comm.
Qed.

Lemma all_chars_impl (p r : ascii -> bool) (s : string) :
  (forall c, p c = true -> r c = true) ->
  Py.all_chars p s = true -> Py.all_chars r s = true.
Proof.
  intros Hpr. induction s as [|c s IH]; simpl; [reflexivity|].
  intros H. apply andb_true_iff in H as [Hc Hs].
  now rewrite (Hpr _ Hc), (IH Hs).
Qed.

(** A string whose first character is kept is not stripped on the left. *)
Lemma lstrip_by_keep (p : ascii -> bool) (c : ascii) (s : string) :
  p c = false -> Py.lstrip_by p (String c s) = String c s.
Proof. intros H. simpl. now rewrite H. Qed.

(** A non-empty string made of kept characters only is not stripped. *)
Lemma strip_by_all_kept (p : ascii -> bool) (s : string) :
  Py.all_chars (fun c => negb (p c)) s = true -> Py.strip_by p s = s.
Proof.
  intros H. unfold Py.strip_by, Py.rstrip_by.
  assert (Hl : forall t, Py.all_chars (fun c => negb (p c)) t = true ->
                         Py.lstrip_by p t = t).
  { intros [|c t] Ht; [reflexivity|]. simpl in Ht.
    apply andb_true_iff in Ht as [Hc _]. apply lstrip_by_keep.
    now destruct (p c). }
  rewrite (Hl s H), Hl by now rewrite all_chars_rev.
  apply rev_involutive.
Qed.

Lemma split_no_sep (sep : ascii) (s : string) :
  Py.all_chars (fun c => negb (Ascii.eqb c sep)) s = true -> Py.split sep s = [s].
Proof.
  induction s as [|c s IH]; simpl; [reflexivity|].
  intros H. apply andb_true_iff in H as [Hc Hs].
  destruct (Ascii.eqb c sep); [discriminate|]. now rewrite (IH Hs).
Qed.

Lemma split_app_sep (sep : ascii) (a b : string) :
  Py.all_chars (fun c => negb (Ascii.eqb c sep)) a = true ->
  Py.split sep (a ++ String sep b) = a :: Py.split sep b.
Proof.
  induction a as [|c a IH]; simpl.
  - intros _. now rewrite Ascii.eqb_refl.
  - intros H. apply andb_true_iff in H as [Hc Hs].
    destruct (Ascii.eqb c sep); [discriminate|]. now rewrite (IH Hs).
Qed.

Lemma startswith_app (p s : string) : Py.startswith p (p ++ s) = true.
Proof. induction p as [|c p IH]; simpl; [reflexivity|]. now rewrite Ascii.eqb_refl. Qed.

Lemma contains_app (needle a b : string) :
  Py.contains needle b = true -> Py.contains needle (a ++ b) = true.
Proof.
  intros H. induction a as [|c a IH]; simpl; [assumption|].
  rewrite IH. apply orb_true_r.
Qed.

Lemma contains_prefix (needle s : string) : Py.contains needle (needle ++ s) = true.
Proof. destruct (needle ++ s) eqn:E; simpl; rewrite <- E, startswith_app; reflexivity. Qed.

Lemma truthy_app_r (a b : string) : Py.truthy b = true -> Py.truthy (a ++ b) = true.
Proof. destruct a; simpl; auto. Qed.

Lemma str_eqb_empty (s : string) : Py.str_eqb s EmptyString = negb (Py.truthy s).
Proof. destruct s; reflexivity. Qed.

Lemma digit_not_space (c : ascii) : Py.is_digit c = true -> Py.is_space c = false.
Proof.
  unfold Py.is_digit, Py.is_space. intros H.
  apply andb_true_iff in H as [H1 H2].
  apply Nat.leb_le in H1. apply Nat.leb_le in H2.
  apply orb_false_iff. split; apply andb_false_iff.
  - right. apply Nat.leb_gt. lia.
  - right. apply Nat.leb_gt. lia.
Qed.

Lemma digit_not_char (c d : ascii) :
  Py.is_digit d = false -> Py.is_digit c = true -> negb (Ascii.eqb c d) = true.
Proof.
  intros Hd Hc. destruct (Ascii.eqb_spec c d) as [->|]; [congruence|reflexivity].
Qed.

(** [s[-n:]] is the end of [s], and has [n] characters when [s] has as
    many. *)
Lemma substring_drop (k : nat) (s : string) :
  k <= String.length s ->
  exists p, String.length p = k /\ s = p ++ substring k (String.length s - k) s.
Proof.
  revert s. induction k as [|k IH]; intros s Hk.
  - exists EmptyString. split; [reflexivity|]. simpl. rewrite Nat.sub_0_r.
    induction s as [|c s IHs]; [reflexivity|]. simpl. f_equal. apply IHs. simpl. lia.
  - destruct s as [|c s]; simpl in Hk; [lia|].
    destruct (IH s) as [p [Hp Hs]]; [lia|].
    exists (String c p). split; [simpl; congruence|]. simpl. now f_equal.
Qed.

Lemma length_append (a b : string) :
  String.length (a ++ b) = String.length a + String.length b.
Proof. induction a; simpl; congruence. Qed.

Lemma suffix_spec (n : nat) (s : string) :
  n <= String.length s ->
  exists p, s = p ++ Py.suffix n s /\ String.length (Py.suffix n s) = n.
Proof.
  intros Hn. unfold Py.suffix.
  destruct (substring_drop (String.length s - n) s) as [p [Hp Hs]]; [lia|].
  replace (String.length s - (String.length s - n)) with n in Hs by lia.
  exists p. split; [assumption|].
  apply (f_equal String.length) in Hs. rewrite length_append in Hs. lia.
Qed.

End StringFacts.

(** ** The text parser: operation numbers of BCP *)

(** C9. In the text parser with bank profile [bcp], a line that is parsed
    (six fields or more, a first field that is a DD/MM/YYYY date) creates
    exactly one transaction, whose stored operation number is the end of
    the extracted one (the sixth field): its last 6 characters when the
    extracted number has 6 or more, all of it when it has fewer. *)
Theorem bcp_operation_number_truncated
    (bi : builtins) (self : bank_import) (line : string) (d : date) (s : db) :
  bank_type self = bcp ->
  6 <= length (txt_fields line) ->
  strptime bi (nth 0 (txt_fields line) EmptyString) "%d/%m/%Y" = Some d ->
  exists (v : line_vals) (prefix : string),
    _parse_txt_transaction bi self line s
    = (inr tt, mk_db (db_lines s ++ [mk_line (next_line_id s) v])%list (db_matches s)
                     (S (next_line_id s)) (next_match_id s))
    /\ nth 5 (txt_fields line) EmptyString = prefix ++ operation_number v
    /\ String.length (operation_number v)
       = Nat.min 6 (String.length (nth 5 (txt_fields line) EmptyString)).
Proof.
  intros Hbank Hlen Hdate.
  unfold _parse_txt_transaction, try_except, bcp_operation_number.
  apply Nat.leb_le in Hlen. rewrite Hlen, Hdate, Hbank. cbn [bank_eqb andb].
  set (extracted := nth 5 (txt_fields line) EmptyString).
  destruct (Nat.leb_spec 6 (String.length extracted)) as [Hsix|Hshort].
  - assert (Ht : Py.truthy extracted = true) by (destruct extracted; [simpl in Hsix; lia|reflexivity]).
    rewrite Ht. cbn [andb]. rewrite (Nat.min_l 6 _ Hsix).
    destruct (suffix_spec 6 extracted Hsix) as [p [Hp Hl]].
    eexists _, p. unfold create_line. cbn.
    split; [reflexivity|]. cbn [operation_number]. split; [exact Hp|]. exact Hl.
  - rewrite andb_false_r, Nat.min_r by lia.
    eexists _, EmptyString. unfold create_line. cbn.
    split; [reflexivity|]. cbn [operation_number]. split; reflexivity.
Qed.

Lemma bcp_operation_number_truncated_witness :
  exists (v : line_vals) (prefix : string),
    _parse_txt_transaction Sample.host Sample.bcp_import Sample.bcp_line Sample.empty_db
    = (inr tt, mk_db [mk_line 1 v] [] 2 1)
    /\ "000123456789" = prefix ++ operation_number v
    /\ String.length (operation_number v) = 6.
Proof.
  exact (bcp_operation_number_truncated Sample.host Sample.bcp_import Sample.bcp_line
           (mk_date 2024 3 15) Sample.empty_db eq_refl
           (le_n 6) eq_refl).
Defined.

(** ** The Continental parser: dates without a year *)

Lemma isdigit_inv (s : string) :
  Py.isdigit s = true -> Py.truthy s = true /\ Py.all_chars Py.is_digit s = true.
Proof. unfold Py.isdigit. intros H. now apply andb_true_iff in H. Qed.

Lemma truthy_rev (s : string) : Py.truthy s = true -> Py.truthy (Py.rev s) = true.
Proof.
  destruct s as [|c s]; [discriminate|]. intros _. rewrite rev_cons.
  apply truthy_app_r. reflexivity.
Qed.

(** Digits on both sides of a hyphen: nothing to strip. *)
Lemma strip_day_month (day month : string) :
  Py.isdigit day = true -> Py.isdigit month = true ->
  Py.strip (day ++ "-" ++ month) = day ++ "-" ++ month.
Proof.
  intros Hd Hm.
  apply isdigit_inv in Hd as [Hd1 Hd2]. apply isdigit_inv in Hm as [Hm1 Hm2].
  unfold Py.strip, Py.strip_by, Py.rstrip_by.
  assert (Hl : Py.lstrip_by Py.is_space (day ++ "-" ++ month) = day ++ "-" ++ month).
  { destruct day as [|c day]; [discriminate|]. simpl in Hd2.
    apply andb_true_iff in Hd2 as [Hc _].
    apply lstrip_by_keep. now apply digit_not_space. }
  rewrite Hl.
  assert (Hr : Py.lstrip_by Py.is_space (Py.rev (day ++ "-" ++ month))
               = Py.rev (day ++ "-" ++ month)).
  { rewrite rev_app, rev_app.
    pose proof (truthy_rev month Hm1) as Ht.
    rewrite <- (all_chars_rev _ month) in Hm2.
    destruct (Py.rev month) as [|c r]; [discriminate|]. simpl in Hm2.
    apply andb_true_iff in Hm2 as [Hc _].
    apply lstrip_by_keep. now apply digit_not_space. }
  rewrite Hr. apply rev_involutive.
Qed.

Lemma strip_digits (s : string) : Py.isdigit s = true -> Py.strip s = s.
Proof.
  intros H. apply isdigit_inv in H as [_ H]. apply strip_by_all_kept.
  revert H. apply all_chars_impl. intros c Hc. now rewrite digit_not_space.
Qed.

Lemma split_day_month (day month : string) :
  Py.isdigit day = true -> Py.isdigit month = true ->
  Py.split "-"%char (day ++ "-" ++ month) = [day; month].
Proof.
  intros Hd Hm.
  apply isdigit_inv in Hd as [_ Hd]. apply isdigit_inv in Hm as [_ Hm].
  assert (Hno : forall s, Py.all_chars Py.is_digit s = true ->
                Py.all_chars (fun c => negb (Ascii.eqb c "-"%char)) s = true).
  { intros s. apply all_chars_impl. intros c. now apply digit_not_char. }
  change (day ++ "-" ++ month) with (day ++ String "-"%char month).
  rewrite split_app_sep by auto. now rewrite split_no_sep by auto.
Qed.

(** C8. A Continental date [DD-MM] (day 1 to 31, month 1 to 12, no year)
    is given the current year, or the year before when the current month
    is at most 2 and the month of the date is at least 11; the parser
    returns that day of that month of that year ([make_date] is [None]
    only for a day the month does not have). *)
Theorem continental_date_assumed_year (bi : builtins) (dd mm : string) :
  Py.isdigit dd = true -> Py.isdigit mm = true ->
  (1 <= Py.int dd <= 31)%Z -> (1 <= Py.int mm <= 12)%Z ->
  _parse_continental_date bi (dd ++ "-" ++ mm)
  = make_date
      (if ((month (dt_date (now bi)) <=? 2) && (11 <=? Py.int mm))%Z
       then (year (dt_date (now bi)) - 1)%Z else year (dt_date (now bi)))
      (Py.int mm) (Py.int dd).
Proof.
  intros Hd Hm [Hd1 Hd2] [Hm1 Hm2].
  unfold _parse_continental_date.
  rewrite (strip_day_month dd mm Hd Hm), str_eqb_empty.
  assert (Ht : Py.truthy (dd ++ "-" ++ mm) = true) by now apply truthy_app_r.
  rewrite Ht. cbn [negb orb].
  rewrite (contains_app "-" dd ("-" ++ mm)) by apply contains_prefix.
  rewrite (split_day_month dd mm Hd Hm).
  rewrite (strip_digits dd Hd), (strip_digits mm Hm), Hd, Hm. cbn [andb].
  apply Z.leb_le in Hd1, Hd2, Hm1, Hm2. rewrite Hd1, Hd2, Hm1, Hm2. cbn [andb].
  reflexivity.
Qed.

(** On 20 January 2026 the date [15-12] is 15 December 2025. *)
Lemma continental_date_assumed_year_witness :
  _parse_continental_date Sample.host "15-12" = Some (mk_date 2025 12 15).
Proof.
  apply (continental_date_assumed_year Sample.host "15" "12");
    [reflexivity | reflexivity | split | split];
    cbv; intros H; discriminate H.
Defined.

(** ** The Continental parser: the opening balance row *)

(** A row whose description mentions the opening balance creates no
    line, wherever the description column is. *)
Lemma continental_saldo_no_line (bi : builtins) (self : bank_import)
    (mapping : continental_mapping) (row : list value) (i : nat) (v : value) (s : db) :
  cc_descripcion mapping = Some i ->
  nth_error row i = Some v ->
  is_saldo_anterior bi v = true ->
  continental_row bi self mapping row s = (inr 0, s).
Proof.
  intros Hcol Hcell Hsaldo.
  unfold continental_row, try_except, bind, call.
  rewrite Hcol. destruct i as [|i]; cbn [get_truthy].
  - (* the description is the first column: the test is not made, and
       the row has no description *)
    unfold continental_cell. cbn [get_truthy].
    destruct (match get_truthy (cc_fecha mapping) with
              | Some i => _ | None => _ end) as [e|fc]; [reflexivity|].
    destruct (match get_truthy (cc_monto mapping) with
              | Some i => _ | None => _ end) as [e|mc]; [reflexivity|].
    destruct (match get_truthy (cc_operacion mapping) with
              | Some i => _ | None => _ end) as [e|oc]; [reflexivity|].
    cbn [continental_text Py.truthy]. rewrite andb_false_r. reflexivity.
  - rewrite Hcell, Hsaldo. reflexivity.
Qed.

(** A row that does not mention the opening balance, with a description
    and an amount, creates its line. *)
Lemma continental_other_row_kept (bi : builtins) (self : bank_import)
    (mapping : continental_mapping) (row : list value) (i : nat) (v : value)
    (fc mc oc : option value) (s : db) :
  cc_descripcion mapping = Some (S i) ->
  nth_error row (S i) = Some v ->
  is_saldo_anterior bi v = false ->
  continental_cell row (cc_fecha mapping) = inr fc ->
  continental_cell row (cc_monto mapping) = inr mc ->
  continental_cell row (cc_operacion mapping) = inr oc ->
  Py.truthy (continental_text bi (Some v) EmptyString) = true ->
  Float.eqb (_parse_continental_amount bi (continental_text bi mc "0")) Float.zero = false ->
  exists line : line_vals,
    continental_row bi self mapping row s
    = (inr 1, mk_db (db_lines s ++ [mk_line (next_line_id s) line])%list (db_matches s)
                    (S (next_line_id s)) (next_match_id s))
    /\ description line = continental_text bi (Some v) EmptyString.
Proof.
  intros Hcol Hcell Hsaldo Hf Hm Ho Hdesc Hamount.
  unfold continental_row, try_except, bind, call.
  rewrite Hcol. cbn [get_truthy]. rewrite Hcell, Hsaldo, Hf, Hm, Ho.
  unfold continental_cell at 1. cbn [get_truthy]. rewrite Hcell.
  rewrite Hamount, Hdesc. cbn [negb]. rewrite orb_true_r. cbn [orb andb].
  eexists. unfold create_line, ret. split; reflexivity.
Qed.

(** C7 (as the code has it). In the Continental path a data row produces
    no transaction when its description, trimmed and upper-cased,
    contains SALDO ANTERIOR (so also when it is exactly that marker); a
    row whose description does not contain the marker is not passed over
    by this rule: with a description and a non-zero amount it produces
    its transaction. *)
Theorem continental_saldo_anterior_rule (bi : builtins) (self : bank_import)
    (mapping : continental_mapping) (row : list value) (s : db) :
  (forall (i : nat) (v : value),
      cc_descripcion mapping = Some i ->
      nth_error row i = Some v ->
      is_saldo_anterior bi v = true ->
      continental_row bi self mapping row s = (inr 0, s))
  /\ (forall (i : nat) (v : value) (fc mc oc : option value),
         cc_descripcion mapping = Some (S i) ->
         nth_error row (S i) = Some v ->
         is_saldo_anterior bi v = false ->
         continental_cell row (cc_fecha mapping) = inr fc ->
         continental_cell row (cc_monto mapping) = inr mc ->
         continental_cell row (cc_operacion mapping) = inr oc ->
         Py.truthy (continental_text bi (Some v) EmptyString) = true ->
         Float.eqb (_parse_continental_amount bi (continental_text bi mc "0"))
                   Float.zero = false ->
         exists line : line_vals,
           continental_row bi self mapping row s
           = (inr 1, mk_db (db_lines s ++ [mk_line (next_line_id s) line])%list
                           (db_matches s) (S (next_line_id s)) (next_match_id s))
           /\ description line = continental_text bi (Some v) EmptyString).
Proof.
  split.
  - intros i v. apply continental_saldo_no_line.
  - intros i v fc mc oc. apply continental_other_row_kept.
Qed.

(** The opening balance row of the sample statement creates nothing, its
    payment row creates a line. *)
Lemma continental_saldo_anterior_rule_witness :
  continental_row Sample.host Sample.continental_import Sample.continental_columns
    (xlsx_row Sample.continental_sheet 3) Sample.empty_db
  = (inr 0, Sample.empty_db)
  /\ exists line : line_vals,
       continental_row Sample.host Sample.continental_import Sample.continental_columns
         (xlsx_row Sample.continental_sheet 5) Sample.empty_db
       = (inr 1, mk_db [mk_line 1 line] [] 2 1)
       /\ description line = "PAGO SERVICIOS".
Proof.
  split.
  - exact (proj1 (continental_saldo_anterior_rule Sample.host Sample.continental_import
                    Sample.continental_columns (xlsx_row Sample.continental_sheet 3)
                    Sample.empty_db)
                 3 (VStr "SALDO ANTERIOR") eq_refl eq_refl eq_refl).
  - exact (proj2 (continental_saldo_anterior_rule Sample.host Sample.continental_import
                    Sample.continental_columns (xlsx_row Sample.continental_sheet 5)
                    Sample.empty_db)
                 2 (VStr "PAGO SERVICIOS") (Some (VStr "16-12")) (Some (VStr "-80.00"))
                 (Some (VStr "000124")) eq_refl eq_refl eq_refl eq_refl eq_refl eq_refl
                 eq_refl eq_refl).
Defined.

(** C7, as stated, fails: the fourth row of the sample statement has a
    description that is not the marker, a date, an amount and an
    operation number, and the rule passes it over; the statement yields
    the line of its fifth row only. *)
Lemma continental_saldo_anterior_counterexample :
  "Saldo anterior ajustado" <> "SALDO ANTERIOR"
  /\ nth_error (xlsx_row Sample.continental_sheet 4) 3 = Some (VStr "Saldo anterior ajustado")
  /\ is_saldo_anterior Sample.host (VStr "Saldo anterior ajustado") = true
  /\ continental_row Sample.host Sample.continental_import Sample.continental_columns
       (xlsx_row Sample.continental_sheet 4) Sample.empty_db
     = (inr 0, Sample.empty_db)
  /\ map (fun l => description (vals l))
         (db_lines (snd (_parse_continental_excel_openpyxl Sample.host
                           Sample.continental_import Sample.continental_sheet
                           Sample.empty_db)))
     = ["PAGO SERVICIOS"]%list.
Proof. split; [discriminate|]. repeat split; vm_compute; reflexivity. Qed.

(** ** The generic spreadsheet parser: the header row *)

Lemma range_In (a b k : nat) : In k (range a b) <-> a <= k < b.
Proof. unfold range. rewrite in_seq. lia. Qed.

(** The xlrd parser takes as header the first of the first 10 rows that
    has a cell with [fecha] in its lower-cased text. *)
Lemma xlrd_header_row_found (bi : builtins) (sheet : xls_sheet) (k : nat) :
  xlrd_header_row bi sheet = Some k ->
  k < 10 /\ k < nrows sheet
  /\ existsb (Py.contains "fecha") (xlrd_row_values bi (row_values sheet k)) = true.
Proof.
  unfold xlrd_header_row. intros H. apply find_some in H as [Hin Hk].
  apply range_In in Hin. repeat split; [lia|lia|exact Hk].
Qed.

Lemma find_first {A : Type} (p : A -> bool) (l : list A) (x : A) :
  find p l = Some x ->
  exists l1 l2, l = (l1 ++ x :: l2)%list /\ forallb (fun y => negb (p y)) l1 = true.
Proof.
  induction l as [|a l IH]; simpl; [discriminate|].
  destruct (p a) eqn:Ha.
  - intros [= ->]. now exists []%list, l.
  - intros H. destruct (IH H) as [l1 [l2 [-> Hl1]]].
    exists (a :: l1)%list, l2. split; [reflexivity|]. simpl. now rewrite Ha.
Qed.

Lemma seq_split_at (a n k : nat) (l1 l2 : list nat) :
  seq a n = (l1 ++ k :: l2)%list -> l1 = seq a (k - a) /\ a <= k.
Proof.
  revert a l1. induction n as [|n IH]; intros a l1 H.
  - destruct l1; discriminate.
  - destruct l1 as [|x l1]; simpl in H.
    + injection H as -> _. rewrite Nat.sub_diag. split; [reflexivity|lia].
    + injection H as <- H. apply IH in H as [-> Hle].
      replace (k - a) with (S (k - S a)) by lia. split; [reflexivity|lia].
Qed.

Lemma xlrd_header_row_first (bi : builtins) (sheet : xls_sheet) (k j : nat) :
  xlrd_header_row bi sheet = Some k -> j < k ->
  existsb (Py.contains "fecha") (xlrd_row_values bi (row_values sheet j)) = false.
Proof.
  unfold xlrd_header_row, range. intros H Hj.
  apply find_first in H as [l1 [l2 [Hl Hnone]]].
  apply seq_split_at in Hl as [-> _].
  rewrite forallb_forall in Hnone.
  specialize (Hnone j). rewrite in_seq in Hnone.
  apply negb_true_iff, Hnone. lia.
Qed.

Lemma xlrd_header_row_missing (bi : builtins) (sheet : xls_sheet) :
  xlrd_header_row bi sheet = None ->
  forall j, j < 10 -> j < nrows sheet ->
  existsb (Py.contains "fecha") (xlrd_row_values bi (row_values sheet j)) = false.
Proof.
  unfold xlrd_header_row. intros H j H10 Hrows.
  apply (find_none _ _ H). apply range_In. lia.
Qed.

(** The openpyxl parser never takes a row after the ninth as header. *)
Lemma openpyxl_header_row_bound (bi : builtins) (sheet : xlsx_sheet) (k : nat) :
  openpyxl_header_row bi sheet = Some k -> 1 <= k <= 9.
Proof.
  unfold openpyxl_header_row. intros H. apply find_some in H as [Hin _].
  apply range_In in Hin. lia.
Qed.

(** C5 fails in the openpyxl parser. The column titles of the sample
    statement are on its tenth row: the xlrd parser finds them there and
    reads the statement, the openpyxl parser, which looks at nine rows,
    reports that there is no header row. *)
Theorem header_on_tenth_row :
  xlrd_header_row Sample.host Sample.nacion_xls = Some 9
  /\ fst (_parse_excel_xlrd Sample.host Sample.nacion_import Sample.nacion_xls
            Sample.empty_db) = inr tt
  /\ openpyxl_header_row Sample.host Sample.nacion_xlsx = None
  /\ _parse_excel_openpyxl Sample.host Sample.nacion_import Sample.nacion_xlsx
       Sample.empty_db
     = (inl (UserError (no_header_msg)), Sample.empty_db)
  /\ Py.contains "fecha" no_header_msg = true.
Proof. repeat split; vm_compute; reflexivity. Qed.

(** ** The generic spreadsheet parser: the sign of the amount *)

Lemma neg_abs_negative (x : Float.float) :
  Float.is_nan x = false -> Float.eqb x Float.zero = false ->
  Float.ltb (Float.neg (Float.abs x)) Float.zero = true.
Proof.
  unfold Float.is_nan, Float.eqb, Float.ltb, Float.neg, Float.abs, Float.zero.
  destruct x as [sx|sx| |sx m e]; try destruct sx; cbn; intros; congruence.
Qed.

Lemma neg_abs_not_zero (x : Float.float) :
  Float.is_nan x = false -> Float.eqb x Float.zero = false ->
  Float.eqb (Float.neg (Float.abs x)) Float.zero = false.
Proof.
  unfold Float.is_nan, Float.eqb, Float.ltb, Float.neg, Float.abs, Float.zero.
  destruct x as [sx|sx| |sx m e]; try destruct sx; cbn; intros; congruence.
Qed.

(** The debit half of C6: a debit cell that holds a number other than
    zero gives minus its absolute value, below zero, whatever the credit
    cell holds. *)
Lemma debit_gives_negative_amount (bi : builtins) (parser_type : parser)
    (row : list value) (mapping : col_mapping) (i : nat) (x : Float.float) :
  cm_cargo mapping = Some i ->
  value_truthy (get_value parser_type row i) = true ->
  Py.truthy (Py.strip (str_value bi (get_value parser_type row i))) = true ->
  Py.truthy (clean_amount bi (get_value parser_type row i)) = true ->
  float_of_str bi (clean_amount bi (get_value parser_type row i)) = Some x ->
  Float.is_nan x = false -> Float.eqb x Float.zero = false ->
  excel_amount bi parser_type row mapping = Float.neg (Float.abs x)
  /\ Float.ltb (excel_amount bi parser_type row mapping) Float.zero = true.
Proof.
  intros Hcol Hv Hs Hc Hf Hnan Hnz.
  assert (E : excel_amount bi parser_type row mapping = Float.neg (Float.abs x)).
  { unfold excel_amount, cargo_amount_of. rewrite Hcol, Hv, Hs, Hc, Hf.
    rewrite str_eqb_empty, Hc. cbn [andb negb].
    rewrite (neg_abs_not_zero x Hnan Hnz). now destruct (cm_abono mapping). }
  rewrite E. split; [reflexivity|]. now apply neg_abs_negative.
Qed.

(** The credit step keeps the sign of the cell: with no debit, a credit
    cell that parses to [x] gives the amount [x]. *)
Lemma credit_gives_its_value (bi : builtins) (parser_type : parser)
    (row : list value) (mapping : col_mapping) (i : nat) (x : Float.float) :
  cm_cargo mapping = None -> cm_abono mapping = Some i ->
  value_truthy (get_value parser_type row i) = true ->
  Py.truthy (Py.strip (str_value bi (get_value parser_type row i))) = true ->
  Py.truthy (clean_amount bi (get_value parser_type row i)) = true ->
  float_of_str bi (clean_amount bi (get_value parser_type row i)) = Some x ->
  excel_amount bi parser_type row mapping = x.
Proof.
  intros Hc Ha Hv Hs Hcl Hf.
  unfold excel_amount, abono_amount_of. rewrite Hc, Ha, Hv, Hs, Hcl, Hf.
  rewrite str_eqb_empty, Hcl. reflexivity.
Qed.

(** C6 fails on its credit half. The sample row has an empty debit cell
    and -5.0 in its credit cell: the line created has the amount -5.0,
    which is below zero. *)
Theorem negative_credit_amount :
  get_value parser_xlrd Sample.negative_credit_row 2 = VStr EmptyString
  /\ get_value parser_xlrd Sample.negative_credit_row 3 = VFloat (Float.neg (Float.of_Z 5))
  /\ option_map amount
       (excel_line_vals Sample.host Sample.nacion_import parser_xlrd
          Sample.negative_credit_row Sample.nacion_columns)
     = Some (Float.neg (Float.of_Z 5))
  /\ Float.ltb (Float.neg (Float.of_Z 5)) Float.zero = true
  /\ Float.ltb Float.zero (Float.neg (Float.of_Z 5)) = false
  /\ map (fun l => amount (vals l))
         (db_lines (snd (_create_excel_import_line Sample.host Sample.nacion_import
                           Sample.negative_credit_row Sample.nacion_columns parser_xlrd
                           Sample.empty_db)))
     = [Float.neg (Float.of_Z 5)]%list.
Proof. repeat split; vm_compute; reflexivity. Qed.

(** ** Methods that keep a property of the store *)

Section Preservation.

Variable I : db -> Prop.

Lemma preserves_ret {A : Type} (a : A) : preserves I (ret a).
Proof. intros s Hs. exact Hs. Qed.

Lemma preserves_raise {A : Type} (e : exn) : preserves I (@raise A e).
Proof. intros s Hs. exact Hs. Qed.

Lemma preserves_call {A : Type} (r : exn + A) : preserves I (call r).
Proof. intros s Hs. exact Hs. Qed.

Lemma preserves_bind {A B : Type} (m : M A) (f : A -> M B) :
  preserves I m -> (forall a, preserves I (f a)) -> preserves I (bind m f).
Proof.
  intros Hm Hf s Hs. unfold bind. specialize (Hm s Hs).
  destruct (m s) as [[e|a] s1]; simpl in *; [assumption|]. now apply Hf.
Qed.

Lemma preserves_try_except {A : Type} (m : M A) (h : exn -> M A) :
  preserves I m -> (forall e, preserves I (h e)) -> preserves I (try_except m h).
Proof.
  intros Hm Hh s Hs. unfold try_except. specialize (Hm s Hs).
  destruct (m s) as [[e|a] s1]; simpl in *; [now apply Hh|assumption].
Qed.

Lemma preserves_fold_each {A B : Type} (l : list A) (body : B -> A -> M B) :
  (forall acc x, preserves I (body acc x)) ->
  forall acc, preserves I (fold_each l acc body).
Proof.
  intros Hbody. induction l as [|x l IH]; intros acc; simpl.
  - apply preserves_ret.
  - apply preserves_bind; [apply Hbody|]. intros acc'. apply IH.
Qed.

Lemma preserves_line_ids (self : bank_import) : preserves I (line_ids self).
Proof. intros s Hs. exact Hs. Qed.

End Preservation.

(** ** The match engine: matches are not duplicated *)

(** Keys that are distinct stay distinct when records are dropped. *)
Lemma distinct_keys_filter {R K : Type} (key : R -> K) (keep : R -> bool) :
  forall records : list R,
    NoDup (map key records) -> NoDup (map key (filter keep records)).
Proof.
  intros records. induction records as [|r records IH]; simpl; intros Hnd.
  - exact Hnd.
  - inversion_clear Hnd as [|? ? Hfresh Hrest].
    specialize (IH Hrest). destruct (keep r); simpl; [|exact IH].
    constructor; [|exact IH].
    rewrite in_map_iff in *. intros [r' [Hkey Hin]].
    apply Hfresh. exists r'. split; [exact Hkey|].
    apply filter_In in Hin. tauto.
Qed.

Lemma filter_comm {A : Type} (p r : A -> bool) (l : list A) :
  filter p (filter r l) = filter r (filter p l).
Proof.
  induction l as [|a l IH]; simpl; [reflexivity|].
  destruct (p a) eqn:Hp, (r a) eqn:Hr; simpl; rewrite ?Hp, ?Hr, IH; reflexivity.
Qed.

Lemma unlink_matches_pairs_unique (imp : nat) :
  preserves pairs_unique (unlink_matches imp).
Proof.
  intros s Hs imp'. unfold unlink_matches, matches_of. simpl.
  rewrite filter_comm. apply distinct_keys_filter. apply Hs.
Qed.

Lemma unlink_matches_none (imp : nat) (s : db) :
  matches_of imp (snd (unlink_matches imp s)) = []%list.
Proof.
  unfold unlink_matches, matches_of. simpl.
  induction (db_matches s) as [|m l IH]; simpl; [reflexivity|].
  destruct (m_import_id m =? imp)%nat eqn:E; simpl; [assumption|].
  now rewrite E.
Qed.

Lemma create_match_cases (imp line pay : nat) (k : match_kind) (s : db) :
  (exists e, create_match imp line pay k s = (inl e, s))
  \/ create_match imp line pay k s
     = (inr tt, with_match s (mk_match (next_match_id s) imp line pay k)).
Proof.
  unfold create_match.
  destruct (line =? 0)%nat; [left; eexists; reflexivity|].
  destruct (pay =? 0)%nat; [left; eexists; reflexivity|].
  destruct (imp =? 0)%nat; [left; eexists; reflexivity|].
  right. reflexivity.
Qed.

Lemma matches_of_with_match (imp' : nat) (s : db) (m : import_match) :
  matches_of imp' (with_match s m)
  = (matches_of imp' s ++ (if (m_import_id m =? imp')%nat then [m] else []))%list.
Proof. unfold matches_of, with_match. simpl. now rewrite filter_app. Qed.

Lemma pairs_unique_with_match (s : db) (m : import_match) :
  pairs_unique s ->
  (forall m', In m' (matches_of (m_import_id m) s) -> match_key m' <> match_key m) ->
  pairs_unique (with_match s m).
Proof.
  intros Hs Hfresh imp'. rewrite matches_of_with_match.
  destruct (Nat.eqb_spec (m_import_id m) imp') as [<-|Hne].
  - rewrite map_app. apply NoDup_app; [apply Hs|repeat constructor; auto|].
    intros k Hk [<-|[]]. apply in_map_iff in Hk as [m' [Hk Hin]].
    now apply (Hfresh m' Hin).
  - rewrite app_nil_r. apply Hs.
Qed.

(** The search that guards a creation finds every match of the pair. *)
Lemma search_match_none (imp pay line : nat) (s : db) :
  fst (search_match imp pay line s) = inr []%list ->
  forall m', In m' (matches_of imp s) -> match_key m' <> (line, pay).
Proof.
  unfold search_match, matches_of. simpl. intros H m' Hin Hkey.
  injection H as H.
  apply filter_In in Hin as [Hin Himp].
  assert (Hm : In m' []%list).
  { rewrite <- H. apply filter_In. split; [assumption|].
    unfold match_key in Hkey. injection Hkey as Hl Hp.
    rewrite Himp, Hl, Hp, !Nat.eqb_refl. reflexivity. }
  destruct Hm.
Qed.

(** A creation behind the search keeps the matches without duplicates. *)
Lemma guarded_create_preserves (imp line pay : nat) (k : match_kind)
    (a b : nat) (h : exn -> M nat) :
  (forall e, preserves pairs_unique (h e)) ->
  preserves pairs_unique
    (existing_match <- search_match imp pay line ;;
     match existing_match with
     | [] => try_except (create_match imp line pay k ;; ret a) h
     | _ :: _ => ret b
     end)%list.
Proof.
  intros Hh s Hs. unfold bind at 1.
  pose proof (search_match_none imp pay line s) as Hnone.
  destruct (search_match imp pay line s) as [[e|existing] s1] eqn:E.
  - simpl. unfold search_match in E. now injection E as _ <-.
  - assert (s1 = s) as -> by (unfold search_match in E; now injection E as _ <-).
    destruct existing as [|m0 rest]; [|exact Hs].
    unfold try_except, bind.
    destruct (create_match_cases imp line pay k s) as [[e He]|Hok].
    + rewrite He. now apply Hh.
    + rewrite Hok. simpl. apply pairs_unique_with_match; [assumption|].
      simpl. apply Hnone. reflexivity.
Qed.

Lemma find_matching_payments_preserves (bi : builtins) (self : bank_import)
    (import_line : import_line) :
  preserves pairs_unique (_find_matching_payments bi self import_line).
Proof.
  unfold _find_matching_payments.
  apply preserves_bind.
  - apply preserves_fold_each. intros acc payment.
    destruct (_check_operation_match payment _ || _).
    + apply guarded_create_preserves. intros e. apply preserves_raise.
    + apply preserves_ret.
  - intros matches_created.
    destruct ((matches_created =? 0)%nat && _); [|apply preserves_ret].
    apply preserves_fold_each. intros acc payment.
    destruct (_check_operation_match payment _); [|apply preserves_ret].
    apply guarded_create_preserves. intros e. apply preserves_ret.
Qed.

Lemma action_match_payments_preserves (bi : builtins) (self : bank_import) :
  preserves pairs_unique (action_match_payments bi self).
Proof.
  unfold action_match_payments.
  apply preserves_bind; [apply preserves_line_ids|].
  intros [|l lines]; [apply preserves_raise|].
  apply preserves_bind; [apply unlink_matches_pairs_unique|]. intros _.
  apply preserves_bind; [apply preserves_line_ids|]. intros lines'.
  apply preserves_bind; [|intros; apply preserves_ret].
  apply preserves_fold_each. intros total line.
  apply preserves_try_except; [|intros; apply preserves_raise].
  apply preserves_bind; [apply find_matching_payments_preserves|].
  intros; apply preserves_ret.
Qed.

(** The wizard creates without searching; what keeps its matches apart is
    that it visits every line and, for a line, every payment once. *)

Section WizardPairs.

Variable imp : nat.

Lemma apart_weaken (P P' : nat * nat -> Prop) (s : db) :
  (forall k, P k -> P' k) -> apart imp P s -> apart imp P' s.
Proof. intros HP [Hu Hk]. split; [assumption|]. intros m Hm. apply HP, Hk, Hm. Qed.

Lemma apart_create (P : nat * nat -> Prop) (line pay : nat) (k : match_kind) (s : db) :
  apart imp P s -> ~ P (line, pay) ->
  apart imp (fun key => P key \/ key = (line, pay)) (snd (create_match imp line pay k s)).
Proof.
  intros [Hu Hk] Hfresh.
  destruct (create_match_cases imp line pay k s) as [[e He]|Hok].
  - rewrite He. simpl. split; [assumption|]. intros m Hm. left. now apply Hk.
  - rewrite Hok. simpl. split.
    + apply pairs_unique_with_match; [assumption|]. simpl.
      intros m' Hin Hkey. change (match_key m' = (line, pay)) in Hkey.
      apply Hfresh. rewrite <- Hkey. now apply Hk.
    + intros m. rewrite matches_of_with_match. simpl. rewrite Nat.eqb_refl.
      intros Hin. apply in_app_or in Hin as [Hin|[<-|[]]].
      * left. now apply Hk.
      * right. reflexivity.
Qed.

End WizardPairs.

Lemma find_advanced_matches_apart (w : wizard) (import_line : import_line)
    (pays : list payment) :
  NoDup (map p_id pays) ->
  forall (acc : list payment) (s : db) (P : nat * nat -> Prop),
    apart (rec_id (w_import_id w)) P s ->
    (forall p, In p pays -> ~ P (line_id import_line, p_id p)) ->
    apart (rec_id (w_import_id w))
          (fun key => P key \/ fst key = line_id import_line)
          (snd (fold_each pays acc
                  (fun matched_payments payment =>
                     match_score <- call (_calculate_match_score w import_line payment) ;;
                     if (0 <? match_score)%nat then
                       create_match (rec_id (w_import_id w)) (line_id import_line)
                                    (p_id payment)
                                    (if (100 <=? match_score)%nat then exact else partial) ;;
                       ret (matched_payments ++ [payment])%list
                     else ret matched_payments) s)).
Proof.
  induction pays as [|p pays IH]; intros Hnd acc s P Hs Hfresh; simpl.
  - apply (apart_weaken _ P); [tauto|assumption].
  - inversion Hnd as [|? ? Hp Hnd']; subst.
    unfold bind at 1. unfold bind at 1. unfold call at 1.
    destruct (_calculate_match_score w import_line p) as [e|score].
    + simpl. apply (apart_weaken _ P); [tauto|assumption].
    + destruct (0 <? score)%nat.
      * unfold bind at 1.
        pose proof (apart_create (rec_id (w_import_id w)) P (line_id import_line) (p_id p)
                      (if (100 <=? score)%nat then exact else partial) s Hs
                      (Hfresh p (or_introl eq_refl))) as Hstep.
        destruct (create_match _ _ _ _ s) as [[e|[]] s1]; simpl in Hstep |- *.
        -- eapply apart_weaken; [|exact Hstep].
           intros k [Hk| ->]; [tauto|right; reflexivity].
        -- unfold ret at 1.
           apply (apart_weaken _
                    (fun key => (P key \/ key = (line_id import_line, p_id p))
                                \/ fst key = line_id import_line)).
           { intros k [[Hk| ->]|Hk]; [tauto|right; reflexivity|tauto]. }
           apply IH; [assumption|assumption|].
           intros p' Hp' [HP|Heq].
           ++ apply (Hfresh p' (or_intror Hp') HP).
           ++ injection Heq as Heq. apply Hp. rewrite <- Heq. now apply in_map.
      * unfold ret at 1. apply IH; [assumption|assumption|].
        intros p' Hp'. apply Hfresh. now right.
Qed.

Lemma advanced_lines_apart (w : wizard) (pays : list payment) (lines : list import_line) :
  NoDup (map p_id pays) -> NoDup (map line_id lines) ->
  forall (acc : nat) (s : db) (P : nat * nat -> Prop),
    apart (rec_id (w_import_id w)) P s ->
    (forall l p, In l lines -> ~ P (line_id l, p)) ->
    pairs_unique
      (snd (fold_each lines acc
              (fun matches_found line =>
                 matched_payments <- _find_advanced_matches w line pays ;;
                 ret (matches_found + length matched_payments)) s)).
Proof.
  intros Hpays. induction lines as [|l lines IH]; intros Hnd acc s P Hs Hfresh; simpl.
  - apply Hs.
  - inversion Hnd as [|? ? Hl Hnd']; subst.
    unfold bind at 1. unfold bind at 1. unfold _find_advanced_matches.
    pose proof (find_advanced_matches_apart w l pays Hpays []%list s P Hs
                  (fun p _ => Hfresh l (p_id p) (or_introl eq_refl))) as Hstep.
    destruct (fold_each pays _ _ s) as [[e|matched] s1]; simpl in Hstep |- *.
    + apply Hstep.
    + unfold ret at 1. apply (IH Hnd' _ s1 _ Hstep).
      intros l' p Hl' [HP|Heq].
      * apply (Hfresh l' p (or_intror Hl') HP).
      * simpl in Heq. apply Hl. rewrite <- Heq. now apply in_map.
Qed.

Lemma action_advanced_match_pairs_unique (bi : builtins) (w : wizard) (s : db) :
  pairs_unique s ->
  NoDup (map line_id (db_lines s)) ->
  NoDup (map p_id (payments bi)) ->
  pairs_unique (snd (action_advanced_match bi w s)).
Proof.
  intros Hs Hlines Hpays. unfold action_advanced_match.
  unfold bind at 1.
  pose proof (unlink_matches_pairs_unique (rec_id (w_import_id w)) s Hs) as Hs0.
  pose proof (unlink_matches_none (rec_id (w_import_id w)) s) as Hnone.
  assert (Hl0 : db_lines (snd (unlink_matches (rec_id (w_import_id w)) s)) = db_lines s)
    by reflexivity.
  destruct (unlink_matches (rec_id (w_import_id w)) s) as [[e|[]] s0];
    simpl in Hs0, Hnone, Hl0 |- *; [assumption|].
  unfold bind at 1. unfold line_ids at 1. unfold bind at 1.
  assert (Hloop :
    pairs_unique
      (snd (fold_each (lines_of (rec_id (w_import_id w)) s0) 0
              (fun matches_found line =>
                 matched_payments <- _find_advanced_matches w line (wizard_payments bi w) ;;
                 ret (matches_found + length matched_payments)) s0))).
  { apply (advanced_lines_apart w (wizard_payments bi w) _) with (P := fun _ => False).
    - unfold wizard_payments. now apply distinct_keys_filter.
    - unfold lines_of. rewrite Hl0. now apply distinct_keys_filter.
    - split; [assumption|]. intros m Hm. rewrite Hnone in Hm. destruct Hm.
    - intros l p _ []. }
  destruct (fold_each _ 0 _ s0) as [[e|found] s1]; simpl in Hloop |- *; [assumption|].
  destruct (0 <? found)%nat; exact Hloop.
Qed.

(** Both match runs keep the matches without duplicates. *)
Lemma match_runs_keep_pairs_unique (bi : builtins) (s : db) :
  pairs_unique s ->
  NoDup (map line_id (db_lines s)) ->
  NoDup (map p_id (payments bi)) ->
  (forall self : bank_import, pairs_unique (snd (action_match_payments bi self s)))
  /\ (forall w : wizard, pairs_unique (snd (action_advanced_match bi w s))).
Proof.
  intros Hs Hlines Hpays. split.
  - intros self. now apply action_match_payments_preserves.
  - intros w. now apply action_advanced_match_pairs_unique.
Qed.

(** The match runs do not touch the lines. *)

Lemma create_match_same_lines (lines : list import_line) (next : nat)
    (imp line pay : nat) (k : match_kind) :
  preserves (same_lines lines next) (create_match imp line pay k).
Proof.
  intros s Hs. destruct (create_match_cases imp line pay k s) as [[e He]|Hok].
  - now rewrite He.
  - now rewrite Hok.
Qed.

Lemma unlink_matches_same_lines (lines : list import_line) (next : nat) (imp : nat) :
  preserves (same_lines lines next) (unlink_matches imp).
Proof. intros s Hs. exact Hs. Qed.

Lemma search_match_preserves (I : db -> Prop) (imp pay line : nat) :
  preserves I (search_match imp pay line).
Proof. intros s Hs. exact Hs. Qed.

(** One step of the proof that a method keeps a property: by the shape
    of the method. *)
Ltac preserves_step :=
  lazymatch goal with
  | |- preserves _ (ret _) => apply preserves_ret
  | |- preserves _ (raise _) => apply preserves_raise
  | |- preserves _ (call _) => apply preserves_call
  | |- preserves _ (line_ids _) => apply preserves_line_ids
  | |- preserves _ (search_match _ _ _) => apply search_match_preserves
  | |- preserves _ (create_match _ _ _ _) => apply create_match_same_lines
  | |- preserves _ (unlink_matches _) => apply unlink_matches_same_lines
  | |- preserves _ (bind _ _) => apply preserves_bind; [|intros ?]
  | |- preserves _ (try_except _ _) => apply preserves_try_except; [|intros ?]
  | |- preserves _ (fold_each _ _ _) => apply preserves_fold_each; intros ? ?
  | |- preserves _ (match ?x with _ => _ end) => destruct x
  | |- preserves _ (let _ := _ in _) => cbv zeta
  end.

Lemma action_match_payments_same_lines (bi : builtins) (self : bank_import)
    (lines : list import_line) (next : nat) :
  preserves (same_lines lines next) (action_match_payments bi self).
Proof.
  unfold action_match_payments, _find_matching_payments. repeat preserves_step.
Qed.

Lemma action_advanced_match_same_lines (bi : builtins) (w : wizard)
    (lines : list import_line) (next : nat) :
  preserves (same_lines lines next) (action_advanced_match bi w).
Proof.
  unfold action_advanced_match, _find_advanced_matches. repeat preserves_step.
Qed.

(** ** The match engine: an import without lines *)

(** C10. [match()] on an import that has no transaction line raises a
    user error and changes nothing: the matches of the store are those
    from before the call, and the import (its state) is not written; the
    clearing of matches comes after the test. *)
Theorem match_without_lines (bi : builtins) (self : bank_import) (s : db) :
  lines_of (rec_id self) s = []%list ->
  action_match_payments bi self s = (inl (UserError must_process_msg), s).
Proof.
  intros Hnone. unfold action_match_payments, bind, line_ids. now rewrite Hnone.
Qed.

Lemma match_without_lines_witness :
  action_match_payments Sample.bank_host Sample.unprocessed_import Sample.unprocessed_db
  = (inl (UserError "Debe procesar el archivo primero."), Sample.unprocessed_db)
  /\ matches_of 6 Sample.unprocessed_db = [mk_match 1 6 1 8 exact]%list.
Proof.
  split.
  - exact (match_without_lines Sample.bank_host Sample.unprocessed_import
             Sample.unprocessed_db eq_refl).
  - reflexivity.
Defined.

(** ** The match engine: the tag of a match found by amount *)

(** Without an operation number the operation test answers true. *)
Lemma check_operation_match_empty (payment : payment) :
  _check_operation_match payment EmptyString = true.
Proof. reflexivity. Qed.

(** So a match created from the pool of payments of the same amount is
    never tagged partial: the tag is [exact] whenever the creation is
    reached. *)
Lemma amount_pool_tag (payment : payment) (operation_number : string) :
  _check_operation_match payment operation_number
  || negb (Py.truthy operation_number) = true ->
  (if _check_operation_match payment operation_number then exact else partial) = exact.
Proof.
  destruct operation_number as [|c r]; [reflexivity|].
  cbn [Py.truthy negb]. rewrite orb_false_r. now intros ->.
Qed.

(** C1 fails for a transaction without operation number. The first line
    of the sample import has none and the amount 100.0; payment 8 is
    posted with that amount. The match engine links them, on the amount
    alone, and tags the match [exact]; the advanced match tags the same
    link [partial]. *)
Theorem match_by_amount_alone_tagged_exact :
  operation_number (vals Sample.line_without_number) = EmptyString
  /\ map p_id (amount_matches Sample.bank_host (amount (vals Sample.line_without_number)))
     = [8]%list
  /\ _find_matching_payments Sample.bank_host Sample.matching_import
       Sample.line_without_number (mk_db (db_lines Sample.matching_db) [] 3 1)
     = (inr 1, mk_db (db_lines Sample.matching_db) [mk_match 1 5 1 8 exact] 3 2)
  /\ _find_advanced_matches Sample.matching_wizard Sample.line_without_number
       (wizard_payments Sample.bank_host Sample.matching_wizard)
       (mk_db (db_lines Sample.matching_db) [] 3 1)
     = (inr [Sample.pay 8 "posted" (Float.of_Z 100) "PBNK1/2024/00008" EmptyString]%list,
        mk_db (db_lines Sample.matching_db) [mk_match 1 5 1 8 partial] 3 2).
Proof. repeat split; vm_compute; reflexivity. Qed.

(** ** Parsers only create lines *)

Lemma number_from_app (i : nat) (a b : list line_vals) :
  number_from i (a ++ b)%list = (number_from i a ++ number_from (i + length a) b)%list.
Proof.
  revert i. induction a as [|v a IH]; intros i; simpl.
  - now rewrite Nat.add_0_r.
  - rewrite IH. now rewrite Nat.add_succ_comm.
Qed.

Lemma map_vals_number_from (i : nat) (vs : list line_vals) :
  map vals (number_from i vs) = vs.
Proof. revert i. induction vs as [|v vs IH]; intros i; simpl; [reflexivity|]. now rewrite IH. Qed.

Lemma add_lines_nil (s : db) : add_lines []%list s = s.
Proof. destruct s. unfold add_lines. simpl. now rewrite app_nil_r, Nat.add_0_r. Qed.

Lemma add_lines_app (a b : list line_vals) (s : db) :
  add_lines (a ++ b)%list s = add_lines b (add_lines a s).
Proof.
  unfold add_lines. simpl.
  now rewrite number_from_app, app_assoc, length_app, Nat.add_assoc.
Qed.

Section Creates.

Variable imp : nat.

Lemma creates_ret {A : Type} (a : A) : creates imp (ret a).
Proof.
  exists (inr a), []%list. split; [constructor|]. intros s. now rewrite add_lines_nil.
Qed.

Lemma creates_raise {A : Type} (e : exn) : creates imp (@raise A e).
Proof.
  exists (inl e), []%list. split; [constructor|]. intros s. now rewrite add_lines_nil.
Qed.

Lemma creates_call {A : Type} (r : exn + A) : creates imp (call r).
Proof.
  exists r, []%list. split; [constructor|]. intros s. now rewrite add_lines_nil.
Qed.

Lemma creates_create_line (v : line_vals) :
  import_id v = imp -> creates imp (create_line v).
Proof.
  intros Hv. exists (inr tt), [v]%list. split; [now constructor|].
  intros s. unfold create_line, add_lines. simpl. now rewrite Nat.add_1_r.
Qed.

Lemma creates_bind {A B : Type} (m : M A) (f : A -> M B) :
  creates imp m -> (forall a, creates imp (f a)) -> creates imp (bind m f).
Proof.
  intros [r [vs [Hvs Hm]]] Hf. destruct r as [e|a].
  - exists (inl e), vs. split; [assumption|]. intros s. unfold bind. now rewrite Hm.
  - destruct (Hf a) as [r' [vs' [Hvs' Hfa]]].
    exists r', (vs ++ vs')%list. split; [now apply Forall_app|].
    intros s. unfold bind. now rewrite Hm, Hfa, add_lines_app.
Qed.

Lemma creates_try_except {A : Type} (m : M A) (h : exn -> M A) :
  creates imp m -> (forall e, creates imp (h e)) -> creates imp (try_except m h).
Proof.
  intros [r [vs [Hvs Hm]]] Hh. destruct r as [e|a].
  - destruct (Hh e) as [r' [vs' [Hvs' Hhe]]].
    exists r', (vs ++ vs')%list. split; [now apply Forall_app|].
    intros s. unfold try_except. now rewrite Hm, Hhe, add_lines_app.
  - exists (inr a), vs. split; [assumption|]. intros s. unfold try_except. now rewrite Hm.
Qed.

Lemma creates_fold_each {A B : Type} (l : list A) (body : B -> A -> M B) :
  (forall acc x, creates imp (body acc x)) ->
  forall acc, creates imp (fold_each l acc body).
Proof.
  intros Hbody. induction l as [|x l IH]; intros acc; simpl.
  - apply creates_ret.
  - apply creates_bind; [apply Hbody|]. intros acc'. apply IH.
Qed.

Lemma creates_for_each {A : Type} (l : list A) (body : A -> M unit) :
  (forall x, creates imp (body x)) -> creates imp (for_each l body).
Proof.
  intros Hbody. induction l as [|x l IH]; simpl.
  - apply creates_ret.
  - apply creates_bind; [apply Hbody|]. intros _. apply IH.
Qed.

End Creates.

(** One step of the proof that a method only creates lines: by the shape
    of the method. *)
Ltac creates_step :=
  lazymatch goal with
  | |- creates _ (ret _) => apply creates_ret
  | |- creates _ (raise _) => apply creates_raise
  | |- creates _ (call _) => apply creates_call
  | |- creates _ (create_line _) => apply creates_create_line; reflexivity
  | |- creates _ (bind _ _) => apply creates_bind; [|intros ?]
  | |- creates _ (try_except _ _) => apply creates_try_except; [|intros ?]
  | |- creates _ (fold_each _ _ _) => apply creates_fold_each; intros ? ?
  | |- creates _ (for_each _ _) => apply creates_for_each; intros ?
  | |- creates _ (match ?x with _ => _ end) => destruct x
  | |- creates _ (let _ := _ in _) => cbv zeta
  end.

Ltac creates_auto := repeat (creates_step || solve [auto]).

Section ParsersCreate.

Variable bi : builtins.
Variable self : bank_import.

Lemma parse_txt_transaction_creates (line : string) :
  creates (rec_id self) (_parse_txt_transaction bi self line).
Proof. unfold _parse_txt_transaction. creates_auto. Qed.

Lemma process_txt_file_creates : creates (rec_id self) (_process_txt_file bi self).
Proof.
  unfold _process_txt_file. pose proof parse_txt_transaction_creates. creates_auto.
Qed.

Lemma create_excel_import_line_creates (row : list value) (mapping : col_mapping)
    (parser_type : parser) :
  creates (rec_id self) (_create_excel_import_line bi self row mapping parser_type).
Proof.
  unfold _create_excel_import_line.
  apply creates_try_except; [|intros; apply creates_raise].
  unfold excel_line_vals.
  destruct (_ || _ || _); [apply creates_create_line; reflexivity|apply creates_ret].
Qed.

Lemma excel_rows_loop_creates (parser_type : parser) (rows : list (list value))
    (mapping : col_mapping) :
  creates (rec_id self) (excel_rows_loop bi self parser_type rows mapping).
Proof.
  unfold excel_rows_loop. pose proof create_excel_import_line_creates. creates_auto.
Qed.

Lemma continental_row_creates (mapping : continental_mapping) (row : list value) :
  creates (rec_id self) (continental_row bi self mapping row).
Proof. unfold continental_row. creates_auto. Qed.

Lemma parse_continental_creates (sheet : xlsx_sheet) :
  creates (rec_id self) (_parse_continental_excel_openpyxl bi self sheet).
Proof.
  unfold _parse_continental_excel_openpyxl.
  pose proof continental_row_creates. creates_auto.
Qed.

Lemma parse_excel_openpyxl_creates (sheet : xlsx_sheet) :
  creates (rec_id self) (_parse_excel_openpyxl bi self sheet).
Proof.
  unfold _parse_excel_openpyxl.
  pose proof parse_continental_creates. pose proof excel_rows_loop_creates.
  creates_auto.
Qed.

Lemma parse_excel_xlrd_creates (sheet : xls_sheet) :
  creates (rec_id self) (_parse_excel_xlrd bi self sheet).
Proof.
  unfold _parse_excel_xlrd. pose proof excel_rows_loop_creates. creates_auto.
Qed.

Lemma process_excel_file_creates : creates (rec_id self) (_process_excel_file bi self).
Proof.
  unfold _process_excel_file, attempt_openpyxl, attempt_xlrd.
  pose proof parse_excel_openpyxl_creates. pose proof parse_excel_xlrd_creates.
  creates_auto.
Qed.

Lemma parse_file_creates : creates (rec_id self) (parse_file bi self).
Proof.
  unfold parse_file.
  destruct (file_type self); [apply process_txt_file_creates|apply process_excel_file_creates].
Qed.

End ParsersCreate.

(** ** [process()]: the lines of the import after a run *)

Lemma lines_of_unlink_lines (imp : nat) (s : db) :
  lines_of imp (snd (unlink_lines imp s)) = []%list.
Proof.
  unfold unlink_lines, lines_of. simpl.
  induction (db_lines s) as [|l ls IH]; simpl; [reflexivity|].
  destruct (import_id (vals l) =? imp)%nat eqn:E; simpl; [assumption|].
  now rewrite E.
Qed.

Lemma lines_of_number_from (imp i : nat) (vs : list line_vals) :
  Forall (fun v => import_id v = imp) vs ->
  filter (fun l => (import_id (vals l) =? imp)%nat) (number_from i vs) = number_from i vs.
Proof.
  intros H. revert i. induction H as [|v vs Hv _ IH]; intros i; simpl; [reflexivity|].
  now rewrite Hv, Nat.eqb_refl, IH.
Qed.

Lemma lines_of_add_lines (imp : nat) (vs : list line_vals) (s : db) :
  Forall (fun v => import_id v = imp) vs ->
  lines_of imp (add_lines vs s) = (lines_of imp s ++ number_from (next_line_id s) vs)%list.
Proof.
  intros H. unfold lines_of, add_lines. simpl.
  now rewrite filter_app, lines_of_number_from.
Qed.

(** A run on a loaded file: the lines of the import are cleared, the
    parser creates its lines on the cleared store, and they are then all
    the lines of the import. *)
Lemma action_process_file_run (bi : builtins) (self : bank_import)
    (r : exn + unit) (vs : list line_vals) (s : db) :
  has_file self = true ->
  Forall (fun v => import_id v = rec_id self) vs ->
  (forall s0, parse_file bi self s0 = (r, add_lines vs s0)) ->
  action_process_file bi self s
  = (process_outcome bi self r (length vs),
     add_lines vs (snd (unlink_lines (rec_id self) s)))
  /\ map vals (lines_of (rec_id self) (add_lines vs (snd (unlink_lines (rec_id self) s))))
     = vs.
Proof.
  intros Hfile Hvs Hparse.
  assert (Hlines : forall s0, lines_of (rec_id self) s0 = []%list ->
            lines_of (rec_id self) (add_lines vs s0) = number_from (next_line_id s0) vs).
  { intros s0 H0. now rewrite lines_of_add_lines, H0. }
  pose proof (lines_of_unlink_lines (rec_id self) s) as Hcleared.
  split.
  - unfold action_process_file. rewrite Hfile. cbn [negb].
    unfold bind at 1. unfold unlink_lines at 1. cbn [snd].
    unfold try_except. unfold bind at 1.
    change (match file_type self with
            | txt => _process_txt_file bi self
            | excel => _process_excel_file bi self
            end) with (parse_file bi self).
    rewrite Hparse. destruct r as [e|[]]; [reflexivity|].
    unfold bind, line_ids.
    change (mk_db _ _ (next_line_id s) (next_match_id s))
      with (snd (unlink_lines (rec_id self) s)).
    rewrite (Hlines _ Hcleared).
    assert (Hlen : forall i, length (number_from i vs) = length vs).
    { intros i. rewrite <- (map_vals_number_from i vs) at 2. now rewrite length_map. }
    rewrite Hlen. unfold process_outcome.
    destruct (length vs =? 0)%nat; reflexivity.
  - rewrite (Hlines _ Hcleared). apply map_vals_number_from.
Qed.

(** The parser reads the file, its name, the bank and the id of the
    import, nothing else of it. *)
Lemma parse_file_same_file (bi : builtins) (self self' : bank_import) (s : db) :
  rec_id self' = rec_id self -> file_data self' = file_data self ->
  file_name self' = file_name self -> bank_type self' = bank_type self ->
  parse_file bi self' s = parse_file bi self s.
Proof.
  destruct self, self'. simpl. intros -> -> -> ->. reflexivity.
Qed.

(** ** [process()] twice *)

(** C4. [process()] run a second time, on the import and the store the
    first run left, with the same file and on the same host and clock,
    leaves the import with the same transactions (record ids apart) and
    returns what the first run returned: the lines of the import are
    replaced, not added to. *)
Theorem process_twice (bi : builtins) (self : bank_import) (s : db) :
  let run1 := action_process_file bi self s in
  let self1 := match fst run1 with inr (self', _) => self' | inl _ => self end in
  let run2 := action_process_file bi self1 (snd run1) in
  map vals (lines_of (rec_id self) (snd run2)) = map vals (lines_of (rec_id self) (snd run1))
  /\ fst run2 = fst run1.
Proof.
  destruct (has_file self) eqn:Hfile.
  - destruct (parse_file_creates bi self) as [r [vs [Hvs Hparse]]].
    destruct (action_process_file_run bi self r vs s Hfile Hvs Hparse) as [Hrun1 Hlines1].
    cbv zeta. rewrite Hrun1. cbn [fst snd].
    set (s1 := add_lines vs (snd (unlink_lines (rec_id self) s))) in *.
    set (self1 := match process_outcome bi self r (length vs) with
                  | inr (self', _) => self'
                  | inl _ => self
                  end).
    assert (Hsame : rec_id self1 = rec_id self /\ file_data self1 = file_data self
                    /\ file_name self1 = file_name self /\ bank_type self1 = bank_type self).
    { unfold self1, process_outcome. destruct r as [e|[]]; [tauto|].
      destruct (length vs =? 0)%nat; simpl; tauto. }
    destruct Hsame as [Hid [Hdata [Hname Hbank]]].
    assert (Hfile1 : has_file self1 = true) by (unfold has_file; now rewrite Hdata).
    assert (Hvs1 : Forall (fun v => import_id v = rec_id self1) vs) by now rewrite Hid.
    assert (Hparse1 : forall s0, parse_file bi self1 s0 = (r, add_lines vs s0)).
    { intros s0. now rewrite (parse_file_same_file bi self self1 s0 Hid Hdata Hname Hbank). }
    destruct (action_process_file_run bi self1 r vs s1 Hfile1 Hvs1 Hparse1)
      as [Hrun2 Hlines2].
    rewrite Hrun2. cbn [fst snd]. rewrite Hid in *. rewrite Hlines2, Hlines1.
    split; [reflexivity|].
    unfold process_outcome. rewrite Hid, Hdata, Hname, Hbank. reflexivity.
  - assert (Hno : forall s0, action_process_file bi self s0
                              = (inl (UserError no_file_msg), s0)).
    { intros s0. unfold action_process_file. now rewrite Hfile. }
    cbv zeta. rewrite Hno. cbn [fst snd]. rewrite Hno. split; reflexivity.
Qed.

(** ** [process()]: failures on what the user supplied *)

(** C3 (as the code has it). When [process()] fails because no file is
    loaded, the store is left as it was. When it fails because the
    content cannot be decoded or because the host has no spreadsheet
    reader, the error is a user error and the import is not written (its
    state is not advanced), but its transactions are already cleared: the
    import has none afterwards. *)
Theorem process_user_input_failure (bi : builtins) (self : bank_import) (s : db) :
  user_input_failure bi self = true ->
  exists msg : string,
    action_process_file bi self s
    = (inl (UserError msg),
       if has_file self then snd (unlink_lines (rec_id self) s) else s)
    /\ lines_of (rec_id self) (snd (action_process_file bi self s))
       = if has_file self then []%list else lines_of (rec_id self) s.
Proof.
  intros Hfail.
  assert (Hrun : exists msg : string,
            action_process_file bi self s
            = (inl (UserError msg),
               if has_file self then snd (unlink_lines (rec_id self) s) else s)).
  { unfold user_input_failure in Hfail. unfold action_process_file.
    destruct (has_file self) eqn:Hfile; cbn [negb orb] in Hfail |- *;
      [|eexists; reflexivity].
    unfold bind at 1. unfold unlink_lines at 1. cbn [snd].
    unfold try_except at 1. unfold bind at 1.
    unfold undecodable, no_backend in Hfail. unfold has_file in Hfile.
    destruct (file_data self) as [data|] eqn:Hdata; [|discriminate].
    destruct (file_type self) eqn:Htype.
    - (* text *)
      unfold _process_txt_file, try_except, bind, call. rewrite Hdata.
      destruct (b64decode bi data) as [e|content]; [eexists; reflexivity|].
      rewrite orb_false_r in Hfail.
      destruct (decode_utf8 bi content) as [e|text]; [eexists; reflexivity|discriminate].
    - (* spreadsheet *)
      unfold _process_excel_file, try_except, bind, call. rewrite Hdata.
      destruct (b64decode bi data) as [e|content].
      + destruct e; eexists; reflexivity.
      + cbn [orb] in Hfail.
        destruct (openpyxl bi); [discriminate|]. destruct (xlrd bi); [discriminate|].
        eexists; reflexivity. }
  destruct Hrun as [msg Hrun]. exists msg. split; [exact Hrun|].
  rewrite Hrun. cbn [snd].
  destruct (has_file self); [apply lines_of_unlink_lines|reflexivity].
Qed.

(** The export is processed, then a file that is not UTF-8 is loaded in
    its place: the run fails and the two transactions are gone; so they
    are when the file is renamed to a spreadsheet, on this host without
    spreadsheet reader. With no file loaded the store is left as it
    was. *)
Lemma process_user_input_failure_witness :
  (exists msg : string,
      action_process_file Sample.host Sample.reloaded_import Sample.processed_db
      = (inl (UserError msg), mk_db [] [] 3 1)
      /\ lines_of 1 (snd (action_process_file Sample.host Sample.reloaded_import
                            Sample.processed_db))
         = []%list)
  /\ (exists msg : string,
         action_process_file Sample.host Sample.reloaded_excel_import Sample.processed_db
         = (inl (UserError msg), mk_db [] [] 3 1)
         /\ lines_of 1 (snd (action_process_file Sample.host Sample.reloaded_excel_import
                               Sample.processed_db))
            = []%list)
  /\ (exists msg : string,
         action_process_file Sample.host Sample.no_file_import Sample.processed_db
         = (inl (UserError msg), Sample.processed_db)
         /\ lines_of 1 (snd (action_process_file Sample.host Sample.no_file_import
                               Sample.processed_db))
            = lines_of 1 Sample.processed_db).
Proof.
  split; [|split].
  - exact (process_user_input_failure Sample.host Sample.reloaded_import
             Sample.processed_db eq_refl).
  - exact (process_user_input_failure Sample.host Sample.reloaded_excel_import
             Sample.processed_db eq_refl).
  - exact (process_user_input_failure Sample.host Sample.no_file_import
             Sample.processed_db eq_refl).
Defined.

(** C3, as stated, fails. An import is processed (two transactions,
    state [processed]); a file that is not UTF-8 is then loaded and
    [process()] fails with a user error: the import has no transaction
    left. The same on a host without spreadsheet reader when the file is
    renamed to a spreadsheet. *)
Lemma process_failure_counterexample :
  state Sample.processed_import = processed
  /\ map (fun l => operation_number (vals l)) (lines_of 1 Sample.processed_db)
     = ["456789"; "4521"]%list
  /\ Ref.b64decode Sample.bad_file = inr [Byte.xff; Byte.xfe]%list
  /\ (exists detail : string,
        action_process_file Sample.host Sample.reloaded_import Sample.processed_db
        = (inl (UserError ("Error al procesar el archivo TXT: " ++ detail)),
           mk_db [] [] 3 1))
  /\ action_process_file Sample.host Sample.reloaded_excel_import Sample.processed_db
     = (inl (UserError "No se encontraron librerías para procesar archivos Excel."),
        mk_db [] [] 3 1)
  /\ lines_of 1 (mk_db [] [] 3 1) <> lines_of 1 Sample.processed_db.
Proof.
  repeat split; try (vm_compute; reflexivity).
  - eexists. vm_compute. reflexivity.
  - vm_compute. discriminate.
Qed.

(** ** The stores the module produces *)

Lemma line_ids_number_from (i : nat) (vs : list line_vals) :
  map line_id (number_from i vs) = seq i (length vs).
Proof. revert i. induction vs as [|v vs IH]; intros i; simpl; [reflexivity|]. now rewrite IH. Qed.

Lemma unlink_lines_store_ok (imp : nat) (s : db) :
  store_ok s -> store_ok (snd (unlink_lines imp s)).
Proof.
  intros [Hpairs [Hids Hfresh]]. unfold unlink_lines. simpl. repeat split.
  - intros imp'. unfold matches_of. simpl. rewrite filter_comm.
    apply distinct_keys_filter. apply Hpairs.
  - simpl. now apply distinct_keys_filter.
  - intros l Hl. simpl in Hl |- *. apply filter_In in Hl as [Hl _]. now apply Hfresh.
Qed.

Lemma add_lines_store_ok (vs : list line_vals) (s : db) :
  store_ok s -> store_ok (add_lines vs s).
Proof.
  intros [Hpairs [Hids Hfresh]]. unfold add_lines. repeat split.
  - exact Hpairs.
  - simpl. rewrite map_app, line_ids_number_from.
    apply NoDup_app; [assumption|apply seq_NoDup|].
    intros i Hi Hseq. apply in_seq in Hseq.
    apply in_map_iff in Hi as [l [<- Hl]]. apply Hfresh in Hl. lia.
  - intros l Hl. simpl in Hl |- *. apply in_app_or in Hl as [Hl|Hl].
    + apply Hfresh in Hl. lia.
    + apply (in_map line_id) in Hl. rewrite line_ids_number_from in Hl.
      apply in_seq in Hl. lia.
Qed.

Lemma action_process_file_store_ok (bi : builtins) (self : bank_import) (s : db) :
  store_ok s -> store_ok (snd (action_process_file bi self s)).
Proof.
  intros Hs. destruct (has_file self) eqn:Hfile.
  - destruct (parse_file_creates bi self) as [r [vs [Hvs Hparse]]].
    destruct (action_process_file_run bi self r vs s Hfile Hvs Hparse) as [-> _].
    simpl. now apply add_lines_store_ok, unlink_lines_store_ok.
  - unfold action_process_file. now rewrite Hfile.
Qed.

Lemma match_run_store_ok {A : Type} (m : M A) (s : db) :
  (forall lines next, preserves (same_lines lines next) m) ->
  store_ok s -> pairs_unique (snd (m s)) -> store_ok (snd (m s)).
Proof.
  intros Hsame [_ [Hids Hfresh]] Hpairs.
  destruct (Hsame (db_lines s) (next_line_id s) s (conj eq_refl eq_refl)) as [Hl Hn].
  split; [assumption|]. unfold lines_fresh. rewrite Hl, Hn. now split.
Qed.

Lemma reachable_store_ok (s : db) : reachable s -> store_ok s.
Proof.
  induction 1 as [|bi self s _ IH|bi self s _ IH|bi w s Hpays _ IH].
  - repeat split; simpl; [intros imp; constructor|constructor|intros l []].
  - now apply action_process_file_store_ok.
  - apply match_run_store_ok; [|assumption|].
    + intros lines next. apply action_match_payments_same_lines.
    + apply action_match_payments_preserves, IH.
  - apply match_run_store_ok; [|assumption|].
    + intros lines next. apply action_advanced_match_same_lines.
    + destruct IH as [Hpairs [Hids _]].
      now apply action_advanced_match_pairs_unique.
Qed.

(** C2. In every store the module produces, and so after any run of the
    default match engine or of the advanced match, no two matches of an
    import link the same transaction line and payment. *)
Theorem no_duplicate_matches (s : db) : reachable s -> pairs_unique s.
Proof. intros H. now apply reachable_store_ok. Qed.

(** The sample export, processed and matched by the engine, then by the
    wizard: the second line is linked to payment 9, once. *)
Lemma no_duplicate_matches_witness :
  pairs_unique Sample.matched_db
  /\ map match_key (matches_of 1 Sample.matched_db) = [(2, 9)]%list.
Proof.
  split; [|reflexivity].
  apply no_duplicate_matches. unfold Sample.matched_db.
  apply reachable_advanced.
  - simpl. repeat constructor; simpl; lia.
  - apply reachable_match, reachable_process, reachable_empty.
Defined.

(** * Further properties *)

(** ** The file type *)

Lemma lower_upper_char (c : ascii) : Py.lower_char (Py.upper_char c) = Py.lower_char c.
Proof. destruct c as [[] [] [] [] [] [] [] []]; reflexivity. Qed.

Lemma lower_upper (s : string) : Py.lower (Py.upper s) = Py.lower s.
Proof.
  induction s as [|c s IH]; [reflexivity|].
  unfold Py.lower, Py.upper in *. simpl. now rewrite lower_upper_char, IH.
Qed.

Lemma truthy_upper (s : string) : Py.truthy (Py.upper s) = Py.truthy s.
Proof. destruct s; reflexivity. Qed.

Lemma lower_app (a b : string) : Py.lower (a ++ b) = Py.lower a ++ Py.lower b.
Proof.
  induction a as [|c a IH]; [reflexivity|].
  unfold Py.lower in *. simpl. now rewrite IH.
Qed.

Lemma endswith_app (p a b : string) :
  Py.endswith p (a ++ b) = Py.startswith (Py.rev p) (Py.rev b ++ Py.rev a).
Proof. unfold Py.endswith. now rewrite rev_app. Qed.

(** The type of a file is read off the end of its name, whatever the
    case of the letters: a name in upper case has the type of the name
    as given, and a name that ends in .xls or .xlsx is a spreadsheet. *)
Theorem file_type_of_name (file_name ext : string) :
  _compute_file_type (Py.upper file_name) = _compute_file_type file_name
  /\ (Py.lower ext = ".xls" \/ Py.lower ext = ".xlsx" ->
      _compute_file_type (file_name ++ ext) = excel)
  /\ (Py.lower ext = ".txt" -> _compute_file_type (file_name ++ ext) = txt).
Proof.
  split; [|split].
  - unfold _compute_file_type. now rewrite truthy_upper, lower_upper.
  - intros Hext. unfold _compute_file_type.
    assert (Ht : Py.truthy (file_name ++ ext) = true).
    { apply truthy_app_r. destruct ext; [destruct Hext; discriminate|reflexivity]. }
    rewrite Ht, lower_app, !endswith_app.
    destruct Hext as [-> | ->]; reflexivity.
  - intros Hext. unfold _compute_file_type.
    assert (Ht : Py.truthy (file_name ++ ext) = true).
    { apply truthy_app_r. destruct ext; [discriminate|reflexivity]. }
    rewrite Ht, lower_app, !endswith_app, Hext. reflexivity.
Qed.

Lemma file_type_of_name_witness :
  _compute_file_type "ESTADO.XLSX" = _compute_file_type "Estado.xlsx"
  /\ _compute_file_type "Estado.Xls" = excel
  /\ _compute_file_type "Estado.TXT" = txt.
Proof.
  split; [|split].
  - exact (proj1 (file_type_of_name "Estado.xlsx" EmptyString)).
  - exact (proj1 (proj2 (file_type_of_name "Estado" ".Xls")) (or_introl eq_refl)).
  - exact (proj2 (proj2 (file_type_of_name "Estado" ".TXT")) eq_refl).
Defined.

(** ** The text parser: errors on a line and on the file *)

Lemma parse_txt_transaction_cases
    (bi : builtins) (self : bank_import) (line : string) (s : db) :
  _parse_txt_transaction bi self line s = (inr tt, s)
  \/ exists v : line_vals,
       _parse_txt_transaction bi self line s = (inr tt, add_lines [v]%list s)
       /\ import_id v = rec_id self /\ original_line v = line
       /\ strptime bi (nth 0 (txt_fields line) EmptyString) "%d/%m/%Y"
          = Some (transaction_date v).
Proof.
  unfold _parse_txt_transaction, try_except.
  destruct (6 <=? length (txt_fields line))%nat; [|now left].
  destruct (strptime bi _ _) as [d|] eqn:Hd; [|now left].
  right. eexists. unfold create_line, add_lines. simpl.
  rewrite Nat.add_1_r. repeat split.
Qed.

(** A line never makes the text parser fail: it creates its transaction
    (of the import, and keeping the line's text), or nothing. *)
Theorem parse_txt_transaction_never_raises
    (bi : builtins) (self : bank_import) (line : string) (s : db) :
  _parse_txt_transaction bi self line s = (inr tt, s)
  \/ exists v : line_vals,
       _parse_txt_transaction bi self line s = (inr tt, add_lines [v]%list s)
       /\ import_id v = rec_id self /\ original_line v = line
       /\ strptime bi (nth 0 (txt_fields line) EmptyString) "%d/%m/%Y"
          = Some (transaction_date v).
Proof. apply parse_txt_transaction_cases. Qed.

Lemma for_each_parse_txt (bi : builtins) (self : bank_import) (lines : list string) (s : db) :
  exists vs : list line_vals,
    for_each lines (_parse_txt_transaction bi self) s = (inr tt, add_lines vs s)
    /\ length vs <= length lines
    /\ Forall (fun v => import_id v = rec_id self /\ In (original_line v) lines) vs.
Proof.
  revert s. induction lines as [|line lines IH]; intros s; simpl.
  - exists []%list. rewrite add_lines_nil. split; [reflexivity|]. split; [simpl; lia|constructor].
  - unfold bind.
    destruct (parse_txt_transaction_cases bi self line s)
      as [->|[v [-> [Hid [Hline _]]]]].
    + destruct (IH s) as [vs [-> [Hlen Hall]]]. exists vs.
      split; [reflexivity|]. split; [simpl; lia|].
      eapply Forall_impl; [|exact Hall]. simpl. tauto.
    + destruct (IH (add_lines [v]%list s)) as [vs [-> [Hlen Hall]]].
      exists (v :: vs)%list. change (v :: vs)%list with ([v] ++ vs)%list.
      rewrite add_lines_app. split; [reflexivity|]. split; [simpl; lia|].
      constructor; [split; [exact Hid|left; now rewrite Hline]|].
      eapply Forall_impl; [|exact Hall]. simpl. tauto.
Qed.

Lemma process_txt_file_cases (bi : builtins) (self : bank_import) (s : db) :
  match decoded_text bi self with
  | inl e =>
      _process_txt_file bi self s
      = (inl (UserError ("Error al procesar el archivo TXT: " ++ str_exn e)), s)
  | inr text =>
      exists vs : list line_vals,
        _process_txt_file bi self s = (inr tt, add_lines vs s)
        /\ length vs <= length (transaction_lines bi text)
        /\ Forall (fun v => import_id v = rec_id self
                            /\ In (original_line v) (transaction_lines bi text)) vs
  end.
Proof.
  unfold decoded_text, _process_txt_file, try_except, bind, call.
  destruct (file_data self) as [data|]; [|reflexivity].
  destruct (b64decode bi data) as [e|content]; [reflexivity|].
  destruct (decode_utf8 bi content) as [e|text]; [reflexivity|].
  fold (transaction_lines bi text).
  destruct (for_each_parse_txt bi self (transaction_lines bi text) s)
    as [vs [-> Hvs]].
  now exists vs.
Qed.

(** The text parser fails on the file only when the file cannot be
    decoded, and then with a user error that carries the decoder's
    message and before it wrote anything. On a decoded file it returns:
    it creates at most one transaction per line that starts with a quote
    and has six fields and a date, each keeping the text of its line. *)
Theorem process_txt_file_outcome (bi : builtins) (self : bank_import) (s : db) :
  match decoded_text bi self with
  | inl e =>
      _process_txt_file bi self s
      = (inl (UserError ("Error al procesar el archivo TXT: " ++ str_exn e)), s)
  | inr text =>
      exists vs : list line_vals,
        _process_txt_file bi self s = (inr tt, add_lines vs s)
        /\ length vs <= length (transaction_lines bi text)
        /\ Forall (fun v => import_id v = rec_id self
                            /\ In (original_line v) (transaction_lines bi text)) vs
  end.
Proof. apply process_txt_file_cases. Qed.

(** ** [process()]: success, and a file without transactions *)

(** When [process()] returns, the import is in state [processed] with
    the file, the bank and the id it had, it has at least one
    transaction, and the message gives their number. *)
Theorem process_success (bi : builtins) (self self' : bank_import)
    (result : action_result) (s s' : db) :
  action_process_file bi self s = (inr (self', result), s') ->
  state self' = processed
  /\ rec_id self' = rec_id self /\ file_data self' = file_data self
  /\ file_name self' = file_name self /\ bank_type self' = bank_type self
  /\ lines_of (rec_id self) s' <> []%list
  /\ result = Notification "Éxito"
                ("Se procesaron "
                 ++ Py.str_int (Z.of_nat (length (lines_of (rec_id self) s')))
                 ++ " operaciones del archivo.")
                "success" false.
Proof.
  intros Hrun. destruct (has_file self) eqn:Hfile.
  - destruct (parse_file_creates bi self) as [r [vs [Hvs Hparse]]].
    destruct (action_process_file_run bi self r vs s Hfile Hvs Hparse) as [Hout Hlines].
    rewrite Hout in Hrun.
    assert (Hs : s' = add_lines vs (snd (unlink_lines (rec_id self) s))) by congruence.
    assert (Hres : process_outcome bi self r (length vs) = inr (self', result))
      by congruence.
    clear Hrun Hout. subst s'.
    assert (Hlen : length (lines_of (rec_id self)
                             (add_lines vs (snd (unlink_lines (rec_id self) s))))
                   = length vs).
    { rewrite <- Hlines at 2. now rewrite length_map. }
    rewrite Hlen.
    unfold process_outcome in Hres. destruct r as [e|[]]; [discriminate|].
    destruct (length vs =? 0)%nat eqn:Hzero; [discriminate|].
    apply Nat.eqb_neq in Hzero.
    assert (Hself : self' = mk_import (rec_id self)
                             ("Importación " ++ Py.upper (bank_key (bank_type self))
                              ++ " - " ++ strftime_dmY_HM (utc_now bi))
                             (file_data self) (file_name self) (bank_type self) processed)
      by congruence.
    assert (Hresult : result = Notification "Éxito"
                                 ("Se procesaron " ++ Py.str_int (Z.of_nat (length vs))
                                  ++ " operaciones del archivo.") "success" false)
      by congruence.
    rewrite Hself. repeat split; [|exact Hresult].
    intros Hnil. rewrite Hnil in Hlen. simpl in Hlen. lia.
  - unfold action_process_file in Hrun. rewrite Hfile in Hrun. discriminate.
Qed.

Lemma process_success_witness :
  state Sample.processed_import = processed
  /\ rec_id Sample.processed_import = 1 /\ file_data Sample.processed_import = Some Sample.bcp_file
  /\ file_name Sample.processed_import = "movimientos.txt"
  /\ bank_type Sample.processed_import = bcp
  /\ lines_of 1 Sample.processed_db <> []%list
  /\ Notification "Éxito" "Se procesaron 2 operaciones del archivo." "success" false
     = Notification "Éxito" "Se procesaron 2 operaciones del archivo." "success" false.
Proof.
  exact (process_success Sample.host Sample.good_import Sample.processed_import
           (Notification "Éxito" "Se procesaron 2 operaciones del archivo." "success" false)
           Sample.empty_db Sample.processed_db eq_refl).
Defined.

(** A text file that is decoded and has no transaction line makes
    [process()] fail with the user error of an empty extraction; the
    import then has no transaction. *)
Theorem process_text_without_transactions
    (bi : builtins) (self : bank_import) (text : string) (s : db) :
  has_file self = true -> file_type self = txt ->
  decoded_text bi self = inr text ->
  transaction_lines bi text = []%list ->
  action_process_file bi self s
  = (inl (UserError nothing_extracted_msg), snd (unlink_lines (rec_id self) s))
  /\ lines_of (rec_id self) (snd (unlink_lines (rec_id self) s)) = []%list.
Proof.
  intros Hfile Htype Htext Hnone.
  split; [|apply lines_of_unlink_lines].
  assert (Hparse : forall s0, parse_file bi self s0 = (inr tt, add_lines []%list s0)).
  { intros s0. unfold parse_file. rewrite Htype.
    pose proof (process_txt_file_cases bi self s0) as H. rewrite Htext in H.
    destruct H as [vs [-> [Hlen _]]]. rewrite Hnone in Hlen.
    destruct vs; [reflexivity|simpl in Hlen; lia]. }
  destruct (action_process_file_run bi self (inr tt) []%list s Hfile
              (Forall_nil _) Hparse) as [-> _].
  now rewrite add_lines_nil.
Qed.

Lemma process_text_without_transactions_witness :
  action_process_file Sample.host Sample.header_only_import Sample.processed_db
  = (inl (UserError nothing_extracted_msg), mk_db [] [] 3 1)
  /\ lines_of 1 (mk_db [] [] 3 1) = []%list.
Proof.
  exact (process_text_without_transactions Sample.host Sample.header_only_import
           ("Cuenta;Moneda;Tipo" ++ nl ++ "Sin movimientos" ++ nl ++ "Total;0")
           Sample.processed_db eq_refl eq_refl eq_refl eq_refl).
Defined.

(** ** [process()]: the other imports *)

Lemma lines_of_unlink_other (imp other : nat) (s : db) :
  other <> imp -> lines_of other (snd (unlink_lines imp s)) = lines_of other s.
Proof.
  intros Hne. unfold unlink_lines, lines_of. simpl. rewrite filter_comm.
  apply forallb_filter_id. apply forallb_forall. intros l Hl.
  apply filter_In in Hl as [_ Hl]. apply Nat.eqb_eq in Hl. rewrite Hl.
  apply negb_true_iff, Nat.eqb_neq, Hne.
Qed.

Lemma number_from_other (imp other i : nat) (vs : list line_vals) :
  Forall (fun v => import_id v = imp) vs -> other <> imp ->
  filter (fun l => (import_id (vals l) =? other)%nat) (number_from i vs) = []%list.
Proof.
  intros Hvs Hne. revert i.
  induction Hvs as [|v vs Hv _ IH]; intros i; simpl; [reflexivity|].
  rewrite Hv. destruct (Nat.eqb_spec imp other) as [Heq|_]; [congruence|apply IH].
Qed.

(** [process()] on an import leaves the transactions of every other
    import as they are, whether it returns or fails. *)
Theorem process_leaves_other_imports (bi : builtins) (self : bank_import)
    (other : nat) (s : db) :
  other <> rec_id self ->
  lines_of other (snd (action_process_file bi self s)) = lines_of other s.
Proof.
  intros Hne. destruct (has_file self) eqn:Hfile.
  - destruct (parse_file_creates bi self) as [r [vs [Hvs Hparse]]].
    destruct (action_process_file_run bi self r vs s Hfile Hvs Hparse) as [-> _].
    cbn [snd]. unfold add_lines, lines_of at 1. cbn [db_lines].
    rewrite filter_app.
    rewrite (number_from_other (rec_id self) other _ vs Hvs Hne), app_nil_r.
    now apply lines_of_unlink_other.
  - unfold action_process_file. now rewrite Hfile.
Qed.

Lemma process_leaves_other_imports_witness :
  lines_of 5 (snd (action_process_file Sample.host Sample.good_import Sample.matching_db))
  = [Sample.line_without_number; Sample.line_with_number]%list.
Proof.
  exact (process_leaves_other_imports Sample.host Sample.good_import 5 Sample.matching_db
           (fun H : 5 = 1 => match H in _ = n return
                               match n with 5 => True | _ => False end
                             with eq_refl => I end)).
Defined.

(** ** Methods that only add matches *)

Section Adds.

Variable P : import_match -> Prop.

Lemma adds_ret {A : Type} (count : A -> nat) (a : A) : adds P count (ret a) (count a).
Proof.
  intros s. exists []%list. simpl. rewrite app_nil_r. repeat split; auto.
  intros a' [= <-]. lia.
Qed.

Lemma adds_raise {A : Type} (count : A -> nat) (e : exn) (base : nat) :
  adds P count (@raise A e) base.
Proof.
  intros s. exists []%list. simpl. rewrite app_nil_r. repeat split; auto.
  intros a' H. discriminate.
Qed.

Lemma adds_bind {A B : Type} (c1 : A -> nat) (c2 : B -> nat) (m : M A) (f : A -> M B)
    (base : nat) :
  adds P c1 m base -> (forall a, adds P c2 (f a) (c1 a)) -> adds P c2 (bind m f) base.
Proof.
  intros Hm Hf s. unfold bind.
  destruct (Hm s) as [new1 [Hl1 [Hm1 [HP1 Hc1]]]].
  destruct (m s) as [[e|a] s1]; simpl in *.
  - exists new1. repeat split; auto. intros b H. discriminate.
  - destruct (Hf a s1) as [new2 [Hl2 [Hm2 [HP2 Hc2]]]].
    exists (new1 ++ new2)%list. rewrite Hl2, Hm2, Hl1, Hm1, app_assoc.
    repeat split; auto; [now apply Forall_app|].
    intros b Hb. rewrite (Hc2 b Hb), (Hc1 a eq_refl), length_app. lia.
Qed.

Lemma adds_try_raise {A : Type} (count : A -> nat) (m : M A) (g : exn -> exn) (base : nat) :
  adds P count m base -> adds P count (try_except m (fun e => raise (g e))) base.
Proof.
  intros Hm s. unfold try_except.
  destruct (Hm s) as [new [Hl [Hmm [HP Hc]]]].
  destruct (m s) as [[e|a] s1]; simpl in *.
  - exists new. repeat split; auto. intros a H. discriminate.
  - exists new. repeat split; auto.
Qed.

Lemma adds_fold_each {A B : Type} (count : B -> nat) (l : list A) (body : B -> A -> M B) :
  (forall acc x, In x l -> adds P count (body acc x) (count acc)) ->
  forall acc, adds P count (fold_each l acc body) (count acc).
Proof.
  induction l as [|x l IH]; intros Hbody acc; simpl.
  - apply adds_ret.
  - apply (adds_bind count count); [apply Hbody; now left|].
    intros acc'. apply IH. intros acc0 y Hy. apply Hbody. now right.
Qed.

Lemma adds_create_match (imp line pay : nat) (k : match_kind) (base : nat) :
  (forall id, P (mk_match id imp line pay k)) ->
  adds P (fun _ : unit => S base) (create_match imp line pay k) base.
Proof.
  intros HP s.
  destruct (create_match_cases imp line pay k s) as [[e He]|Hok].
  - rewrite He. exists []%list. simpl. rewrite app_nil_r. repeat split; auto.
    intros a H. discriminate.
  - rewrite Hok. exists [mk_match (next_match_id s) imp line pay k]%list. simpl.
    repeat split; auto. intros _ _. lia.
Qed.

(** The creation behind the search, as both loops of the match engine
    have it: the handler raises, or gives the count back. *)
Lemma adds_guarded_create (imp line pay : nat) (k : match_kind) (acc : nat)
    (h : exn -> M nat) :
  (forall id, P (mk_match id imp line pay k)) ->
  (forall e, (exists e', h e = raise e') \/ h e = ret acc) ->
  adds P (fun n => n)
    (existing_match <- search_match imp pay line ;;
     match existing_match with
     | [] => try_except (create_match imp line pay k ;; ret (S acc)) h
     | _ :: _ => ret acc
     end)%list
    acc.
Proof.
  intros HP Hh s. unfold bind, search_match, try_except. cbv beta iota.
  destruct (filter _ (db_matches s)) as [|m0 rest].
  - destruct (create_match_cases imp line pay k s) as [[e He]|Hok].
    + rewrite He. exists []%list. rewrite app_nil_r.
      destruct (Hh e) as [[e' ->]| ->]; simpl; repeat split; auto.
      * intros a H. discriminate.
      * intros a [= <-]. lia.
    + rewrite Hok. exists [mk_match (next_match_id s) imp line pay k]%list. simpl.
      repeat split; auto. intros a [= <-]. lia.
  - exists []%list. simpl. rewrite app_nil_r. repeat split; auto.
    intros a [= <-]. lia.
Qed.

End Adds.

Lemma adds_weaken {A : Type} (P P' : import_match -> Prop) (count : A -> nat)
    (m : M A) (base : nat) :
  (forall x, P x -> P' x) -> adds P count m base -> adds P' count m base.
Proof.
  intros HP Hm s. destruct (Hm s) as [new [Hl [Hmm [Hnew Hc]]]].
  exists new. repeat split; auto. eapply Forall_impl; [|exact Hnew]. exact HP.
Qed.

(** ** The match engine: what a run links *)

Lemma amount_matches_active (bi : builtins) (x : Float.float) (p : payment) :
  In p (amount_matches bi x) -> In p (payments bi) /\ active_state p = true.
Proof.
  unfold amount_matches.
  destruct (filter _ (payments bi)) as [|p0 l] eqn:E.
  - intros H. apply filter_In in H as [Hin H].
    split; [assumption|]. now apply andb_true_iff in H as [H%andb_true_iff _].
  - rewrite <- E. intros H. apply filter_In in H as [Hin H].
    split; [assumption|]. now apply andb_true_iff in H.
Qed.

Lemma active_state_states (p : payment) :
  active_state p = true -> In (p_state p) ["posted"; "sent"; "in_process"]%list.
Proof.
  unfold active_state, Py.str_eqb. intros H.
  apply orb_true_iff in H as [H|H]; [apply orb_true_iff in H as [H|H]|];
    apply String.eqb_eq in H; rewrite H; simpl; tauto.
Qed.

Lemma find_matching_payments_adds (bi : builtins) (self : bank_import)
    (import_line : import_line) :
  adds (links bi ["posted"; "sent"; "in_process"]%list (rec_id self) [import_line]%list)
       (fun n => n) (_find_matching_payments bi self import_line) 0.
Proof.
  unfold _find_matching_payments.
  assert (Hlink : forall p k id, In p (payments bi) -> active_state p = true ->
            links bi ["posted"; "sent"; "in_process"]%list (rec_id self) [import_line]%list
                  (mk_match id (rec_id self) (line_id import_line) (p_id p) k)).
  { intros p k id Hin Hact. split; [reflexivity|]. split.
    - exists import_line. split; [now left|reflexivity].
    - exists p. split; [assumption|]. split; [now apply active_state_states|reflexivity]. }
  apply (adds_bind _ (fun n => n) (fun n => n)).
  - apply (adds_fold_each _ (fun n => n)). intros acc p Hp.
    apply amount_matches_active in Hp as [Hin Hact].
    destruct (_check_operation_match p _ || _).
    + apply adds_guarded_create; [intros id; now apply Hlink|].
      intros e. left. eexists. reflexivity.
    + apply (adds_ret _ (fun n => n)).
  - intros n.
    destruct ((n =? 0)%nat && _); [|apply (adds_ret _ (fun n => n))].
    apply (adds_fold_each _ (fun n => n)). intros acc p Hp.
    apply filter_In in Hp as [Hin Hact].
    destruct (_check_operation_match p _); [|apply (adds_ret _ (fun n => n))].
    apply adds_guarded_create; [intros id; now apply Hlink|].
    intros e. now right.
Qed.

(** The number [_find_matching_payments] returns is the number of
    matches it created; they link the line it was given, for the import,
    to payments of the registry that are posted, sent or in process; the
    matches there were and the lines are left as they are. *)
Theorem find_matching_payments_count (bi : builtins) (self : bank_import)
    (import_line : import_line) (s s' : db) (n : nat) :
  _find_matching_payments bi self import_line s = (inr n, s') ->
  exists new : list import_match,
    db_matches s' = (db_matches s ++ new)%list /\ length new = n
    /\ db_lines s' = db_lines s
    /\ Forall (links bi ["posted"; "sent"; "in_process"]%list (rec_id self)
                     [import_line]%list) new.
Proof.
  intros Hrun.
  destruct (find_matching_payments_adds bi self import_line s)
    as [new [Hl [Hm [HP Hc]]]].
  rewrite Hrun in *. simpl in *. exists new.
  specialize (Hc n eq_refl). repeat split; auto.
Qed.

Lemma find_matching_payments_count_witness :
  exists new : list import_match,
    [mk_match 1 5 1 8 exact]%list = ([] ++ new)%list /\ length new = 1
    /\ db_lines Sample.matching_db = db_lines Sample.matching_db
    /\ Forall (links Sample.bank_host ["posted"; "sent"; "in_process"]%list 5
                     [Sample.line_without_number]%list) new.
Proof.
  exact (find_matching_payments_count Sample.bank_host Sample.matching_import
           Sample.line_without_number (mk_db (db_lines Sample.matching_db) [] 3 1)
           (mk_db (db_lines Sample.matching_db) [mk_match 1 5 1 8 exact] 3 2) 1 eq_refl).
Defined.

Lemma matches_after_clearing (imp : nat) (old new : list import_match) (s' : db) :
  db_matches s' = (filter (fun m => negb (m_import_id m =? imp)%nat) old ++ new)%list ->
  Forall (fun m => m_import_id m = imp) new ->
  matches_of imp s' = new
  /\ forall other, other <> imp ->
       matches_of other s' = filter (fun m => (m_import_id m =? other)%nat) old.
Proof.
  intros Hm Hnew. unfold matches_of. rewrite Hm. split.
  - rewrite filter_app.
    assert (H1 : filter (fun m => (m_import_id m =? imp)%nat)
                        (filter (fun m => negb (m_import_id m =? imp)%nat) old) = []%list).
    { clear. induction old as [|m old IH]; simpl; [reflexivity|].
      destruct (m_import_id m =? imp)%nat eqn:E; simpl; [assumption|]. now rewrite E. }
    rewrite H1. simpl. apply forallb_filter_id. apply forallb_forall.
    rewrite Forall_forall in Hnew. intros m Hin. apply Nat.eqb_eq. now apply Hnew.
  - intros other Hne. rewrite filter_app, filter_comm.
    assert (H2 : filter (fun m => (m_import_id m =? other)%nat) new = []%list).
    { clear - Hnew Hne. induction Hnew as [|m new Hmi _ IH]; simpl; [reflexivity|].
      rewrite Hmi. destruct (Nat.eqb_spec imp other); [congruence|assumption]. }
    rewrite H2, app_nil_r. apply forallb_filter_id. apply forallb_forall.
    intros m Hin. apply filter_In in Hin as [_ Hin]. apply Nat.eqb_eq in Hin.
    rewrite Hin. apply negb_true_iff, Nat.eqb_neq, Hne.
Qed.

Lemma links_import (bi : builtins) (states : list string) (imp : nat)
    (lines : list import_line) (new : list import_match) :
  Forall (links bi states imp lines) new -> Forall (fun m => m_import_id m = imp) new.
Proof. apply Forall_impl. intros m H. apply H. Qed.

Lemma links_more_lines (bi : builtins) (states : list string) (imp : nat)
    (l : import_line) (lines : list import_line) (m : import_match) :
  In l lines -> links bi states imp [l]%list m -> links bi states imp lines m.
Proof.
  intros Hl [Hi [[l' [[<-|[]] Hid]] Hp]]. split; [assumption|]. split; [|assumption].
  now exists l.
Qed.

Lemma bind_line_ids {B : Type} (self : bank_import) (k : list import_line -> M B) (s : db) :
  bind (line_ids self) k s = k (lines_of (rec_id self) s) s.
Proof. reflexivity. Qed.

Lemma bind_unlink_matches {B : Type} (imp : nat) (k : unit -> M B) (s : db) :
  bind (unlink_matches imp) k s
  = k tt (mk_db (db_lines s)
                (filter (fun m => negb (m_import_id m =? imp)%nat) (db_matches s))
                (next_line_id s) (next_match_id s)).
Proof. reflexivity. Qed.

(** A method that adds matches, followed by one that leaves the store. *)
Lemma adds_then {A B : Type} (P : import_match -> Prop) (count : A -> nat) (m : M A)
    (base : nat) (f : A -> M B) :
  adds P count m base -> (forall a s, snd (f a s) = s) ->
  forall s, exists new : list import_match,
    db_lines (snd (bind m f s)) = db_lines s
    /\ db_matches (snd (bind m f s)) = (db_matches s ++ new)%list
    /\ Forall P new
    /\ forall b, fst (bind m f s) = inr b -> exists a, fst (m s) = inr a /\ count a = base + length new.
Proof.
  intros Hm Hf s. destruct (Hm s) as [new [Hl [Hmm [HP Hc]]]]. exists new.
  unfold bind. destruct (m s) as [[e|a] s1]; simpl in *.
  - repeat split; auto. intros b H. discriminate.
  - rewrite Hf. repeat split; auto. intros b _. exists a. split; [reflexivity|]. now apply Hc.
Qed.

(** A run of [match()] on an import with lines: what it leaves. *)
Lemma action_match_payments_run (bi : builtins) (self : bank_import) (s : db) :
  lines_of (rec_id self) s <> []%list ->
  exists new : list import_match,
    db_lines (snd (action_match_payments bi self s)) = db_lines s
    /\ db_matches (snd (action_match_payments bi self s))
       = (filter (fun m => negb (m_import_id m =? rec_id self)%nat) (db_matches s) ++ new)%list
    /\ Forall (links bi ["posted"; "sent"; "in_process"]%list (rec_id self)
                     (lines_of (rec_id self) s)) new.
Proof.
  intros Hlines. unfold action_match_payments. rewrite bind_line_ids.
  destruct (lines_of (rec_id self) s) as [|l0 lines0] eqn:El; [congruence|].
  rewrite bind_unlink_matches, bind_line_ids.
  change (lines_of (rec_id self) (mk_db (db_lines s) _ _ _))
    with (lines_of (rec_id self) s).
  rewrite El.
  match goal with
  | |- context [bind (fold_each ?l 0 ?body) ?f ?s0] =>
      assert (Hfold : adds (links bi ["posted"; "sent"; "in_process"]%list (rec_id self) l)
                           (fun n => n) (fold_each l 0 body) 0);
      [|destruct (adds_then _ _ _ _ f Hfold (fun _ _ => eq_refl) s0)
          as [new [Hl [Hm [HP _]]]]; exists new; repeat split; assumption]
  end.
  apply (adds_fold_each _ (fun n => n)). intros acc line Hline.
  apply (adds_try_raise _ (fun n => n)).
  apply (adds_bind _ (fun n => acc + n) (fun n => n)).
  - intros s1.
    destruct (find_matching_payments_adds bi self line s1) as [new [Hl [Hm [HP Hc]]]].
    exists new. split; [assumption|]. split; [assumption|]. split.
    + eapply Forall_impl; [|exact HP]. intros m. now apply links_more_lines.
    + intros a Ha. rewrite (Hc a Ha). reflexivity.
  - intros n. apply (adds_ret _ (fun n => n)).
Qed.

(** After [match()] on an import that has lines, returned or failed,
    every match of the import links one of its lines to a payment of the
    registry that is posted, sent or in process; the lines, and the
    matches of the other imports, are as they were. *)
Theorem match_links_lines_to_active_payments (bi : builtins) (self : bank_import) (s : db) :
  lines_of (rec_id self) s <> []%list ->
  Forall (links bi ["posted"; "sent"; "in_process"]%list (rec_id self)
                (lines_of (rec_id self) s))
         (matches_of (rec_id self) (snd (action_match_payments bi self s)))
  /\ db_lines (snd (action_match_payments bi self s)) = db_lines s
  /\ forall other, other <> rec_id self ->
       matches_of other (snd (action_match_payments bi self s)) = matches_of other s.
Proof.
  intros Hlines.
  destruct (action_match_payments_run bi self s Hlines) as [new [Hl [Hm Hnew]]].
  destruct (matches_after_clearing (rec_id self) (db_matches s) new _ Hm
              (links_import _ _ _ _ _ Hnew)) as [Hself Hother].
  rewrite Hself. repeat split; assumption.
Qed.

Lemma match_links_lines_to_active_payments_witness :
  Forall (links Sample.bank_host ["posted"; "sent"; "in_process"]%list 5
                [Sample.line_without_number; Sample.line_with_number]%list)
         [mk_match 2 5 1 8 exact; mk_match 3 5 2 9 exact]%list
  /\ db_lines (snd (action_match_payments Sample.bank_host Sample.matching_import
                      Sample.matching_db))
     = [Sample.line_without_number; Sample.line_with_number]%list
  /\ forall other, other <> 5 ->
       matches_of other (snd (action_match_payments Sample.bank_host Sample.matching_import
                                Sample.matching_db))
       = matches_of other Sample.matching_db.
Proof.
  apply (match_links_lines_to_active_payments Sample.bank_host Sample.matching_import
           Sample.matching_db).
  discriminate.
Defined.

(** ** The match engine: when a run returns *)

Lemma returns_ret {A : Type} (a : A) : returns (ret a).
Proof. intros s. now exists a. Qed.

Lemma returns_bind {A B : Type} (m : M A) (f : A -> M B) :
  returns m -> (forall a, returns (f a)) -> returns (bind m f).
Proof.
  intros Hm Hf s. unfold bind. destruct (Hm s) as [a Ha].
  destruct (m s) as [[e|a'] s1]; simpl in Ha; [discriminate|]. apply Hf.
Qed.

Lemma returns_try_except {A : Type} (m : M A) (h : exn -> M A) :
  returns m -> returns (try_except m h).
Proof.
  intros Hm s. unfold try_except. destruct (Hm s) as [a Ha].
  destruct (m s) as [[e|a'] s1]; simpl in Ha; [discriminate|]. now exists a'.
Qed.

Lemma returns_fold_each {A B : Type} (l : list A) (body : B -> A -> M B) :
  (forall acc x, In x l -> returns (body acc x)) ->
  forall acc, returns (fold_each l acc body).
Proof.
  induction l as [|x l IH]; intros Hbody acc; simpl.
  - apply returns_ret.
  - apply returns_bind; [apply Hbody; now left|].
    intros acc'. apply IH. intros acc0 y Hy. apply Hbody. now right.
Qed.

Lemma returns_create_match (imp line pay : nat) (k : match_kind) :
  imp <> 0%nat -> line <> 0%nat -> pay <> 0%nat -> returns (create_match imp line pay k).
Proof.
  intros Hi Hl Hp s. unfold create_match.
  destruct (Nat.eqb_spec line 0); [contradiction|].
  destruct (Nat.eqb_spec pay 0); [contradiction|].
  destruct (Nat.eqb_spec imp 0); [contradiction|].
  now exists tt.
Qed.

Lemma returns_guarded_create (imp line pay : nat) (k : match_kind) (acc : nat)
    (h : exn -> M nat) :
  imp <> 0%nat -> line <> 0%nat -> pay <> 0%nat ->
  returns
    (existing_match <- search_match imp pay line ;;
     match existing_match with
     | [] => try_except (create_match imp line pay k ;; ret (S acc)) h
     | _ :: _ => ret acc
     end)%list.
Proof.
  intros Hi Hl Hp. apply returns_bind.
  - intros s. unfold search_match. eexists. reflexivity.
  - intros [|m0 rest]; [|apply returns_ret].
    apply returns_try_except, returns_bind; [now apply returns_create_match|].
    intros _. apply returns_ret.
Qed.

Lemma find_matching_payments_returns (bi : builtins) (self : bank_import)
    (import_line : import_line) :
  rec_id self <> 0%nat -> line_id import_line <> 0%nat ->
  Forall (fun p => p_id p <> 0%nat) (payments bi) ->
  returns (_find_matching_payments bi self import_line).
Proof.
  intros Hi Hl Hp. rewrite Forall_forall in Hp. unfold _find_matching_payments.
  apply returns_bind.
  - apply returns_fold_each. intros acc p Hin.
    apply amount_matches_active in Hin as [Hin _].
    destruct (_check_operation_match p _ || _); [|apply returns_ret].
    apply returns_guarded_create; auto.
  - intros n. destruct ((n =? 0)%nat && _); [|apply returns_ret].
    apply returns_fold_each. intros acc p Hin. apply filter_In in Hin as [Hin _].
    destruct (_check_operation_match p _); [|apply returns_ret].
    apply returns_guarded_create; auto.
Qed.

(** [match()] on an import that has lines returns, and marks the import
    matched, whatever the registry of payments holds (also when no line
    finds a payment): the identifiers of the import, of its lines and of
    the payments being record identifiers, which are never zero, no
    creation of a match can fail. *)
Theorem match_marks_import_matched (bi : builtins) (self : bank_import) (s : db) :
  rec_id self <> 0%nat ->
  lines_of (rec_id self) s <> []%list ->
  Forall (fun l => line_id l <> 0%nat) (lines_of (rec_id self) s) ->
  Forall (fun p => p_id p <> 0%nat) (payments bi) ->
  fst (action_match_payments bi self s)
  = inr (mk_import (rec_id self) (name self) (file_data self) (file_name self)
                   (bank_type self) matched, ReturnTrue).
Proof.
  intros Hi Hlines Hids Hp. unfold action_match_payments. rewrite bind_line_ids.
  destruct (lines_of (rec_id self) s) as [|l0 lines0] eqn:El; [congruence|].
  rewrite bind_unlink_matches, bind_line_ids.
  change (lines_of (rec_id self) (mk_db (db_lines s) _ _ _))
    with (lines_of (rec_id self) s).
  rewrite El. rewrite Forall_forall in Hids.
  match goal with
  | |- context [bind (fold_each ?l 0 ?body) ?f ?s0] =>
      assert (Hfold : returns (fold_each l 0 body));
      [|unfold bind at 1; destruct (Hfold s0) as [a Ha];
        destruct (fold_each l 0 body s0) as [[e|a'] s1]; simpl in Ha;
        [discriminate|reflexivity]]
  end.
  apply returns_fold_each. intros acc line Hline.
  apply returns_try_except, returns_bind.
  - apply find_matching_payments_returns; auto.
  - intros n. apply returns_ret.
Qed.

Lemma match_marks_import_matched_witness :
  fst (action_match_payments Sample.bank_host Sample.matching_import Sample.matching_db)
  = inr (mk_import 5 (name Sample.matching_import) (file_data Sample.matching_import)
                   (file_name Sample.matching_import) (bank_type Sample.matching_import)
                   matched, ReturnTrue).
Proof.
  apply (match_marks_import_matched Sample.bank_host Sample.matching_import
           Sample.matching_db).
  - discriminate.
  - discriminate.
  - repeat constructor; discriminate.
  - repeat constructor; discriminate.
Defined.

(** ** The advanced match *)

Lemma adds_shift {A : Type} (P : import_match -> Prop) (count : A -> nat) (m : M A)
    (k : nat) :
  adds P count m 0 -> adds P (fun a => k + count a) m k.
Proof.
  intros Hm s. destruct (Hm s) as [new [Hl [Hmm [HP Hc]]]]. exists new.
  split; [assumption|]. split; [assumption|]. split; [assumption|].
  intros a Ha. rewrite (Hc a Ha). lia.
Qed.

Lemma bind_call_inl {A B : Type} (e : exn) (f : A -> M B) :
  bind (call (inl e)) f = raise e.
Proof. reflexivity. Qed.

Lemma bind_call_inr {A B : Type} (a : A) (f : A -> M B) :
  bind (call (inr a)) f = f a.
Proof. reflexivity. Qed.

Lemma find_advanced_matches_adds (bi : builtins) (w : wizard) (line : import_line)
    (pays : list payment) :
  (forall p, In p pays -> In p (wizard_payments bi w)) ->
  adds (advanced_link bi w [line]%list) (@length payment)
       (_find_advanced_matches w line pays) 0.
Proof.
  intros Hpays. unfold _find_advanced_matches.
  apply (adds_fold_each _ (@length payment) pays _) with (acc := []%list).
  intros acc p Hp.
  destruct (_calculate_match_score w line p) as [e|score] eqn:Escore.
  - rewrite bind_call_inl. apply adds_raise.
  - rewrite bind_call_inr.
    destruct (Nat.ltb_spec 0 score) as [Hpos|Hzero]; [|apply adds_ret].
    apply (adds_bind _ (fun _ : unit => S (length acc)) (@length payment)).
    + apply adds_create_match. intros id. split; [reflexivity|].
      exists line, p, score. simpl. repeat split; auto.
    + intros _ s1. exists []%list. simpl. rewrite app_nil_r.
      repeat split; auto. intros a [= <-]. rewrite length_app. simpl. lia.
Qed.

Lemma advanced_link_more_lines (bi : builtins) (w : wizard) (l : import_line)
    (lines : list import_line) (m : import_match) :
  In l lines -> advanced_link bi w [l]%list m -> advanced_link bi w lines m.
Proof.
  intros Hl [Hi [l' [p [score [[<-|[]] H]]]]]. split; [assumption|].
  now exists l, p, score.
Qed.

Lemma advanced_loop_adds (bi : builtins) (w : wizard) (lines : list import_line) :
  adds (advanced_link bi w lines) (fun n => n)
    (fold_each lines 0
       (fun matches_found line =>
          matched_payments <- _find_advanced_matches w line (wizard_payments bi w) ;;
          ret (matches_found + length matched_payments))) 0.
Proof.
  apply (adds_fold_each _ (fun n => n)). intros acc line Hline.
  apply (adds_bind _ (fun a => acc + length a) (fun n => n)).
  - apply (adds_weaken (advanced_link bi w [line]%list)).
    + intros m. now apply advanced_link_more_lines.
    + apply (adds_shift _ (@length payment)).
      apply find_advanced_matches_adds. auto.
  - intros a. apply (adds_ret _ (fun n => n)).
Qed.

(** A run of the advanced match: what it leaves. *)
Lemma action_advanced_match_run (bi : builtins) (w : wizard) (s : db) :
  exists new : list import_match,
    db_lines (snd (action_advanced_match bi w s)) = db_lines s
    /\ db_matches (snd (action_advanced_match bi w s))
       = (filter (fun m => negb (m_import_id m =? rec_id (w_import_id w))%nat)
                 (db_matches s) ++ new)%list
    /\ Forall (advanced_link bi w (lines_of (rec_id (w_import_id w)) s)) new.
Proof.
  unfold action_advanced_match. rewrite bind_unlink_matches, bind_line_ids.
  change (lines_of (rec_id (w_import_id w)) (mk_db (db_lines s) _ _ _))
    with (lines_of (rec_id (w_import_id w)) s).
  match goal with
  | |- context [bind (fold_each ?l 0 ?body) ?f ?s0] =>
      assert (Hf : forall a s1, snd (f a s1) = s1)
        by (intros a s1; destruct (0 <? a)%nat; reflexivity);
      destruct (adds_then _ _ _ _ f (advanced_loop_adds bi w l) Hf s0)
        as [new [Hl [Hm [HP _]]]]
  end.
  exists new. split; [exact Hl|]. split; [exact Hm|exact HP].
Qed.

(** When the advanced match returns, the matches of the import are the
    ones it created: each links a line of the import to a payment of the
    wizard's search (posted or sent, in the range of dates) that scores
    above zero for the line, with the type the score gives.  With no
    match the import is returned as it was, with the warning; otherwise
    it is marked matched and the message carries the number of matches.
    The lines, and the matches of other imports, are as they were. *)
Theorem advanced_match_outcome (bi : builtins) (w : wizard) (s s' : db)
    (import' : bank_import) (result : action_result) :
  action_advanced_match bi w s = (inr (import', result), s') ->
  let import := w_import_id w in
  let found := matches_of (rec_id import) s' in
  Forall (advanced_link bi w (lines_of (rec_id import) s)) found
  /\ db_lines s' = db_lines s
  /\ (forall other, other <> rec_id import -> matches_of other s' = matches_of other s)
  /\ (import', result)
     = if (0 <? length found)%nat then
         (mk_import (rec_id import) (name import) (file_data import) (file_name import)
                    (bank_type import) matched,
          Notification "Éxito"
            ("Se encontraron " ++ Py.str_int (Z.of_nat (length found)) ++ " coincidencias.")
            "success" false)
       else
         (import,
          Notification "Sin resultados"
            "No se encontraron coincidencias con los criterios especificados."
            "warning" false).
Proof.
  intros Hrun import found. subst found import.
  unfold action_advanced_match in Hrun.
  rewrite bind_unlink_matches, bind_line_ids in Hrun.
  change (lines_of (rec_id (w_import_id w)) (mk_db (db_lines s) _ _ _))
    with (lines_of (rec_id (w_import_id w)) s) in Hrun.
  match type of Hrun with
  | bind (fold_each ?l 0 ?body) ?f ?s0 = _ =>
      assert (Hfold : adds (advanced_link bi w l) (fun n => n) (fold_each l 0 body) 0);
      [|assert (Hf : forall a s1, snd (f a s1) = s1)
          by (intros a s1; destruct (0 <? a)%nat; reflexivity);
        destruct (adds_then _ _ _ _ f Hfold Hf s0) as [new [Hl [Hm [HP Hc]]]];
        rewrite Hrun in Hl, Hm, Hc; simpl in Hl, Hm, Hc;
        destruct (Hc _ eq_refl) as [n [Hn Hlen]]; simpl in Hlen;
        unfold bind at 1 in Hrun;
        destruct (fold_each l 0 body s0) as [[e|n'] s1]; simpl in Hn;
        cbv beta iota in Hrun;
        [discriminate|]]
  end.
  - apply advanced_loop_adds.
  - assert (n' = n) by congruence. subst n'.
    assert (Himp : Forall (fun m => m_import_id m = rec_id (w_import_id w)) new).
    { eapply Forall_impl; [|exact HP]. intros m H. apply H. }
    destruct (matches_after_clearing _ _ _ _ Hm Himp) as [Hself Hother].
    rewrite Hself, <- Hlen. split; [assumption|]. split; [assumption|]. split.
    + exact Hother.
    + destruct (0 <? n)%nat; unfold ret in Hrun; now injection Hrun as <- <- _.
Qed.

Lemma advanced_match_outcome_witness :
  let s' := snd (action_advanced_match Sample.bank_host Sample.matching_wizard
                   Sample.matching_db) in
  Forall (advanced_link Sample.bank_host Sample.matching_wizard
            [Sample.line_without_number; Sample.line_with_number]%list)
         [mk_match 2 5 1 8 partial; mk_match 3 5 2 9 exact]%list
  /\ db_lines s' = db_lines Sample.matching_db
  /\ (forall other, other <> 5 -> matches_of other s' = matches_of other Sample.matching_db)
  /\ fst (action_advanced_match Sample.bank_host Sample.matching_wizard Sample.matching_db)
     = inr (mk_import 5 "Importación BCP - 15/03/2024 10:30" (Some "Zg==")
                      "movimientos.txt" bcp matched,
            Notification "Éxito" "Se encontraron 2 coincidencias." "success" false).
Proof.
  intros s'.
  destruct (advanced_match_outcome Sample.bank_host Sample.matching_wizard
              Sample.matching_db s'
              (mk_import 5 "Importación BCP - 15/03/2024 10:30" (Some "Zg==")
                         "movimientos.txt" bcp matched)
              (Notification "Éxito" "Se encontraron 2 coincidencias." "success" false)
              eq_refl) as [H1 [H2 [H3 _]]].
  split; [exact H1|]. split; [exact H2|]. split; [exact H3|]. reflexivity.
Defined.

(** ** The advanced match on a host without [communication] *)

Lemma returns_or_bind {A B : Type} (e : exn) (m : M A) (f : A -> M B) :
  returns_or e m -> (forall a, returns_or e (f a)) -> returns_or e (bind m f).
Proof.
  intros Hm Hf s. unfold bind. destruct (Hm s) as [H|[a H]];
    destruct (m s) as [[e'|a'] s1]; simpl in H |- *; try discriminate.
  - left. congruence.
  - apply Hf.
Qed.

Lemma returns_returns_or {A : Type} (e : exn) (m : M A) : returns m -> returns_or e m.
Proof. intros Hm s. right. apply Hm. Qed.

Lemma returns_or_fold_each {A B : Type} (e : exn) (l : list A) (body : B -> A -> M B) :
  (forall acc x, In x l -> returns_or e (body acc x)) ->
  forall acc, returns_or e (fold_each l acc body).
Proof.
  induction l as [|x l IH]; intros Hbody acc; simpl.
  - apply returns_returns_or, returns_ret.
  - apply returns_or_bind; [apply Hbody; now left|].
    intros acc'. apply IH. intros acc0 y Hy. apply Hbody. now right.
Qed.

Lemma fails_with_bind {A B : Type} (e : exn) (m : M A) (f : A -> M B) :
  fails_with e m -> fails_with e (bind m f).
Proof.
  intros Hm s. unfold bind. specialize (Hm s).
  destruct (m s) as [[e'|a'] s1]; simpl in Hm |- *; [congruence|discriminate].
Qed.

(** A loop fails with [e] when one of its steps does and the steps
    before it return or fail with [e]. *)
Lemma fails_with_fold_each {A B : Type} (e : exn) (l : list A) (body : B -> A -> M B)
    (bad : A) :
  In bad l ->
  (forall acc, fails_with e (body acc bad)) ->
  (forall acc x, In x l -> returns_or e (body acc x)) ->
  forall acc, fails_with e (fold_each l acc body).
Proof.
  induction l as [|x l IH]; intros Hin Hbad Hbody acc; [destruct Hin|].
  simpl. destruct Hin as [->|Hin].
  - apply fails_with_bind, Hbad.
  - intros s. unfold bind.
    destruct (Hbody acc x (or_introl eq_refl) s) as [H|[a H]];
      destruct (body acc x s) as [[e'|a'] s1]; simpl in H |- *; try discriminate.
    + congruence.
    + apply IH; auto. intros acc0 y Hy. apply Hbody. now right.
Qed.

Lemma calculate_match_score_error (w : wizard) (line : import_line) (p : payment) (e : exn) :
  _calculate_match_score w line p = inl e -> e = no_communication.
Proof.
  unfold _calculate_match_score, _operation_number_matches.
  destruct (Py.truthy (operation_number (vals line))); [|discriminate].
  destruct (search_in_communication w).
  - destruct (p_communication p).
    + destruct (existsb _ _); discriminate.
    + now intros [= <-].
  - destruct (existsb _ _); discriminate.
Qed.

Lemma calculate_match_score_no_communication (w : wizard) (line : import_line)
    (p : payment) :
  search_in_communication w = true -> p_communication p = None ->
  Py.truthy (operation_number (vals line)) = true ->
  _calculate_match_score w line p = inl no_communication.
Proof.
  intros Hw Hp Hop. unfold _calculate_match_score, _operation_number_matches.
  now rewrite Hop, Hw, Hp.
Qed.

Lemma find_advanced_matches_returns_or (w : wizard) (line : import_line)
    (pays : list payment) :
  rec_id (w_import_id w) <> 0%nat -> line_id line <> 0%nat ->
  Forall (fun p => p_id p <> 0%nat) pays ->
  returns_or no_communication (_find_advanced_matches w line pays).
Proof.
  intros Hi Hl Hp. rewrite Forall_forall in Hp. unfold _find_advanced_matches.
  apply returns_or_fold_each. intros acc p Hin.
  destruct (_calculate_match_score w line p) as [e|score] eqn:Escore.
  - rewrite bind_call_inl. apply calculate_match_score_error in Escore as ->.
    intros s. now left.
  - rewrite bind_call_inr. apply returns_returns_or.
    destruct (0 <? score)%nat; [|apply returns_ret].
    apply returns_bind; [apply returns_create_match; auto|].
    intros _. apply returns_ret.
Qed.

Lemma find_advanced_matches_fails (w : wizard) (line : import_line)
    (pays : list payment) :
  search_in_communication w = true ->
  Py.truthy (operation_number (vals line)) = true ->
  pays <> []%list -> Forall (fun p => p_communication p = None) pays ->
  fails_with no_communication (_find_advanced_matches w line pays).
Proof.
  intros Hw Hop Hne Hp. destruct pays as [|p pays]; [congruence|].
  unfold _find_advanced_matches. simpl. apply fails_with_bind.
  rewrite (calculate_match_score_no_communication w line p Hw); auto.
  - rewrite bind_call_inl. intros s. reflexivity.
  - now inversion Hp.
Qed.

(** On a host whose payments have no [communication] attribute, the
    advanced match with "search in communication" on (its default) fails
    with [AttributeError] as soon as the import has a line with an
    operation number and the search finds a payment: the attribute is read
    without the [hasattr] test that [match()] makes. *)
Theorem advanced_match_without_communication (bi : builtins) (w : wizard) (s : db) :
  search_in_communication w = true ->
  Forall (fun p => p_communication p = None) (payments bi) ->
  wizard_payments bi w <> []%list ->
  Exists (fun l => Py.truthy (operation_number (vals l)) = true)
         (lines_of (rec_id (w_import_id w)) s) ->
  rec_id (w_import_id w) <> 0%nat ->
  Forall (fun l => line_id l <> 0%nat) (lines_of (rec_id (w_import_id w)) s) ->
  Forall (fun p => p_id p <> 0%nat) (payments bi) ->
  fst (action_advanced_match bi w s) = inl no_communication.
Proof.
  intros Hw Hcomm Hpays Hline Hi Hl Hp.
  apply Exists_exists in Hline as [bad [Hbad Hop]].
  rewrite Forall_forall in Hl.
  assert (Hsub : forall (Q : payment -> Prop), Forall Q (payments bi) ->
                 Forall Q (wizard_payments bi w)).
  { intros Q HQ. rewrite Forall_forall in *. intros p Hin. apply HQ.
    unfold wizard_payments in Hin. now apply filter_In in Hin. }
  unfold action_advanced_match. rewrite bind_unlink_matches, bind_line_ids.
  change (lines_of (rec_id (w_import_id w)) (mk_db (db_lines s) _ _ _))
    with (lines_of (rec_id (w_import_id w)) s).
  apply fails_with_bind. apply fails_with_fold_each with (bad := bad); [assumption| |].
  - intros acc. apply fails_with_bind, find_advanced_matches_fails; auto.
  - intros acc line Hin. apply returns_or_bind.
    + apply find_advanced_matches_returns_or; auto.
    + intros a. apply returns_returns_or, returns_ret.
Qed.

Lemma advanced_match_without_communication_witness :
  fst (action_advanced_match Sample.bank_host
         (mk_wizard Sample.matching_import None None Float.zero true true true)
         Sample.matching_db)
  = inl no_communication.
Proof.
  apply advanced_match_without_communication.
  - reflexivity.
  - repeat constructor.
  - discriminate.
  - apply Exists_cons_tl, Exists_cons_hd. reflexivity.
  - discriminate.
  - repeat constructor; discriminate.
  - repeat constructor; discriminate.
Defined.

(** ** Matches and the lines they link *)

Lemma unlink_lines_refs_ok (imp : nat) (s : db) :
  match_refs_ok s -> match_refs_ok (snd (unlink_lines imp s)).
Proof.
  intros Hs m Hm. unfold unlink_lines in Hm |- *. simpl in Hm |- *.
  apply filter_In in Hm as [Hm Hkeep].
  destruct (Hs m Hm) as [l [Hl [Hid Himp]]].
  exists l. split; [|now split]. apply filter_In. split; [assumption|].
  destruct (Nat.eqb_spec (import_id (vals l)) imp) as [E|E]; [|reflexivity].
  apply negb_true_iff in Hkeep.
  assert (Hgone : existsb (Nat.eqb (import_line_id m)) (map line_id (lines_of imp s)) = true).
  { apply existsb_exists. exists (line_id l). split.
    - apply in_map, filter_In. split; [assumption|]. now apply Nat.eqb_eq.
    - apply Nat.eqb_eq. now rewrite Hid. }
  congruence.
Qed.

Lemma add_lines_refs_ok (vs : list line_vals) (s : db) :
  match_refs_ok s -> match_refs_ok (add_lines vs s).
Proof.
  intros Hs m Hm. destruct (Hs m Hm) as [l [Hl H]].
  exists l. split; [|assumption]. unfold add_lines. simpl. apply in_or_app. now left.
Qed.

Lemma added_matches_refs_ok (s s' : db) (imp : nat) (new : list import_match) :
  match_refs_ok s ->
  db_lines s' = db_lines s ->
  db_matches s'
  = (filter (fun m => negb (m_import_id m =? imp)%nat) (db_matches s) ++ new)%list ->
  Forall (fun m => m_import_id m = imp
                   /\ exists l, In l (lines_of imp s) /\ import_line_id m = line_id l) new ->
  match_refs_ok s'.
Proof.
  intros Hs Hl Hm Hnew m Hin. rewrite Hl. rewrite Hm in Hin.
  apply in_app_or in Hin as [Hin|Hin].
  - apply filter_In in Hin as [Hin _]. now apply Hs.
  - rewrite Forall_forall in Hnew. destruct (Hnew m Hin) as [Hi [l [Hlin Hid]]].
    apply filter_In in Hlin as [Hlin Himp]. apply Nat.eqb_eq in Himp.
    exists l. split; [assumption|]. split; congruence.
Qed.

Lemma action_match_payments_no_lines (bi : builtins) (self : bank_import) (s : db) :
  lines_of (rec_id self) s = []%list ->
  snd (action_match_payments bi self s) = s.
Proof.
  intros El. unfold action_match_payments. rewrite bind_line_ids, El. reflexivity.
Qed.

Lemma reachable_refs_ok (s : db) : reachable s -> match_refs_ok s.
Proof.
  induction 1 as [|bi self s _ IH|bi self s _ IH|bi w s Hpays _ IH].
  - intros m [].
  - destruct (has_file self) eqn:Hfile.
    + destruct (parse_file_creates bi self) as [r [vs [Hvs Hparse]]].
      destruct (action_process_file_run bi self r vs s Hfile Hvs Hparse) as [-> _].
      simpl. now apply add_lines_refs_ok, unlink_lines_refs_ok.
    + unfold action_process_file. now rewrite Hfile.
  - destruct (lines_of (rec_id self) s) as [|l0 ls] eqn:El.
    + now rewrite action_match_payments_no_lines.
    + destruct (action_match_payments_run bi self s) as [new [Hl [Hm Hnew]]];
        [congruence|].
      apply (added_matches_refs_ok s _ (rec_id self) new IH Hl Hm).
      eapply Forall_impl; [|exact Hnew]. intros m [Hi [Hline _]]. now split.
  - destruct (action_advanced_match_run bi w s) as [new [Hl [Hm Hnew]]].
    apply (added_matches_refs_ok s _ (rec_id (w_import_id w)) new IH Hl Hm).
    eapply Forall_impl; [|exact Hnew].
    intros m [Hi [l [p [score [Hlin [_ [Hid _]]]]]]]. split; [assumption|]. now exists l.
Qed.

(** In every store the module produces, each match links a line that is
    in the store and belongs to the import of the match: [process()]
    takes the matches of the lines it deletes with them, and the match
    runs link lines of the import only. *)
Theorem matches_link_stored_lines (s : db) (m : import_match) :
  reachable s -> In m (db_matches s) ->
  exists l : import_line,
    In l (lines_of (m_import_id m) s) /\ line_id l = import_line_id m.
Proof.
  intros Hs Hm. destruct (reachable_refs_ok s Hs m Hm) as [l [Hl [Hid Himp]]].
  exists l. split; [|assumption]. apply filter_In. split; [assumption|].
  now apply Nat.eqb_eq.
Qed.

Lemma matches_link_stored_lines_witness :
  exists l : import_line,
    In l (lines_of 1 (snd (action_match_payments Sample.bank_host Sample.good_import
                             Sample.processed_db)))
    /\ line_id l = 2.
Proof.
  apply (matches_link_stored_lines
           (snd (action_match_payments Sample.bank_host Sample.good_import
                   Sample.processed_db))
           (mk_match 1 1 2 9 partial)).
  - apply reachable_match, reachable_process, reachable_empty.
  - vm_compute. now left.
Defined.

Lemma cascade_clears (imp : nat) (gone : list nat) (ms : list import_match) :
  (forall m, In m ms -> m_import_id m = imp ->
             existsb (Nat.eqb (import_line_id m)) gone = true) ->
  filter (fun m => (m_import_id m =? imp)%nat)
         (filter (fun m => negb (existsb (Nat.eqb (import_line_id m)) gone)) ms) = []%list.
Proof.
  induction ms as [|m ms IH]; intros H; [reflexivity|]. simpl.
  assert (Hms : forall m0, In m0 ms -> m_import_id m0 = imp ->
                  existsb (Nat.eqb (import_line_id m0)) gone = true).
  { intros m0 H0. apply H. now right. }
  destruct (existsb (Nat.eqb (import_line_id m)) gone) eqn:Egone; simpl; [now apply IH|].
  destruct (Nat.eqb_spec (m_import_id m) imp) as [E|E]; [|now apply IH].
  rewrite (H m (or_introl eq_refl) E) in Egone. discriminate.
Qed.

(** [process()] on an import with a file leaves the import without
    matches, whatever the outcome of the parsing: in a store the module
    produced, all its matches link lines of the import, and go with them. *)
Theorem process_discards_matches (bi : builtins) (self : bank_import) (s : db) :
  reachable s -> has_file self = true ->
  matches_of (rec_id self) (snd (action_process_file bi self s)) = []%list.
Proof.
  intros Hs Hfile.
  destruct (parse_file_creates bi self) as [r [vs [Hvs Hparse]]].
  destruct (action_process_file_run bi self r vs s Hfile Hvs Hparse) as [-> _].
  unfold matches_of, add_lines, unlink_lines. cbn [snd db_matches].
  apply cascade_clears. intros m Hm Himp.
  destruct (reachable_refs_ok s Hs m Hm) as [l [Hl [Hid Hli]]].
  apply existsb_exists. exists (line_id l). split.
  - apply in_map, filter_In. split; [assumption|]. apply Nat.eqb_eq. congruence.
  - apply Nat.eqb_eq. now rewrite Hid.
Qed.

Lemma process_discards_matches_witness :
  matches_of (rec_id Sample.good_import)
             (snd (action_process_file Sample.bank_host Sample.good_import
                     Sample.matched_db)) = []%list.
Proof.
  apply (process_discards_matches Sample.bank_host Sample.good_import Sample.matched_db).
  - unfold Sample.matched_db. apply reachable_advanced.
    + simpl. repeat constructor; simpl; lia.
    + apply reachable_match, reachable_process, reachable_empty.
  - reflexivity.
Defined.

(** ** The counters of an import *)

Lemma is_matched_has_match (l : import_line) (s : db) :
  _compute_is_matched l s = true ->
  In (line_id l) (map import_line_id (matches_of (import_id (vals l)) s)).
Proof.
  unfold _compute_is_matched.
  destruct (filter _ (matches_of (import_id (vals l)) s)) as [|m ms] eqn:E; [discriminate|].
  intros _. assert (Hin : In m (m :: ms)) by now left.
  rewrite <- E in Hin. apply filter_In in Hin as [Hin Hid].
  apply Nat.eqb_eq in Hid. rewrite <- Hid. now apply in_map.
Qed.

Lemma matched_lines_bound (imp : nat) (s : db) :
  NoDup (map line_id (db_lines s)) ->
  length (filter (fun l => _compute_is_matched l s) (lines_of imp s))
  <= length (matches_of imp s).
Proof.
  intros Hids.
  rewrite <- (length_map line_id), <- (length_map import_line_id (matches_of imp s)).
  apply NoDup_incl_length.
  - unfold lines_of. now apply distinct_keys_filter, distinct_keys_filter.
  - intros i Hi. apply in_map_iff in Hi as [l [<- Hl]].
    apply filter_In in Hl as [Hl Hmatched].
    apply filter_In in Hl as [_ Himp]. apply Nat.eqb_eq in Himp.
    rewrite <- Himp. now apply is_matched_has_match.
Qed.

(** The counter "operaciones sin emparejar" is the number of lines less
    the number of matches, not the number of lines without a match: in a
    store the module produced it is at most the number of lines that
    [is_matched] leaves unmarked (and below it as soon as a line has two
    matches). *)
Theorem unmatched_counter_bound (self : bank_import) (s : db) :
  reachable s ->
  (unmatched_operations (_compute_totals self s)
   <= Z.of_nat (length (filter (fun l => negb (_compute_is_matched l s))
                               (lines_of (rec_id self) s))))%Z.
Proof.
  intros Hs. destruct (reachable_store_ok s Hs) as [_ [Hids _]].
  pose proof (matched_lines_bound (rec_id self) s Hids) as Hbound.
  pose proof (filter_length (fun l => _compute_is_matched l s) (lines_of (rec_id self) s))
    as Hsplit.
  unfold _compute_totals. simpl. lia.
Qed.

(** Two payments carry the operation number of the second movement: the
    counter gives 0 although the first movement has no match. *)
Lemma unmatched_counter_bound_witness :
  (unmatched_operations (_compute_totals Sample.good_import Sample.twin_db)
   <= Z.of_nat (length (filter (fun l => negb (_compute_is_matched l Sample.twin_db))
                               (lines_of 1 Sample.twin_db))))%Z
  /\ unmatched_operations (_compute_totals Sample.good_import Sample.twin_db) = 0%Z
  /\ length (filter (fun l => negb (_compute_is_matched l Sample.twin_db))
                    (lines_of 1 Sample.twin_db)) = 1.
Proof.
  split; [|split; reflexivity].
  apply (unmatched_counter_bound Sample.good_import Sample.twin_db).
  unfold Sample.twin_db, Sample.processed_db.
  apply reachable_match, reachable_process, reachable_empty.
Defined.

(** ** Amounts *)

Lemma abs_neg (x : Float.float) : Float.abs (Float.neg x) = Float.abs x.
Proof. now destruct x. Qed.

(** The payments [match()] tries for a line by amount: when some payment
    that is posted, sent or in process has the absolute amount of the
    line, only the payments with that amount are tried, and the ones
    within a cent of it are not looked at. *)
Theorem exact_amount_shadows_tolerance (bi : builtins) (x : Float.float) (q p : payment) :
  In q (payments bi) -> active_state q = true ->
  Float.eqb (p_amount q) (Float.abs x) = true ->
  (In p (amount_matches bi x)
   <-> In p (payments bi) /\ active_state p = true
       /\ Float.eqb (p_amount p) (Float.abs x) = true).
Proof.
  intros Hq Hact Heq. unfold amount_matches.
  destruct (filter (fun p0 => active_state p0 && Float.eqb (p_amount p0) (Float.abs x))
                   (payments bi)) as [|p0 l] eqn:E.
  - exfalso. assert (Hin : In q []%list); [|destruct Hin].
    rewrite <- E. apply filter_In. split; [assumption|]. now rewrite Hact, Heq.
  - rewrite <- E, filter_In, andb_true_iff. tauto.
Qed.

Lemma exact_amount_shadows_tolerance_witness :
  In (Sample.pay 8 "posted" (Float.of_Z 100) "PBNK1/2024/00008" EmptyString)
     (amount_matches Sample.bank_host (Float.of_Z (-100)))
  <-> In (Sample.pay 8 "posted" (Float.of_Z 100) "PBNK1/2024/00008" EmptyString)
         (payments Sample.bank_host)
      /\ active_state (Sample.pay 8 "posted" (Float.of_Z 100) "PBNK1/2024/00008" EmptyString)
         = true
      /\ Float.eqb (Float.of_Z 100) (Float.abs (Float.of_Z (-100))) = true.
Proof.
  apply (exact_amount_shadows_tolerance Sample.bank_host (Float.of_Z (-100))
           (Sample.pay 8 "posted" (Float.of_Z 100) "PBNK1/2024/00008" EmptyString)).
  - now left.
  - reflexivity.
  - reflexivity.
Defined.

(** The sign of the amount of a line plays no part in matching: a debit
    and a credit of the same absolute amount get the same matches from
    [match()], and the same score from the advanced match. *)
Theorem match_ignores_sign (bi : builtins) (self : bank_import) (w : wizard)
    (id imp : nat) (d : date) (desc op orig : string) (x : Float.float) (p : payment) :
  _find_matching_payments bi self
    (mk_line id (mk_line_vals imp d desc (Float.neg x) op orig))
  = _find_matching_payments bi self (mk_line id (mk_line_vals imp d desc x op orig))
  /\ _calculate_match_score w (mk_line id (mk_line_vals imp d desc (Float.neg x) op orig)) p
     = _calculate_match_score w (mk_line id (mk_line_vals imp d desc x op orig)) p.
Proof.
  split.
  - unfold _find_matching_payments, amount_matches. cbn [vals amount operation_number line_id].
    now rewrite abs_neg.
  - unfold _calculate_match_score, _amounts_match. cbn [vals amount operation_number].
    now rewrite abs_neg.
Qed.

(** ** The errors of the actions *)

Lemma raises_only_bind {A B : Type} (P : exn -> Prop) (m : M A) (f : A -> M B) :
  raises_only P m -> (forall a, raises_only P (f a)) -> raises_only P (bind m f).
Proof.
  intros Hm Hf s e. unfold bind. specialize (Hm s).
  destruct (m s) as [[e'|a] s1]; simpl in *.
  - intros [= <-]. now apply Hm.
  - apply Hf.
Qed.

Lemma raises_only_ret {A : Type} (P : exn -> Prop) (a : A) : raises_only P (ret a).
Proof. intros s e H. discriminate. Qed.

Lemma raises_only_raise {A : Type} (P : exn -> Prop) (e : exn) :
  P e -> raises_only P (@raise A e).
Proof. intros He s e' [= <-]. exact He. Qed.

Lemma raises_only_handler {A : Type} (P : exn -> Prop) (m : M A) (h : exn -> M A) :
  (forall e, raises_only P (h e)) -> raises_only P (try_except m h).
Proof.
  intros Hh s e. unfold try_except.
  destruct (m s) as [[e'|a] s1]; simpl; [apply Hh|discriminate].
Qed.

Lemma raises_only_fold_each {A B : Type} (P : exn -> Prop) (l : list A)
    (body : B -> A -> M B) :
  (forall acc x, raises_only P (body acc x)) ->
  forall acc, raises_only P (fold_each l acc body).
Proof.
  intros Hbody. induction l as [|x l IH]; intros acc; simpl.
  - apply raises_only_ret.
  - apply raises_only_bind; [apply Hbody|apply IH].
Qed.

Lemma process_excel_file_user_errors (bi : builtins) (self : bank_import) :
  raises_only is_user_error (_process_excel_file bi self).
Proof.
  unfold _process_excel_file. apply raises_only_handler.
  intros [msg|msg]; apply raises_only_raise; eexists; reflexivity.
Qed.

Lemma process_txt_file_user_errors (bi : builtins) (self : bank_import) :
  raises_only is_user_error (_process_txt_file bi self).
Proof.
  unfold _process_txt_file. apply raises_only_handler.
  intros e. apply raises_only_raise. eexists. reflexivity.
Qed.

Lemma raises_only_reraise {A : Type} (P : exn -> Prop) (m : M A) :
  raises_only P m -> raises_only P (try_except m (fun e => raise e)).
Proof.
  intros Hm s e. unfold try_except. specialize (Hm s).
  destruct (m s) as [[e'|a] s1]; simpl in *; [|discriminate].
  intros [= <-]. now apply Hm.
Qed.

Lemma action_process_file_user_errors (bi : builtins) (self : bank_import) :
  raises_only is_user_error (action_process_file bi self).
Proof.
  unfold action_process_file.
  destruct (negb (has_file self)); [apply raises_only_raise; eexists; reflexivity|].
  apply raises_only_bind; [intros s e H; discriminate|]. intros _.
  apply raises_only_reraise, raises_only_bind.
  - destruct (file_type self);
      [apply process_txt_file_user_errors|apply process_excel_file_user_errors].
  - intros _. apply raises_only_bind; [intros s e H; discriminate|]. intros lines.
    destruct (length lines =? 0)%nat;
      [apply raises_only_raise; eexists; reflexivity|apply raises_only_ret].
Qed.

Lemma action_match_payments_user_errors (bi : builtins) (self : bank_import) :
  raises_only is_user_error (action_match_payments bi self).
Proof.
  unfold action_match_payments.
  apply raises_only_bind; [intros s e H; discriminate|]. intros [|l0 lines].
  - apply raises_only_raise. eexists. reflexivity.
  - apply raises_only_bind; [intros s e H; discriminate|]. intros _.
    apply raises_only_bind; [intros s e H; discriminate|]. intros lines'.
    apply raises_only_bind; [|intros n; apply raises_only_ret].
    apply raises_only_fold_each. intros acc line.
    apply raises_only_handler. intros e. apply raises_only_raise. eexists. reflexivity.
Qed.

(** [process()] and [match()] fail with user errors only: whatever goes
    wrong below them, in the decoding, the spreadsheet readers, the
    parsers or the creation of a match, reaches the caller as a
    [UserError]. *)
Theorem process_and_match_raise_user_errors (bi : builtins) (self : bank_import)
    (s : db) (e : exn) :
  fst (action_process_file bi self s) = inl e
  \/ fst (action_match_payments bi self s) = inl e ->
  exists msg : string, e = UserError msg.
Proof.
  intros [H|H].
  - exact (action_process_file_user_errors bi self s e H).
  - exact (action_match_payments_user_errors bi self s e H).
Qed.

Lemma process_and_match_raise_user_errors_witness :
  exists msg : string, UserError must_process_msg = UserError msg.
Proof.
  apply (process_and_match_raise_user_errors Sample.bank_host Sample.unprocessed_import
           Sample.empty_db).
  right. reflexivity.
Defined.

(** ** Continental statements and the spreadsheet readers *)

Lemma attempt_xlrd_continental (bi : builtins) (self : bank_import)
    (content : list Byte.byte) (before : bool * option string) (s : db) :
  bank_type self = continental -> fst before = false ->
  exists last_error : option string,
    attempt_xlrd bi self content before s = (inr (false, last_error), s).
Proof.
  intros Hbank Hbefore. unfold attempt_xlrd.
  destruct (xlrd bi) as [open_workbook|]; [|exists (snd before); destruct before; simpl in *;
                                            now subst].
  rewrite Hbefore. cbn [negb]. unfold try_except, bind, call.
  destruct (open_workbook content) as [e|workbook]; [eexists; reflexivity|].
  destruct (xlrd_sheet self workbook) as [e|sheet]; [eexists; reflexivity|].
  destruct (nrows sheet <? 2)%nat; [eexists; reflexivity|].
  unfold _parse_excel_xlrd. rewrite Hbank. eexists. reflexivity.
Qed.

(** A Continental statement is read by openpyxl or not at all: on a host
    without openpyxl, [process()] on a spreadsheet of bank Continental
    fails with a user error whatever the file holds, and leaves the
    import without lines. The xlrd branch calls
    [_parse_continental_excel_xlrd], which the class does not define. *)
Theorem continental_needs_openpyxl (bi : builtins) (self : bank_import) (s : db) :
  bank_type self = continental -> file_type self = excel -> openpyxl bi = None ->
  has_file self = true ->
  exists msg : string,
    fst (action_process_file bi self s) = inl (UserError msg)
    /\ lines_of (rec_id self) (snd (action_process_file bi self s)) = []%list.
Proof.
  intros Hbank Htype Hlib Hfile.
  assert (Hparse : forall s0, exists msg,
            _process_excel_file bi self s0 = (inl (UserError msg), s0)).
  { intros s0. unfold _process_excel_file, try_except. unfold bind at 1, call.
    destruct (match file_data self with
              | Some data => b64decode bi data
              | None => inl (PyError "argument should be a bytes-like object")
              end) as [[msg|msg]|content]; [eexists; reflexivity|eexists; reflexivity|].
    rewrite Hlib. destruct (xlrd bi) as [open_workbook|] eqn:Hx; [|eexists; reflexivity].
    unfold bind at 1. unfold attempt_openpyxl. rewrite Hlib. unfold ret at 1.
    unfold bind at 1.
    destruct (attempt_xlrd_continental bi self content (false, None) s0 Hbank eq_refl)
      as [last_error ->].
    eexists. reflexivity. }
  destruct (parse_file_creates bi self) as [r [vs [Hvs Hcreates]]].
  destruct (Hparse s) as [msg Hmsg].
  pose proof (Hcreates s) as Hs. unfold parse_file in Hs. rewrite Htype, Hmsg in Hs.
  injection Hs as Hr Hstore.
  assert (Hnil : vs = []%list).
  { apply (f_equal next_line_id) in Hstore. unfold add_lines in Hstore. simpl in Hstore.
    destruct vs; [reflexivity|simpl in Hstore; lia]. }
  subst vs r.
  destruct (action_process_file_run bi self _ _ s Hfile Hvs Hcreates) as [Hrun Hlines].
  rewrite Hrun. exists msg. split; [reflexivity|].
  cbn [snd]. now apply map_eq_nil in Hlines.
Qed.

(** A host with xlrd only, whose reader opens the sample workbook. *)
Lemma continental_needs_openpyxl_witness :
  exists msg : string,
    fst (action_process_file
           (Ref.make None (Some (fun _ => inr [Sample.nacion_xls]%list)) Sample.clock []%list)
           Sample.continental_import Sample.empty_db) = inl (UserError msg)
    /\ lines_of (rec_id Sample.continental_import)
         (snd (action_process_file
                 (Ref.make None (Some (fun _ => inr [Sample.nacion_xls]%list)) Sample.clock
                           []%list)
                 Sample.continental_import Sample.empty_db)) = []%list.
Proof.
  apply (continental_needs_openpyxl
           (Ref.make None (Some (fun _ => inr [Sample.nacion_xls]%list)) Sample.clock []%list)
           Sample.continental_import Sample.empty_db); reflexivity.
Defined.

(** ** The generic spreadsheet parsers *)

Lemma create_line_add_lines (v : line_vals) (s : db) :
  create_line v s = (inr tt, add_lines [v]%list s).
Proof. unfold create_line, add_lines. simpl. now rewrite Nat.add_1_r. Qed.

Lemma create_excel_import_line_run (bi : builtins) (self : bank_import)
    (row : list value) (mapping : col_mapping) (parser_type : parser) (s : db) :
  _create_excel_import_line bi self row mapping parser_type s
  = (inr tt,
     add_lines match excel_line_vals bi self parser_type row mapping with
               | Some v => [v]%list
               | None => []%list
               end s).
Proof.
  unfold _create_excel_import_line, try_except.
  destruct (excel_line_vals bi self parser_type row mapping) as [v|].
  - now rewrite create_line_add_lines.
  - now rewrite add_lines_nil.
Qed.

Lemma excel_rows_loop_from (bi : builtins) (self : bank_import) (parser_type : parser)
    (mapping : col_mapping) (rows : list (list value)) (acc : nat) (s : db) :
  fold_each rows acc
    (fun lines_created row =>
       if negb (existsb value_truthy row) then ret lines_created
       else
         try_except
           (_create_excel_import_line bi self row mapping parser_type ;;
            ret (S lines_created))
           (fun _ => ret lines_created)) s
  = (inr (acc + length (filled_rows rows)),
     add_lines (excel_rows_vals bi self parser_type rows mapping) s).
Proof.
  revert acc s. induction rows as [|row rows IH]; intros acc s.
  - simpl. unfold excel_rows_vals, filled_rows. simpl.
    now rewrite add_lines_nil, Nat.add_0_r.
  - cbn [fold_each]. unfold bind at 1. unfold excel_rows_vals, filled_rows. cbn [filter].
    destruct (existsb value_truthy row) eqn:Erow; cbn [negb].
    + unfold try_except, bind at 1. rewrite create_excel_import_line_run.
      cbv beta iota. unfold ret at 1. rewrite IH.
      cbn [flat_map length]. rewrite add_lines_app.
      fold (filled_rows rows). fold (excel_rows_vals bi self parser_type rows mapping).
      now rewrite Nat.add_succ_r.
    + unfold ret at 1. now rewrite IH.
Qed.

(** The rows loop of the generic parsers counts the rows it hands to
    [_create_excel_import_line], that is the rows with a cell that is not
    empty, whether or not a line was created for them: a row with cells
    but no date, amount or operation number is counted and gives no
    line.  The loop never fails, and the lines it creates are those of
    the rows that have enough data, in order. *)
Theorem excel_rows_loop_counts_rows (bi : builtins) (self : bank_import)
    (parser_type : parser) (rows : list (list value)) (mapping : col_mapping) (s : db) :
  excel_rows_loop bi self parser_type rows mapping s
  = (inr (length (filled_rows rows)),
     add_lines (excel_rows_vals bi self parser_type rows mapping) s)
  /\ length (excel_rows_vals bi self parser_type rows mapping)
     <= length (filled_rows rows).
Proof.
  split.
  - unfold excel_rows_loop. now rewrite excel_rows_loop_from.
  - unfold excel_rows_vals. induction (filled_rows rows) as [|row l IH]; simpl; [lia|].
    rewrite length_app.
    destruct (excel_line_vals bi self parser_type row mapping); simpl; lia.
Qed.

(** ** The columns of a generic spreadsheet *)

Lemma enumerate_from_app {A : Type} (i : nat) (a b : list A) :
  enumerate_from i (a ++ b)%list
  = (enumerate_from i a ++ enumerate_from (i + length a) b)%list.
Proof.
  revert i. induction a as [|x a IH]; intros i; simpl.
  - now rewrite Nat.add_0_r.
  - rewrite IH. do 3 f_equal. lia.
Qed.

Lemma cm_date_map_header (mapping : col_mapping) (i : nat) (header : string) :
  cm_date (map_header mapping (i, header))
  = if is_date_header header then Some i else cm_date mapping.
Proof.
  unfold map_header, is_date_header.
  destruct (any_word_in ["fecha"; "date"; "dia"]%list _); [reflexivity|].
  repeat match goal with
         | |- context [if ?b then _ else _] => destruct b; try reflexivity
         end.
Qed.

Lemma column_mapping_snoc (headers : list string) (header : string) :
  _get_excel_column_mapping (headers ++ [header])%list
  = map_header (_get_excel_column_mapping headers) (length headers, header).
Proof.
  unfold _get_excel_column_mapping, enumerate.
  now rewrite enumerate_from_app, fold_left_app.
Qed.

(** The date column of [_get_excel_column_mapping] is the last header
    that holds one of the words fecha, date, dia; there is none exactly
    when no header holds one. *)
Theorem date_column_is_last_date_header (headers : list string) :
  match cm_date (_get_excel_column_mapping headers) with
  | Some i =>
      i < length headers
      /\ is_date_header (nth i headers EmptyString) = true
      /\ forall j, i < j < length headers ->
                   is_date_header (nth j headers EmptyString) = false
  | None => forall header, In header headers -> is_date_header header = false
  end.
Proof.
  induction headers as [|header headers IH] using rev_ind.
  - intros header [].
  - rewrite column_mapping_snoc, cm_date_map_header, length_app. cbn [length].
    destruct (is_date_header header) eqn:Ehead.
    + split; [lia|]. split; [|intros j Hj; lia].
      now rewrite app_nth2, Nat.sub_diag by lia.
    + destruct (cm_date (_get_excel_column_mapping headers)) as [i|].
      * destruct IH as [Hi [Hdate Hlast]]. split; [lia|]. split.
        -- now rewrite app_nth1 by lia.
        -- intros j Hj. destruct (Nat.eq_dec j (length headers)) as [->|Hne].
           ++ now rewrite app_nth2, Nat.sub_diag by lia.
           ++ rewrite app_nth1 by lia. apply Hlast. lia.
      * intros h Hin. apply in_app_or in Hin as [Hin|[<-|[]]]; [now apply IH|exact Ehead].
Qed.

Lemma date_column_is_last_date_header_witness :
  2 < 3
  /\ is_date_header "Fecha Valor" = true
  /\ forall j, 2 < j < 3 ->
               is_date_header (nth j ["Fecha"; "Cargo"; "Fecha Valor"]%list EmptyString)
               = false.
Proof.
  exact (date_column_is_last_date_header ["Fecha"; "Cargo"; "Fecha Valor"]%list).
Defined.
